(** * AlumniHuddle multi-tenancy layer of open-webui: a shallow embedding

    The development follows the Python modules of the backend:

    - [middleware/tenant.py]        slug extraction and the TTL cache,
    - [models/tenants.py]           the huddle (organization) directory,
    - [services/huddle_models.py]   the derived model identifier,
    - [middleware/model_filter.py]  the model-listing response filter,
    - [models/mentors.py]           the mentor queries,
    - [services/mentor_rag.py]      indexing and search,
    - [routers/mentors.py]          the single-mentor endpoint.

    Python exceptions are values of [exn]; a call that may raise returns a
    [result].  Module-level mutable state (the cache dictionary, the log, the
    vector store) is threaded explicitly. *)

From Stdlib Require Import ZArith QArith List Bool Ascii String DecimalString Lia
  Permutation.
From stdpp Require Import base option list gmap strings.

Import ListNotations.
Local Open Scope string_scope.
Local Open Scope Z_scope.

(** ** Python strings

    Header values reach the application decoded as latin-1, one character per
    byte, so [string] represents them exactly.  [chr_lower] is [str.lower]
    on that range: A-Z and the accented capitals U+00C0..U+00DE (without the
    multiplication sign U+00D7) move up by 32. *)

Module PyStr.

Definition chr_lower (c : ascii) : ascii :=
  let n := nat_of_ascii c in
  if ((65 <=? n) && (n <=? 90))%nat then ascii_of_nat (n + 32)
  else if ((192 <=? n) && (n <=? 222) && negb (n =? 215))%nat
       then ascii_of_nat (n + 32)
  else c.

Fixpoint lower (s : string) : string :=
  match s with
  | EmptyString => EmptyString
  | String c r => String (chr_lower c) (lower r)
  end.

(** [s.split(sep)] for a one-character separator: never the empty list. *)
Fixpoint split (sep : ascii) (s : string) : list string :=
  match s with
  | EmptyString => [EmptyString]
  | String c r =>
      if Ascii.eqb c sep then EmptyString :: split sep r
      else match split sep r with
           | h :: t => String c h :: t
           | [] => [String c EmptyString]
           end
  end.

(** [s.rstrip(ch)] for a one-character set. *)
Fixpoint rstrip (ch : ascii) (s : string) : string :=
  match s with
  | EmptyString => EmptyString
  | String c r =>
      match rstrip ch r with
      | EmptyString => if Ascii.eqb c ch then EmptyString else String c EmptyString
      | r' => String c r'
      end
  end.

Definition len (s : string) : nat := String.length s.

Definition endswith (s suf : string) : bool :=
  let n := len s in
  let m := len suf in
  if (m <=? n)%nat then String.eqb (String.substring (n - m) m s) suf
  else false.

(** [needle in s], the substring test. *)
Fixpoint contains (needle s : string) : bool :=
  if String.prefix needle s then true
  else match s with
       | EmptyString => false
       | String _ r => contains needle r
       end.

(** [s[: -n]] for [n = len(...)], a non-negative count: [-0] is [0], so the
    slice is empty when [n] is zero. *)
Definition slice_to_neg (s : string) (n : nat) : string :=
  match n with
  | O => EmptyString
  | _ => String.substring 0 (len s - n) s
  end.

Definition is_empty (s : string) : bool :=
  match s with EmptyString => true | _ => false end.

(** [x in seq] for a sequence of strings. *)
Definition mem (x : string) (l : list string) : bool :=
  existsb (String.eqb x) l.

End PyStr.

(** ** Exceptions and results *)

Inductive exn : Type :=
| HTTPException (status_code : Z) (detail : string)
| OperationalError            (* the relational store cannot be reached *)
| DataError                   (* the store rejects a statement *)
| TypeError
| AttributeError
| IndexError
| ValueError                  (* also JSONDecodeError, UnicodeDecodeError *)
| BadGzipFile
| RuntimeError (msg : string).

Inductive result (A : Type) : Type :=
| Ok (a : A)
| Raise (e : exn).
Arguments Ok {A} a.
Arguments Raise {A} e.

Definition rbind {A B} (r : result A) (k : A -> result B) : result B :=
  match r with
  | Ok a => k a
  | Raise e => Raise e
  end.

(** ** middleware/tenant.py: slug extraction *)

Module Tenant.

Definition DEFAULT_BASE_DOMAIN : string := "alumnihuddle.com".

Definition RESERVED_SUBDOMAINS : list string :=
  ["www"; "api"; "admin"; "app"; "localhost"].

(** The [for part in parts] loop: first part that is not reserved. *)
Fixpoint first_unreserved (parts : list string) : option string :=
  match parts with
  | [] => None
  | part :: rest =>
      if negb (PyStr.mem (PyStr.lower part) RESERVED_SUBDOMAINS)
      then Some (PyStr.lower part)
      else first_unreserved rest
  end.

(** [extract_subdomain(host)], with the module constant [BASE_DOMAIN]
    (read from the environment) as a parameter. *)
Definition extract_subdomain (BASE_DOMAIN : string) (host : string)
  : option string :=
  if PyStr.is_empty host then None
  else
    let host := match PyStr.split ":" host with
                | h :: _ => h
                | [] => host
                end in
    if PyStr.mem host ["localhost"; "127.0.0.1"] then None
    else if negb (PyStr.endswith host BASE_DOMAIN) then None
    else
      let subdomain_part :=
        PyStr.rstrip "." (PyStr.slice_to_neg host (PyStr.len BASE_DOMAIN)) in
      if PyStr.is_empty subdomain_part then None
      else
        let parts := PyStr.split "." subdomain_part in
        match parts with
        | [p] =>
            if PyStr.mem (PyStr.lower p) RESERVED_SUBDOMAINS then None
            else Some (PyStr.lower p)
        | _ => first_unreserved parts
        end.

End Tenant.

(** ** models/tenants.py: the huddle directory *)

(** A table of the relational store as a query sees it: its rows, or the
    exception every statement raises while the store cannot be reached. *)
Inductive Store (R : Type) : Type :=
| Online (rows : list R)
| Offline (e : exn).
Arguments Online {R} rows.
Arguments Offline {R} e.

(** Clock readings ([time.time()], timestamps) are rationals, in seconds. *)
Definition time := Q.

Module Tenants.

(** ORM row of the [huddles] table. *)
Record Huddle : Type := mkHuddle {
  h_id : string;
  h_name : string;
  h_slug : string;
  h_logo_url : option string;
  h_primary_color : option string;
  h_secondary_color : option string;
  h_require_approval : option bool;
  h_created_at : option time;
  h_deleted_at : option time;
  h_cover_photo_url : option string;
  h_admin_email : option string;
  h_description : option string
}.

Record HuddleModel : Type := mkHuddleModel {
  id : string;
  name : string;
  slug : string;
  logo_url : option string;
  cover_photo_url : option string;
  primary_color : option string;
  secondary_color : option string;
  require_approval : bool;
  admin_email : option string;
  description : option string
}.

Definition from_orm_with_str_id (huddle : Huddle) : HuddleModel :=
  {| id := h_id huddle;
     name := h_name huddle;
     slug := h_slug huddle;
     logo_url := h_logo_url huddle;
     cover_photo_url := h_cover_photo_url huddle;
     primary_color := h_primary_color huddle;
     secondary_color := h_secondary_color huddle;
     require_approval := default false (h_require_approval huddle);
     admin_email := h_admin_email huddle;
     description := h_description huddle |}.

(** [query.first()] after a filter. *)
Definition first {R} (p : R -> bool) (rows : list R) : option R :=
  List.find p rows.

(** [if huddle and huddle.deleted_at is None: ... return None] *)
Definition live_model (found : option Huddle) : option HuddleModel :=
  match found with
  | Some huddle =>
      match h_deleted_at huddle with
      | None => Some (from_orm_with_str_id huddle)
      | Some _ => None
      end
  | None => None
  end.

Definition get_huddle_by_id (db : Store Huddle) (huddle_id : string)
  : result (option HuddleModel) :=
  match db with
  | Offline e => Raise e
  | Online rows =>
      Ok (live_model (first (fun h => String.eqb (h_id h) huddle_id) rows))
  end.

Definition get_huddle_by_slug (db : Store Huddle) (slug : string)
  : result (option HuddleModel) :=
  match db with
  | Offline e => Raise e
  | Online rows =>
      Ok (live_model
            (first (fun h => String.eqb (h_slug h) (PyStr.lower slug)) rows))
  end.

End Tenants.

(** ** middleware/tenant.py: the resolution cache *)

Module TenantCache.

Definition CACHE_TTL_SECONDS : Q := 300 # 1.

Definition Qltb (a b : Q) : bool := negb (Qle_bool b a).

(** The module dictionary [_huddle_cache], together with a ghost trace of
    the slugs handed to the directory, most recent first.  The trace is
    never read by the code. *)
Record State : Type := mkState {
  _huddle_cache : gmap string (option Tenants.HuddleModel * time);
  directory_calls : list string
}.

Definition fresh (now cached_at : time) : bool :=
  Qltb (now - cached_at) CACHE_TTL_SECONDS.

(** [get_cached_huddle(slug)]; [now] is the reading of [time.time()] taken
    on entry and [db] the directory as it stands during the call. *)
Definition get_cached_huddle (db : Store Tenants.Huddle) (now : time)
    (slug : string) (st : State)
  : result (option Tenants.HuddleModel) * State :=
  let hit :=
    match _huddle_cache st !! slug with
    | Some (huddle, cached_at) =>
        if fresh now cached_at then Some huddle else None
    | None => None
    end in
  match hit with
  | Some huddle => (Ok huddle, st)
  | None =>
      let calls := slug :: directory_calls st in
      match Tenants.get_huddle_by_slug db slug with
      | Ok huddle =>
          (Ok huddle,
           {| _huddle_cache := <[slug := (huddle, now)]> (_huddle_cache st);
              directory_calls := calls |})
      | Raise e =>
          let st' := {| _huddle_cache := _huddle_cache st;
                        directory_calls := calls |} in
          match _huddle_cache st !! slug with
          | Some entry => (Ok (fst entry), st')
          | None => (Raise e, st')
          end
      end
  end.

End TenantCache.

(** ** models/mentors.py: mentor profiles *)

Module Mentors.

(** ORM row of the [profiles] table; the columns no query reads (contact
    details, social links, audit stamps) are left out. *)
Record Profile : Type := mkProfile {
  p_id : string;
  p_huddle_id : string;
  p_full_name : string;
  p_class_year : Z;
  p_metro_area : string;
  p_linkedin_url : option string;
  p_current_company : option string;
  p_title : option string;
  p_prior_roles : option string;
  p_industry : option string;
  p_skills_experience : option string;
  p_mentorship_status : string;
  p_photo_url : option string;
  p_deleted_at : option time
}.

Record MentorProfileModel : Type := mkMentorProfileModel {
  id : string;
  huddle_id : string;
  full_name : string;
  class_year : Z;
  metro_area : string;
  current_company : option string;
  title : option string;
  prior_roles : option string;
  industry : option string;
  skills_experience : option string;
  linkedin_url : option string;
  photo_url : option string
}.

Definition from_orm_with_str_id (profile : Profile) : MentorProfileModel :=
  {| id := p_id profile;
     huddle_id := p_huddle_id profile;
     full_name := p_full_name profile;
     class_year := p_class_year profile;
     metro_area := p_metro_area profile;
     current_company := p_current_company profile;
     title := p_title profile;
     prior_roles := p_prior_roles profile;
     industry := p_industry profile;
     skills_experience := p_skills_experience profile;
     linkedin_url := p_linkedin_url profile;
     photo_url := p_photo_url profile |}.

(** [str(n)] for an [int]. *)
Definition str_of_int (n : Z) : string :=
  DecimalString.NilEmpty.string_of_int (Z.to_int n).

(** Truthiness of an [Optional[str]]: set and not empty. *)
Definition truthy (o : option string) : option string :=
  match o with
  | Some s => if PyStr.is_empty s then None else Some s
  | None => None
  end.

Definition newline : string := String (ascii_of_nat 10) EmptyString.

(** ["\n".join(parts)] *)
Fixpoint join (sep : string) (parts : list string) : string :=
  match parts with
  | [] => EmptyString
  | [p] => p
  | p :: rest => p ++ sep ++ join sep rest
  end.

Definition to_rag_document (self : MentorProfileModel) : string :=
  let parts :=
    [ "Name: " ++ full_name self;
      "Class Year: " ++ str_of_int (class_year self);
      "Location: " ++ metro_area self ] in
  let parts :=
    match truthy (title self), truthy (current_company self) with
    | Some t, Some c => (parts ++ ["Current Role: " +:+ t +:+ " at " +:+ c])%list
    | Some t, None => (parts ++ ["Current Role: " +:+ t])%list
    | None, Some c => (parts ++ ["Current Company: " +:+ c])%list
    | None, None => parts
    end in
  let parts :=
    match truthy (industry self) with
    | Some i => (parts ++ ["Industry: " +:+ i])%list
    | None => parts
    end in
  let parts :=
    match truthy (skills_experience self) with
    | Some s => (parts ++ ["Skills & Experience: " +:+ s])%list
    | None => parts
    end in
  let parts :=
    match truthy (prior_roles self) with
    | Some r => (parts ++ ["Prior Roles: " +:+ r])%list
    | None => parts
    end in
  join newline parts.

Definition MENTOR_STATUS : string := "Willing to mentor".

Definition is_null {A} (o : option A) : bool :=
  match o with None => true | Some _ => false end.

(** [ORDER BY full_name ASC]: a stable insertion sort on the byte order of
    the names (the order of the store's C collation). *)
Fixpoint insert_by_name (p : Profile) (l : list Profile) : list Profile :=
  match l with
  | [] => [p]
  | q :: r =>
      if String.leb (p_full_name p) (p_full_name q) then p :: q :: r
      else q :: insert_by_name p r
  end.

Definition order_by_full_name (l : list Profile) : list Profile :=
  fold_right insert_by_name [] l.

(** [OFFSET]/[LIMIT], applied only when the Python value is truthy; the
    store rejects a negative count. *)
Definition offset {A} (skip : Z) (rows : list A) : result (list A) :=
  if skip =? 0 then Ok rows
  else if skip <? 0 then Raise DataError
  else Ok (List.skipn (Z.to_nat skip) rows).

Definition limit_rows {A} (limit : Z) (rows : list A) : result (list A) :=
  if limit =? 0 then Ok rows
  else if limit <? 0 then Raise DataError
  else Ok (List.firstn (Z.to_nat limit) rows).

Definition get_mentors_by_huddle (db : Store Profile) (huddle_id : string)
    (skip : Z) (limit : Z) : result (list MentorProfileModel) :=
  match db with
  | Offline e => Raise e
  | Online rows =>
      let query :=
        List.filter
          (fun p => String.eqb (p_huddle_id p) huddle_id
                    && String.eqb (p_mentorship_status p) MENTOR_STATUS
                    && is_null (p_deleted_at p)) rows in
      let query := order_by_full_name query in
      rbind (offset skip query) (fun query =>
      rbind (limit_rows limit query) (fun profiles =>
      Ok (List.map from_orm_with_str_id profiles)))
  end.

Definition get_mentor_by_id (db : Store Profile) (mentor_id : string)
  : result (option MentorProfileModel) :=
  match db with
  | Offline e => Raise e
  | Online rows =>
      let profile :=
        List.find
          (fun p => String.eqb (p_id p) mentor_id
                    && String.eqb (p_mentorship_status p) MENTOR_STATUS
                    && is_null (p_deleted_at p)) rows in
      match profile with
      | Some profile => Ok (Some (from_orm_with_str_id profile))
      | None => Ok None
      end
  end.

Definition get_mentor_count_by_huddle (db : Store Profile)
    (huddle_id : string) : result Z :=
  match db with
  | Offline e => Raise e
  | Online rows =>
      Ok (Z.of_nat (List.length
            (List.filter
               (fun p => String.eqb (p_huddle_id p) huddle_id
                         && String.eqb (p_mentorship_status p) MENTOR_STATUS
                         && is_null (p_deleted_at p)) rows)))
  end.

(** [SELECT DISTINCT]: first occurrences, in row order. *)
Fixpoint distinct (l : list string) : list string :=
  match l with
  | [] => []
  | x :: r => x :: List.filter (fun y => negb (String.eqb x y)) (distinct r)
  end.

Definition get_all_huddle_ids_with_mentors (db : Store Profile)
  : result (list string) :=
  match db with
  | Offline e => Raise e
  | Online rows =>
      let results :=
        distinct
          (List.map p_huddle_id
             (List.filter
                (fun p => String.eqb (p_mentorship_status p) MENTOR_STATUS
                          && is_null (p_deleted_at p)) rows)) in
      Ok results
  end.

End Mentors.

(** ** State and exceptions for the service code

    A computation reads and updates a state and either returns or raises;
    the state reached when an exception is raised is kept, as effects done
    before a Python [raise] are. *)

Definition M (S A : Type) : Type := S -> result A * S.

Definition ret {S A} (a : A) : M S A := fun s => (Ok a, s).

Definition bind {S A B} (m : M S A) (k : A -> M S B) : M S B :=
  fun s =>
    match m s with
    | (Ok a, s') => k a s'
    | (Raise e, s') => (Raise e, s')
    end.

(** [try: body  except Exception as e: handler] *)
Definition try_except {S A} (body : M S A) (handler : exn -> M S A) : M S A :=
  fun s =>
    match body s with
    | (Ok a, s') => (Ok a, s')
    | (Raise e, s') => handler e s'
    end.

Definition lift_result {S A} (r : result A) : M S A := fun s => (r, s).

Declare Scope py_scope.
Delimit Scope py_scope with py.
Notation "x <- c ;; k" := (bind c (fun x => k))
  (at level 100, c at next level, right associativity) : py_scope.
Notation "c ;;; k" := (bind c (fun _ => k))
  (at level 100, right associativity) : py_scope.

(** Records written through [logging]; an interpolated exception is kept
    as a value next to the text before it. *)
Inductive LogRecord : Type :=
| LogInfo (msg : string)
| LogWarning (msg : string)
| LogError (msg : string) (e : option exn).

(** ** services/mentor_rag.py *)

Module MentorRag.

Definition get_mentor_collection_name (huddle_id : string) : string :=
  "mentors-" +:+ huddle_id.

Definition vector : Type := list Q.

Record Metadata : Type := mkMetadata {
  md_mentor_id : string;
  md_huddle_id : string;
  md_full_name : string;
  md_title : string;
  md_company : string;
  md_industry : string;
  md_class_year : string
}.

Record Item : Type := mkItem {
  item_id : string;
  item_text : string;
  item_vector : vector;
  item_metadata : Metadata
}.

(** What [VECTOR_DB_CLIENT.search] returns: parallel lists, one row per
    query vector. *)
Record SearchResult : Type := mkSearchResult {
  ids : option (list (list string));
  distances : option (list (list Q));
  documents : option (list (list string))
}.

(** One element of the list [search_mentors] returns. *)
Record Hit : Type := mkHit {
  mentor : Mentors.MentorProfileModel;
  relevance_score : Q;
  document_text : string
}.

(** The dictionary [{"indexed": .., "failed": .., "total": ..}]. *)
Record Counts : Type := mkCounts {
  indexed : Z;
  failed : Z;
  total : Z
}.

(** The vector store client of [open_webui.retrieval.vector.factory]: its
    code is outside these modules, so its operations are parameters acting
    on a store state [W]. *)
Record VectorClient (W : Type) : Type := mkVectorClient {
  upsert : string -> list Item -> M W unit;
  has_collection : string -> M W bool;
  search : string -> list vector -> Z -> M W (option SearchResult);
  delete : string -> list string -> M W unit
}.
Arguments upsert {W} _ _ _ _.
Arguments has_collection {W} _ _ _.
Arguments search {W} _ _ _ _ _.
Arguments delete {W} _ _ _ _.

(** State of a service call: the outside world (vector store, embedding
    backend) and the log written so far, oldest record first. *)
Record Env (W : Type) : Type := mkEnv {
  world : W;
  log : list LogRecord
}.
Arguments mkEnv {W} _ _.
Arguments world {W} _.
Arguments log {W} _.

Section Service.
Context {W : Type}.

(** [self.embedding_function]: unset, or an awaitable that may raise. *)
Variable embedding_function : option (string -> M W vector).
Variable VECTOR_DB_CLIENT : VectorClient W.
(** The [profiles] table during the call. *)
Variable profiles : Store Mentors.Profile.

Local Open Scope py_scope.

Definition in_world {A} (m : M W A) : M (Env W) A :=
  fun s =>
    let (r, w') := m (world s) in
    (r, {| world := w'; log := log s |}).

Definition emit (r : LogRecord) : M (Env W) unit :=
  fun s => (Ok tt, {| world := world s; log := (log s ++ [r])%list |}).

Definition or_empty (o : option string) : string :=
  match Mentors.truthy o with Some s => s | None => EmptyString end.

Definition index_mentor (mentor : Mentors.MentorProfileModel)
  : M (Env W) bool :=
  match embedding_function with
  | None =>
      emit (LogError "Embedding function not set" None) ;;;
      ret false
  | Some embed =>
      try_except
        (let collection_name :=
           get_mentor_collection_name (Mentors.huddle_id mentor) in
         let document_text := Mentors.to_rag_document mentor in
         embedding <- in_world (embed document_text) ;;
         in_world
           (upsert VECTOR_DB_CLIENT collection_name
              [ {| item_id := Mentors.id mentor;
                   item_text := document_text;
                   item_vector := embedding;
                   item_metadata :=
                     {| md_mentor_id := Mentors.id mentor;
                        md_huddle_id := Mentors.huddle_id mentor;
                        md_full_name := Mentors.full_name mentor;
                        md_title := or_empty (Mentors.title mentor);
                        md_company :=
                          or_empty (Mentors.current_company mentor);
                        md_industry := or_empty (Mentors.industry mentor);
                        md_class_year :=
                          Mentors.str_of_int (Mentors.class_year mentor)
                     |} |} ]) ;;;
         emit (LogInfo ("Indexed mentor: " +:+ Mentors.full_name mentor
                        +:+ " (" +:+ Mentors.id mentor +:+ ")")) ;;;
         ret true)
        (fun e =>
           emit (LogError ("Failed to index mentor " +:+ Mentors.id mentor
                           +:+ ": ") (Some e)) ;;;
           ret false)
  end.

(** The [for mentor in mentors] loop over the counts dictionary. *)
Fixpoint index_each (mentors : list Mentors.MentorProfileModel)
    (results : Counts) : M (Env W) Counts :=
  match mentors with
  | [] => ret results
  | mentor :: rest =>
      success <- index_mentor mentor ;;
      index_each rest
        (if success : bool
         then {| indexed := indexed results + 1;
                 failed := failed results;
                 total := total results |}
         else {| indexed := indexed results;
                 failed := failed results + 1;
                 total := total results |})
  end.

Definition index_all_mentors_for_huddle (huddle_id : string)
  : M (Env W) Counts :=
  mentors <-
    lift_result (Mentors.get_mentors_by_huddle profiles huddle_id 0 1000) ;;
  let results :=
    {| indexed := 0; failed := 0;
       total := Z.of_nat (List.length mentors) |} in
  results <- index_each mentors results ;;
  emit (LogInfo ("Indexed " +:+ Mentors.str_of_int (indexed results)
                 +:+ "/" +:+ Mentors.str_of_int (total results)
                 +:+ " mentors for huddle " +:+ huddle_id)) ;;;
  ret results.

Definition subscript {A} (l : list A) (i : nat) : result A :=
  match nth_error l i with
  | Some a => Ok a
  | None => Raise IndexError
  end.

(** [field[0][i] if field else dflt] *)
Definition cell {A} (field : option (list (list A))) (i : nat) (dflt : A)
  : result A :=
  match field with
  | None | Some [] => Ok dflt
  | Some (row :: _) => subscript row i
  end.

(** The [for i, mentor_id in enumerate(results.ids[0])] loop. *)
Fixpoint format_results (results : SearchResult) (i : nat)
    (row : list string) (search_results : list Hit)
  : M (Env W) (list Hit) :=
  match row with
  | [] => ret search_results
  | mentor_id :: rest =>
      found <- lift_result (Mentors.get_mentor_by_id profiles mentor_id) ;;
      match found with
      | Some m =>
          score <- lift_result (cell (distances results) i 0%Q) ;;
          doc <- lift_result (cell (documents results) i EmptyString) ;;
          format_results results (S i) rest
            (search_results ++
               [ {| mentor := m; relevance_score := score;
                    document_text := doc |} ])%list
      | None => format_results results (S i) rest search_results
      end
  end.

Definition search_mentors (huddle_id : string) (query : string)
    (limit : Z) : M (Env W) (list Hit) :=
  match embedding_function with
  | None =>
      emit (LogError "Embedding function not set" None) ;;;
      ret []
  | Some embed =>
      try_except
        (let collection_name := get_mentor_collection_name huddle_id in
         present <-
           in_world (has_collection VECTOR_DB_CLIENT collection_name) ;;
         if negb present then
           emit (LogWarning ("No mentor collection for huddle "
                             +:+ huddle_id)) ;;;
           ret []
         else
           query_embedding <- in_world (embed query) ;;
           results <-
             in_world (search VECTOR_DB_CLIENT collection_name
                         [query_embedding] limit) ;;
           match results with
           | None => ret []
           | Some results =>
               match ids results with
               | None | Some [] => ret []
               | Some (row :: _) => format_results results 0 row []
               end
           end)
        (fun e =>
           emit (LogError "Failed to search mentors: " (Some e)) ;;;
           ret [])
  end.

End Service.

End MentorRag.

(** ** Request-scoped state

    What [TenantMiddleware] publishes on [request.state]; an attribute that
    is missing reads as [None] through [getattr(.., None)]. *)

Record RequestState : Type := mkRequestState {
  state_tenant : option Tenants.HuddleModel;
  state_huddle : option Tenants.HuddleModel
}.

Record Request : Type := mkRequest {
  url_path : string;
  state : RequestState
}.

(** [get_current_huddle] of middleware/tenant.py. *)
Definition get_current_huddle (request : Request) : option Tenants.HuddleModel :=
  state_huddle (state request).

(** ** routers/mentors.py *)

Module MentorRouter.

Definition HTTP_403_FORBIDDEN : Z := 403.
Definition HTTP_404_NOT_FOUND : Z := 404.

Definition Forbidden : exn :=
  HTTPException HTTP_403_FORBIDDEN "Mentor not accessible from this huddle".

(** [GET /{mentor_id}], entered once the user dependency is resolved. *)
Definition get_mentor (profiles : Store Mentors.Profile) (request : Request)
    (mentor_id : string) : result Mentors.MentorProfileModel :=
  let huddle := get_current_huddle request in
  rbind (Mentors.get_mentor_by_id profiles mentor_id) (fun mentor =>
  match mentor with
  | None => Raise (HTTPException HTTP_404_NOT_FOUND "Mentor not found")
  | Some mentor =>
      match huddle with
      | Some huddle =>
          if negb (String.eqb (Mentors.huddle_id mentor) (Tenants.id huddle))
          then Raise Forbidden
          else Ok mentor
      | None => Ok mentor
      end
  end).

End MentorRouter.

(** ** services/huddle_models.py *)

Module HuddleModels.

Definition get_huddle_model_id (huddle : Tenants.HuddleModel) : string :=
  "alumnihuddle-" +:+ Tenants.slug huddle.

End HuddleModels.

(** ** Python dictionaries and JSON documents

    A [dict] keeps its keys in insertion order, so it is an association list
    with distinct keys; assignment replaces the value in place or appends. *)

Module PyDict.

Fixpoint get {V} (key : string) (d : list (string * V)) : option V :=
  match d with
  | [] => None
  | (k, v) :: r => if String.eqb k key then Some v else get key r
  end.

Fixpoint set {V} (key : string) (v : V) (d : list (string * V))
  : list (string * V) :=
  match d with
  | [] => [(key, v)]
  | (k, w) :: r =>
      if String.eqb k key then (k, v) :: r else (k, w) :: set key v r
  end.

(** [{k: v for k, v in items}] *)
Definition of_items {V} (items : list (string * V)) : list (string * V) :=
  fold_left (fun d kv => set (fst kv) (snd kv) d) items [].

End PyDict.

Module Json.

Local Unset Elimination Schemes.

(** What [json.loads] builds; a non-integer number keeps its literal. *)
Inductive value : Type :=
| Null
| Bool (b : bool)
| Int (n : Z)
| Float (literal : string)
| Str (s : string)
| Arr (items : list value)
| Obj (fields : list (string * value)).

Local Set Elimination Schemes.

(** [v == s] for a Python string [s]. *)
Definition eq_str (v : value) (s : string) : bool :=
  match v with
  | Str t => String.eqb t s
  | _ => false
  end.

End Json.

(** ** middleware/model_filter.py *)

Module ModelFilter.

Definition bytes : Type := string.

(** What iterating [response.body_iterator] yields next. *)
Inductive Chunk : Type :=
| Data (chunk : bytes)
| Broken (e : exn).

(** The response handed back by [call_next]: a streaming response whose
    body is still to be read.  [headers] lists [response.headers.items()];
    the framework stores the names in lower case. *)
Record StreamingResponse : Type := mkStreamingResponse {
  status_code : Z;
  headers : list (string * string);
  body_iterator : list Chunk
}.

(** The arguments of a [Response(...)] built by the middleware. *)
Record Response : Type := mkResponse {
  content : bytes;
  r_status_code : Z;
  r_headers : list (string * string);
  media_type : option string
}.

(** What [dispatch] returns: the upstream object itself, in the state its
    iterator is then in, or a new response. *)
Inductive Outcome : Type :=
| Upstream (response : StreamingResponse)
| Rebuilt (response : Response).

(** [response.headers.get(key, default)]: the framework compares the
    lowered name with the stored names and returns the first match. *)
Definition headers_get (hs : list (string * string)) (key dflt : string)
  : string :=
  match List.find (fun kv => String.eqb (fst kv) (PyStr.lower key)) hs with
  | Some kv => snd kv
  | None => dflt
  end.

(** The dictionary comprehension building [new_headers]. *)
Definition new_headers (hs : list (string * string))
  : list (string * string) :=
  PyDict.of_items
    (List.filter
       (fun kv => negb (PyStr.mem (PyStr.lower (fst kv))
                          ["content-length"; "content-encoding"])) hs).

(** Local variables of [dispatch] that outlive the [try] block. *)
Record Locals : Type := mkLocals {
  body : bytes;
  unread : list Chunk
}.

(** [async for chunk in response.body_iterator: body += chunk] *)
Fixpoint read_chunks (it : list Chunk) (body : bytes) : result unit * Locals :=
  match it with
  | [] => (Ok tt, {| body := body; unread := [] |})
  | Data chunk :: rest => read_chunks rest (body +:+ chunk)
  | Broken e :: rest => (Raise e, {| body := body; unread := rest |})
  end.

(** [model.get("id")]: only a dictionary has [get]. *)
Definition model_get_id (model : Json.value) : result (option Json.value) :=
  match model with
  | Json.Obj fields => Ok (PyDict.get "id" fields)
  | _ => Raise AttributeError
  end.

(** [model.get("id") == huddle_model_id]; an absent key gives [None]. *)
Definition id_matches (got : option Json.value) (huddle_model_id : string)
  : bool :=
  match got with
  | Some v => Json.eq_str v huddle_model_id
  | None => false
  end.

(** The list comprehension computing [filtered_models]. *)
Fixpoint filter_models (huddle_model_id : string) (models : list Json.value)
  : result (list Json.value) :=
  match models with
  | [] => Ok []
  | model :: rest =>
      rbind (model_get_id model) (fun got =>
      rbind (filter_models huddle_model_id rest) (fun kept =>
      Ok (if id_matches got huddle_model_id then model :: kept else kept)))
  end.

(** ["data" in data and isinstance(data["data"], list)], returning the list
    when the test holds.  On a list or a string the membership test can
    hold and the subscript then raises; other values are not containers. *)
Definition data_list (data : Json.value) : result (option (list Json.value)) :=
  match data with
  | Json.Obj fields =>
      match PyDict.get "data" fields with
      | Some (Json.Arr models) => Ok (Some models)
      | _ => Ok None
      end
  | Json.Arr items =>
      if existsb (fun v => Json.eq_str v "data") items then Raise TypeError
      else Ok None
  | Json.Str s =>
      if PyStr.contains "data" s then Raise TypeError else Ok None
  | _ => Raise TypeError
  end.

(** [data["data"] = filtered_models], on a dictionary. *)
Definition set_data (data : Json.value) (models : list Json.value)
  : Json.value :=
  match data with
  | Json.Obj fields => Json.Obj (PyDict.set "data" (Json.Arr models) fields)
  | _ => data
  end.

(** [getattr(request.state, "huddle", None) or
    getattr(request.state, "tenant", None)]; a huddle object is truthy. *)
Definition bound_huddle (request : Request) : option Tenants.HuddleModel :=
  match state_huddle (state request) with
  | Some h => Some h
  | None => state_tenant (state request)
  end.

Section Dispatch.

(** The standard-library codecs: [gzip.decompress], then
    [json.loads(body.decode("utf-8"))] and
    [json.dumps(data).encode("utf-8")]. *)
Variable gzip_decompress : bytes -> result bytes.
Variable json_loads : bytes -> result Json.value.
Variable json_dumps : Json.value -> bytes.

Local Open Scope py_scope.

Definition get_locals : M Locals Locals := fun l => (Ok l, l).

Definition set_body (b : bytes) : M Locals unit :=
  fun l => (Ok tt, {| body := b; unread := unread l |}).

(** The part of the [try] block after the body is read and decoded. *)
Definition filter_document (huddle : Tenants.HuddleModel)
    (response : StreamingResponse) : M Locals Outcome :=
  l <- get_locals ;;
  data <- lift_result (json_loads (body l)) ;;
  let huddle_model_id := HuddleModels.get_huddle_model_id huddle in
  found <- lift_result (data_list data) ;;
  data <-
    match found with
    | Some models =>
        filtered_models <-
          lift_result (filter_models huddle_model_id models) ;;
        ret (set_data data filtered_models)
    | None => ret data
    end ;;
  let filtered_body := json_dumps data in
  ret (Rebuilt {| content := filtered_body;
                  r_status_code := status_code response;
                  r_headers := new_headers (headers response);
                  media_type := Some "application/json" |}).

(** The [try] block. *)
Definition try_filter (huddle : Tenants.HuddleModel)
    (response : StreamingResponse) : M Locals Outcome :=
  (fun l => read_chunks (unread l) (body l)) ;;;
  l <- get_locals ;;
  let content_encoding :=
    headers_get (headers response) "content-encoding" "" in
  if String.eqb content_encoding "gzip" then
    match gzip_decompress (body l) with
    | Ok b => set_body b ;;; filter_document huddle response
    | Raise _ =>
        (* [return response]: the same object, its iterator used up *)
        ret (Upstream {| status_code := status_code response;
                         headers := headers response;
                         body_iterator := unread l |})
    end
  else filter_document huddle response.

(** The [except Exception] handler. *)
Definition on_error (response : StreamingResponse) (e : exn)
  : M Locals Outcome :=
  l <- get_locals ;;
  ret (Rebuilt {| content := body l;
                  r_status_code := status_code response;
                  r_headers := new_headers (headers response);
                  media_type := None |}).

(** [dispatch(request, call_next)], with [response] the value of
    [await call_next(request)]. *)
Definition dispatch (request : Request) (response : StreamingResponse)
  : result Outcome :=
  let path := url_path request in
  if negb (PyStr.mem path ["/api/models"; "/api/v1/models"])
  then Ok (Upstream response)
  else
    match bound_huddle request with
    | None => Ok (Upstream response)
    | Some huddle =>
        let content_type :=
          headers_get (headers response) "content-type" "" in
        if negb (PyStr.contains "application/json" content_type)
        then Ok (Upstream response)
        else
          fst (try_except (try_filter huddle response)
                          (on_error response)
                          {| body := EmptyString;
                             unread := body_iterator response |})
    end.

End Dispatch.

End ModelFilter.

(** ** A small JSON codec and gzip check for concrete runs

    The theorems about [ModelFilter.dispatch] hold for any codecs.  To run
    it on concrete bytes, this module gives codecs that agree with CPython's
    [json] and [gzip] on the documents used below: ASCII text, integers, no
    [\u] escapes; [gzip_decompress] performs the magic-number test that
    [gzip.decompress] starts with and handles no compressed member. *)

Module SampleCodec.

Definition quote : ascii := ascii_of_nat 34.
Definition backslash : ascii := ascii_of_nat 92.

Definition is_ws (c : ascii) : bool :=
  let n := nat_of_ascii c in
  ((n =? 32) || (n =? 9) || (n =? 10) || (n =? 13))%nat.

Fixpoint skip_ws (s : string) : string :=
  match s with
  | String c r => if is_ws c then skip_ws r else s
  | EmptyString => s
  end.

Definition is_digit (c : ascii) : bool :=
  let n := nat_of_ascii c in ((48 <=? n) && (n <=? 57))%nat.

(** The characters of a string literal after its opening quote, and what
    follows the closing quote. *)
Fixpoint scan_string (s : string) : option (string * string) :=
  match s with
  | EmptyString => None
  | String c r =>
      if Ascii.eqb c quote then Some (EmptyString, r)
      else if Ascii.eqb c backslash then
        match r with
        | String e r' =>
            let plain :=
              if Ascii.eqb e "n" then Some (ascii_of_nat 10)
              else if Ascii.eqb e "t" then Some (ascii_of_nat 9)
              else if Ascii.eqb e "r" then Some (ascii_of_nat 13)
              else if Ascii.eqb e quote then Some quote
              else if Ascii.eqb e backslash then Some backslash
              else if Ascii.eqb e "/" then Some "/"%char
              else None in
            match plain, scan_string r' with
            | Some d, Some (t, rest) => Some (String d t, rest)
            | _, _ => None
            end
        | EmptyString => None
        end
      else
        match scan_string r with
        | Some (t, rest) => Some (String c t, rest)
        | None => None
        end
  end.

Fixpoint scan_digits (s : string) (acc : Z) : Z * string :=
  match s with
  | String c r =>
      if is_digit c
      then scan_digits r (10 * acc + Z.of_nat (nat_of_ascii c - 48))
      else (acc, s)
  | EmptyString => (acc, s)
  end.

Definition starts_number (s : string) : bool :=
  match s with
  | String c _ => is_digit c
  | EmptyString => false
  end.

Definition drop_prefix (p s : string) : option string :=
  if String.prefix p s
  then Some (String.substring (PyStr.len p) (PyStr.len s - PyStr.len p) s)
  else None.

(** One value from the front of [s]; [fuel] bounds nesting and the number of
    elements, the length of the input is enough. *)
Fixpoint parse_value (fuel : nat) (s : string) : option (Json.value * string) :=
  match fuel with
  | O => None
  | S fuel =>
      match skip_ws s with
      | String "{" r =>
          match skip_ws r with
          | String "}" rest => Some (Json.Obj [], rest)
          | r => parse_members fuel r []
          end
      | String "[" r =>
          match skip_ws r with
          | String "]" rest => Some (Json.Arr [], rest)
          | r => parse_elements fuel r []
          end
      | String c r as s' =>
          if Ascii.eqb c quote then
            match scan_string r with
            | Some (t, rest) => Some (Json.Str t, rest)
            | None => None
            end
          else if Ascii.eqb c "-" then
            if starts_number r
            then let (n, rest) := scan_digits r 0 in Some (Json.Int (- n), rest)
            else None
          else if is_digit c then
            let (n, rest) := scan_digits s' 0 in Some (Json.Int n, rest)
          else
            match drop_prefix "true" s', drop_prefix "false" s',
                  drop_prefix "null" s' with
            | Some rest, _, _ => Some (Json.Bool true, rest)
            | _, Some rest, _ => Some (Json.Bool false, rest)
            | _, _, Some rest => Some (Json.Null, rest)
            | _, _, _ => None
            end
      | EmptyString => None
      end
  end
with parse_elements (fuel : nat) (s : string) (acc : list Json.value)
  : option (Json.value * string) :=
  match fuel with
  | O => None
  | S fuel =>
      match parse_value fuel s with
      | Some (v, rest) =>
          match skip_ws rest with
          | String "," rest' => parse_elements fuel rest' (acc ++ [v])%list
          | String "]" rest' => Some (Json.Arr (acc ++ [v])%list, rest')
          | _ => None
          end
      | None => None
      end
  end
with parse_members (fuel : nat) (s : string)
    (acc : list (string * Json.value)) : option (Json.value * string) :=
  match fuel with
  | O => None
  | S fuel =>
      match skip_ws s with
      | String c r =>
          if Ascii.eqb c quote then
            match scan_string r with
            | Some (key, rest) =>
                match skip_ws rest with
                | String ":" rest' =>
                    match parse_value fuel rest' with
                    | Some (v, rest'') =>
                        let acc := PyDict.set key v acc in
                        match skip_ws rest'' with
                        | String "," more => parse_members fuel more acc
                        | String "}" more => Some (Json.Obj acc, more)
                        | _ => None
                        end
                    | None => None
                    end
                | _ => None
                end
            | None => None
            end
          else None
      | EmptyString => None
      end
  end.

(** [json.loads(body.decode("utf-8"))] *)
Definition json_loads (body : string) : result Json.value :=
  match parse_value (S (PyStr.len body)) body with
  | Some (v, rest) =>
      if PyStr.is_empty (skip_ws rest) then Ok v else Raise ValueError
  | None => Raise ValueError
  end.

Fixpoint escape (s : string) : string :=
  match s with
  | EmptyString => EmptyString
  | String c r =>
      if Ascii.eqb c quote then String backslash (String quote (escape r))
      else if Ascii.eqb c backslash
      then String backslash (String backslash (escape r))
      else if Ascii.eqb c (ascii_of_nat 10) then String backslash (String "n" (escape r))
      else if Ascii.eqb c (ascii_of_nat 13) then String backslash (String "r" (escape r))
      else if Ascii.eqb c (ascii_of_nat 9) then String backslash (String "t" (escape r))
      else String c (escape r)
  end.

Definition dump_str (s : string) : string :=
  String quote (escape s) +:+ String quote EmptyString.

(** [json.dumps(data).encode("utf-8")] with the default separators. *)
Fixpoint json_dumps (v : Json.value) : string :=
  match v with
  | Json.Null => "null"
  | Json.Bool true => "true"
  | Json.Bool false => "false"
  | Json.Int n => Mentors.str_of_int n
  | Json.Float literal => literal
  | Json.Str s => dump_str s
  | Json.Arr items =>
      "[" +:+ Mentors.join ", " (List.map json_dumps items) +:+ "]"
  | Json.Obj fields =>
      "{" +:+ Mentors.join ", "
                (List.map (fun kv => dump_str (fst kv) +:+ ": "
                                     +:+ json_dumps (snd kv)) fields)
          +:+ "}"
  end.

(** [gzip.decompress]: no bytes hold no member and decode to no bytes; a
    body that does not start with the magic bytes 1f 8b is refused; members
    themselves are not decoded here. *)
Definition gzip_decompress (body : string) : result string :=
  match body with
  | EmptyString => Ok EmptyString
  | String a (String b _) =>
      if ((nat_of_ascii a =? 31) && (nat_of_ascii b =? 139))%nat
      then Raise (RuntimeError "compressed members are not decoded")
      else Raise BadGzipFile
  | String _ EmptyString => Raise BadGzipFile
  end.

End SampleCodec.

(** ** An in-memory vector store

    Modelled from the spec: the vector store client
    ([open_webui.retrieval.vector.factory], not among these modules) with
    the collection-scoped operations of the external-interfaces section:
    [hasCollection], [upsert] keyed by item id, ordered nearest-neighbour
    [search] capped at [limit], and [delete].  Distances are squared
    Euclidean. *)

Module MemoryStore.

Definition upsert_item (it : MentorRag.Item) (items : list MentorRag.Item)
  : list MentorRag.Item :=
  if existsb (fun o => String.eqb (MentorRag.item_id o) (MentorRag.item_id it))
       items
  then List.map
         (fun o => if String.eqb (MentorRag.item_id o) (MentorRag.item_id it)
                   then it else o) items
  else (items ++ [it])%list.

Fixpoint distance (a b : MentorRag.vector) : Q :=
  match a, b with
  | x :: a', y :: b' => ((x - y) * (x - y) + distance a' b')%Q
  | _, _ => 0%Q
  end.

Fixpoint insert_ranked (e : Q * MentorRag.Item) (l : list (Q * MentorRag.Item))
  : list (Q * MentorRag.Item) :=
  match l with
  | [] => [e]
  | f :: r =>
      if Qle_bool (fst e) (fst f) then e :: f :: r
      else f :: insert_ranked e r
  end.

Definition ranked (q : MentorRag.vector) (items : list MentorRag.Item)
  : list (Q * MentorRag.Item) :=
  fold_right insert_ranked []
    (List.map (fun it => (distance q (MentorRag.item_vector it), it)) items).

Definition client : MentorRag.VectorClient (gmap string (list MentorRag.Item)) :=
  {| MentorRag.has_collection := fun name w =>
       (Ok (bool_decide (is_Some (w !! name))), w);
     MentorRag.upsert := fun name items w =>
       (Ok tt,
        <[name := fold_left (fun acc it => upsert_item it acc) items
                    (default [] (w !! name))]> w);
     MentorRag.search := fun name vectors limit w =>
       match w !! name, vectors with
       | Some items, q :: _ =>
           let hits := List.firstn (Z.to_nat limit) (ranked q items) in
           (Ok (Some
                  {| MentorRag.ids :=
                       Some [List.map (fun h => MentorRag.item_id (snd h)) hits];
                     MentorRag.distances := Some [List.map fst hits];
                     MentorRag.documents :=
                       Some [List.map (fun h => MentorRag.item_text (snd h))
                               hits] |}), w)
       | _, _ => (Ok None, w)
       end;
     MentorRag.delete := fun name ids w =>
       match w !! name with
       | Some items =>
           (Ok tt,
            <[name := List.filter
                        (fun it => negb (PyStr.mem (MentorRag.item_id it) ids))
                        items]> w)
       | None => (Ok tt, w)
       end |}.

End MemoryStore.

(** ** Sample data for concrete runs *)

Module Sample.

Definition huddle_row (id name slug : string) (deleted_at : option time)
  : Tenants.Huddle :=
  {| Tenants.h_id := id; Tenants.h_name := name; Tenants.h_slug := slug;
     Tenants.h_logo_url := None; Tenants.h_primary_color := None;
     Tenants.h_secondary_color := None; Tenants.h_require_approval := None;
     Tenants.h_created_at := None; Tenants.h_deleted_at := deleted_at;
     Tenants.h_cover_photo_url := None; Tenants.h_admin_email := None;
     Tenants.h_description := None |}.

Definition huddles : Store Tenants.Huddle :=
  Online [ huddle_row "h-x" "Huddle X" "x" None;
           huddle_row "h-y" "Huddle Y" "y" None;
           huddle_row "h-z" "Huddle Z" "z" (Some (5 # 1)) ].

Definition huddle_x : Tenants.HuddleModel :=
  Tenants.from_orm_with_str_id (huddle_row "h-x" "Huddle X" "x" None).

Definition huddle_y : Tenants.HuddleModel :=
  Tenants.from_orm_with_str_id (huddle_row "h-y" "Huddle Y" "y" None).

Definition empty_cache : TenantCache.State :=
  {| TenantCache._huddle_cache := ∅; TenantCache.directory_calls := [] |}.

Definition request_for (huddle : option Tenants.HuddleModel) (path : string)
  : Request :=
  {| url_path := path;
     state := {| state_tenant := huddle; state_huddle := huddle |} |}.

(** One entry of a model listing. *)
Definition entry (id name : string) : Json.value :=
  Json.Obj [("id", Json.Str id); ("name", Json.Str name);
            ("object", Json.Str "model")].

Definition listing (entries : list Json.value) : Json.value :=
  Json.Obj [("data", Json.Arr entries); ("object", Json.Str "list")].

Definition three_models : Json.value :=
  listing [ entry "alumnihuddle-x" "Huddle X Mentor Coach";
            entry "claude-raw" "Claude";
            entry "alumnihuddle-y" "Huddle Y Mentor Coach" ].

Definition twin_models : Json.value :=
  listing [ entry "alumnihuddle-x" "Huddle X Mentor Coach";
            entry "claude-raw" "Claude";
            entry "alumnihuddle-x" "Huddle X Mentor Coach (pipeline)" ].

(** An upstream JSON response carrying [doc], sent in two chunks. *)
Definition json_response (doc : Json.value) : ModelFilter.StreamingResponse :=
  let body := SampleCodec.json_dumps doc in
  {| ModelFilter.status_code := 200;
     ModelFilter.headers :=
       [ ("content-type", "application/json");
         ("content-length", Mentors.str_of_int (Z.of_nat (PyStr.len body)));
         ("x-process-time", "0") ];
     ModelFilter.body_iterator :=
       [ ModelFilter.Data (String.substring 0 10 body);
         ModelFilter.Data (String.substring 10 (PyStr.len body - 10) body) ] |}.

(** An upstream response labelled gzip whose bytes are no gzip member. *)
Definition mislabelled_response : ModelFilter.StreamingResponse :=
  let body := SampleCodec.json_dumps three_models in
  {| ModelFilter.status_code := 200;
     ModelFilter.headers :=
       [ ("content-type", "application/json");
         ("content-encoding", "gzip");
         ("content-length", Mentors.str_of_int (Z.of_nat (PyStr.len body))) ];
     ModelFilter.body_iterator := [ ModelFilter.Data body ] |}.

Definition profile (id huddle_id full_name mentorship_status : string)
    (deleted_at : option time) : Mentors.Profile :=
  {| Mentors.p_id := id; Mentors.p_huddle_id := huddle_id;
     Mentors.p_full_name := full_name; Mentors.p_class_year := 2010;
     Mentors.p_metro_area := "Boston"; Mentors.p_linkedin_url := None;
     Mentors.p_current_company := Some "Acme"; Mentors.p_title := Some "Analyst";
     Mentors.p_prior_roles := None; Mentors.p_industry := Some "Finance";
     Mentors.p_skills_experience := None;
     Mentors.p_mentorship_status := mentorship_status;
     Mentors.p_photo_url := None; Mentors.p_deleted_at := deleted_at |}.

Definition willing (id huddle_id full_name : string) : Mentors.Profile :=
  profile id huddle_id full_name "Willing to mentor" None.

(** Ten eligible mentors of huddle [h-x], two rows of it that are not
    eligible, and one eligible mentor of huddle [h-y]. *)
Definition profiles : Store Mentors.Profile :=
  Online [ willing "m01" "h-x" "Mentor 01"; willing "m02" "h-x" "Mentor 02";
           willing "m03" "h-x" "Mentor 03"; willing "m04" "h-x" "Mentor 04";
           profile "m11" "h-x" "Mentor 11" "Willing to mentor" (Some (7 # 1));
           willing "m05" "h-x" "Mentor 05"; willing "m06" "h-x" "Mentor 06";
           profile "m12" "h-x" "Mentor 12" "Not available" None;
           willing "m07" "h-x" "Mentor 07"; willing "m08" "h-x" "Mentor 08";
           willing "m20" "h-y" "Mentor 20";
           willing "m09" "h-x" "Mentor 09"; willing "m10" "h-x" "Mentor 10" ].

(** An embedding function that fails on the documents of two mentors. *)
Definition embedding_function
  : string -> M (gmap string (list MentorRag.Item)) MentorRag.vector :=
  fun text w =>
    if PyStr.contains "Mentor 03" text || PyStr.contains "Mentor 07" text
    then (Raise (RuntimeError "embedding backend unavailable"), w)
    else (Ok [Z.of_nat (PyStr.len text) # 1], w).

Definition empty_env : MentorRag.Env (gmap string (list MentorRag.Item)) :=
  MentorRag.mkEnv ∅ [].

End Sample.

(** ** Vocabulary of the statements *)

Module Spec.

(** The rows a query can see. *)
Definition rows_of {R} (db : Store R) : list R :=
  match db with
  | Online rows => rows
  | Offline _ => []
  end.

(** A mentor row is visible: available for mentoring and not deleted. *)
Definition visible (p : Mentors.Profile) : Prop :=
  Mentors.p_mentorship_status p = "Willing to mentor"
  /\ Mentors.p_deleted_at p = None.

(** The two paths of the model listing. *)
Definition listing_path (request : Request) : Prop :=
  url_path request = "/api/models" \/ url_path request = "/api/v1/models".

(** The upstream response announces a JSON document. *)
Definition is_json (response : ModelFilter.StreamingResponse) : Prop :=
  PyStr.contains "application/json"
    (ModelFilter.headers_get (ModelFilter.headers response) "content-type" "")
  = true.

(** The upstream body arrives whole, as the bytes [raw]. *)
Definition delivers (response : ModelFilter.StreamingResponse)
    (raw : ModelFilter.bytes) : Prop :=
  ModelFilter.read_chunks (ModelFilter.body_iterator response) EmptyString
  = (Ok tt, {| ModelFilter.body := raw; ModelFilter.unread := [] |}).

(** The bytes the filter parses: the body, gunzipped when so labelled. *)
Definition decoded (gzip_decompress : ModelFilter.bytes -> result ModelFilter.bytes)
    (response : ModelFilter.StreamingResponse) (raw : ModelFilter.bytes)
  : result ModelFilter.bytes :=
  if String.eqb
       (ModelFilter.headers_get (ModelFilter.headers response)
          "content-encoding" "") "gzip"
  then gzip_decompress raw
  else Ok raw.

(** A header name describes the length or the encoding of a body. *)
Definition describes_body (name : string) : Prop :=
  PyStr.lower name = "content-length" \/ PyStr.lower name = "content-encoding".

Definition is_object (v : Json.value) : Prop :=
  match v with Json.Obj _ => True | _ => False end.

(** The entry is an object whose ["id"] is the string [id]. *)
Definition has_id (id : string) (v : Json.value) : bool :=
  match v with
  | Json.Obj fields => ModelFilter.id_matches (PyDict.get "id" fields) id
  | _ => false
  end.

(** The string identifier of an entry, when it has one. *)
Definition entry_id (v : Json.value) : option string :=
  match v with
  | Json.Obj fields =>
      match PyDict.get "id" fields with
      | Some (Json.Str s) => Some s
      | _ => None
      end
  | _ => None
  end.

Definition entry_ids (models : list Json.value) : list string :=
  omap entry_id models.

(** The log record [r] reports one attempt to index [mentor], with the
    outcome [success]. *)
Definition attempt (mentor : Mentors.MentorProfileModel)
    (a : bool * LogRecord) : Prop :=
  if fst a
  then snd a = LogInfo ("Indexed mentor: " +:+ Mentors.full_name mentor
                        +:+ " (" +:+ Mentors.id mentor +:+ ")")
  else snd a = LogError "Embedding function not set" None
       \/ exists e, snd a = LogError ("Failed to index mentor "
                                      +:+ Mentors.id mentor +:+ ": ") (Some e).

End Spec.

(** ** middleware/tenant.py: the middleware and its guards *)

Module TenantMiddleware.

(** The module constants read from the environment. *)
Record Config : Type := mkConfig {
  ENABLE_MULTI_TENANCY : bool;
  BASE_DOMAIN : string;
  DEFAULT_TENANT_SLUG : option string
}.

(** The four attributes [dispatch] sets on [request.state]. *)
Record Published : Type := mkPublished {
  tenant : option Tenants.HuddleModel;
  tenant_id : option string;
  huddle : option Tenants.HuddleModel;
  huddle_id : option string
}.

Definition nothing : Published :=
  {| tenant := None; tenant_id := None; huddle := None; huddle_id := None |}.

(** [request.headers.get(name)]: [None] when the header is missing. *)
Definition header (hs : list (string * string)) (name : string)
  : option string :=
  match List.find (fun kv => String.eqb (fst kv) (PyStr.lower name)) hs with
  | Some kv => Some (snd kv)
  | None => None
  end.

(** The slug [dispatch] settles on: from the host, else from the
    [x-tenant-subdomain] header, else the configured default when that is
    set and not empty. *)
Definition chosen_slug (cfg : Config) (hs : list (string * string))
  : option string :=
  let host := ModelFilter.headers_get hs "host" "" in
  let slug := Tenant.extract_subdomain (BASE_DOMAIN cfg) host in
  let slug :=
    match slug with
    | None => header hs "x-tenant-subdomain"
    | Some _ => slug
    end in
  match slug, DEFAULT_TENANT_SLUG cfg with
  | None, Some d => if PyStr.is_empty d then None else Some d
  | _, _ => slug
  end.

(** [TenantMiddleware.dispatch] up to its last statement: [Ok p] stands for
    [return await call_next(request)] entered with [p] on [request.state],
    [Raise] for an exception that leaves [dispatch] before the handler is
    called.  Log records are left out. *)
Definition dispatch (cfg : Config) (db : Store Tenants.Huddle) (now : time)
    (hs : list (string * string)) (st : TenantCache.State)
  : result Published * TenantCache.State :=
  if negb (ENABLE_MULTI_TENANCY cfg) then (Ok nothing, st)
  else
    match chosen_slug cfg hs with
    | None => (Ok nothing, st)
    | Some slug =>
        if PyStr.is_empty slug then (Ok nothing, st)
        else
          match TenantCache.get_cached_huddle db now slug st with
          | (Ok (Some h), st') =>
              (Ok {| tenant := Some h; tenant_id := Some (Tenants.id h);
                     huddle := Some h; huddle_id := Some (Tenants.id h) |},
               st')
          | (Ok None, st') => (Ok nothing, st')
          | (Raise (HTTPException code detail), st') =>
              (Raise (HTTPException code detail), st')
          | (Raise _, st') => (Ok nothing, st')
          end
    end.

(** The request a handler then sees. *)
Definition request_with (p : Published) (path : string) : Request :=
  {| url_path := path;
     state := {| state_tenant := tenant p; state_huddle := huddle p |} |}.

Definition get_current_tenant (request : Request)
  : option Tenants.HuddleModel :=
  state_tenant (state request).

Definition HTTP_400_BAD_REQUEST : Z := 400.

Definition require_tenant (request : Request) : result Tenants.HuddleModel :=
  match state_tenant (state request) with
  | Some huddle => Ok huddle
  | None =>
      Raise (HTTPException HTTP_400_BAD_REQUEST
               "This endpoint requires a valid organization subdomain.")
  end.

Definition require_huddle (request : Request) : result Tenants.HuddleModel :=
  require_tenant request.

End TenantMiddleware.

(** ** models/tenants.py: listing *)

Module TenantsListing.

(** [ORDER BY name ASC], as for the mentors: stable, on the byte order. *)
Fixpoint insert_by_name (h : Tenants.Huddle) (l : list Tenants.Huddle)
  : list Tenants.Huddle :=
  match l with
  | [] => [h]
  | q :: r =>
      if String.leb (Tenants.h_name h) (Tenants.h_name q) then h :: q :: r
      else q :: insert_by_name h r
  end.

Definition order_by_name (l : list Tenants.Huddle) : list Tenants.Huddle :=
  fold_right insert_by_name [] l.

Definition get_all_huddles (db : Store Tenants.Huddle)
    (include_deleted : bool) (skip limit : Z)
  : result (list Tenants.HuddleModel) :=
  match db with
  | Offline e => Raise e
  | Online rows =>
      let query :=
        if negb include_deleted
        then List.filter (fun h => Mentors.is_null (Tenants.h_deleted_at h)) rows
        else rows in
      let query := order_by_name query in
      rbind (Mentors.offset skip query) (fun query =>
      rbind (Mentors.limit_rows limit query) (fun huddles =>
      Ok (List.map Tenants.from_orm_with_str_id huddles)))
  end.

(** The backward-compatibility methods. *)
Definition get_tenant_by_id := Tenants.get_huddle_by_id.
Definition get_tenant_by_subdomain := Tenants.get_huddle_by_slug.
Definition get_all_tenants (db : Store Tenants.Huddle)
    (include_inactive : bool) (skip limit : Z) :=
  get_all_huddles db include_inactive skip limit.

End TenantsListing.

(** ** routers/tenants.py *)

Module TenantRouter.

Record HuddleResponse : Type := mkHuddleResponse {
  id : string;
  name : string;
  slug : string;
  logo_url : option string;
  is_active : bool
}.

Record HuddleContextResponse : Type := mkHuddleContextResponse {
  huddle : option HuddleResponse;
  source : string
}.

Definition response_of (h : Tenants.HuddleModel) : HuddleResponse :=
  {| id := Tenants.id h; name := Tenants.name h; slug := Tenants.slug h;
     logo_url := Tenants.logo_url h; is_active := true |}.

(** [GET /context]; [hs] are the request headers. *)
Definition get_huddle_context (cfg : TenantMiddleware.Config)
    (db : Store Tenants.Huddle) (request : Request)
    (hs : list (string * string)) : result HuddleContextResponse :=
  if negb (TenantMiddleware.ENABLE_MULTI_TENANCY cfg)
  then Ok {| huddle := None; source := "disabled" |}
  else
    match state_tenant (state request) with
    | Some h => Ok {| huddle := Some (response_of h); source := "middleware" |}
    | None =>
        let host := ModelFilter.headers_get hs "host" "" in
        let subdomain :=
          Tenant.extract_subdomain (TenantMiddleware.BASE_DOMAIN cfg) host in
        let (subdomain, source) :=
          match Mentors.truthy subdomain with
          | Some s => (Some s, "subdomain")
          | None =>
              let subdomain := TenantMiddleware.header hs "x-tenant-subdomain" in
              match Mentors.truthy subdomain with
              | Some s => (subdomain, "header")
              | None => (subdomain, "none")
              end
          end in
        match Mentors.truthy subdomain with
        | Some s =>
            rbind (Tenants.get_huddle_by_slug db s) (fun huddle_model =>
            match huddle_model with
            | Some m =>
                Ok {| huddle := Some (response_of m); source := source |}
            | None => Ok {| huddle := None; source := source |}
            end)
        | None => Ok {| huddle := None; source := source |}
        end
    end.

(** [GET /], after the admin dependency; the route passes [skip] and
    [limit] and leaves [include_deleted] at its default. *)
Definition list_huddles (db : Store Tenants.Huddle) (skip limit : Z)
  : result (list HuddleResponse) :=
  rbind (TenantsListing.get_all_huddles db false skip limit) (fun huddles =>
  Ok (List.map response_of huddles)).

(** [GET /{huddle_id}], after the admin dependency. *)
Definition get_huddle (db : Store Tenants.Huddle) (huddle_id : string)
  : result Tenants.HuddleModel :=
  rbind (Tenants.get_huddle_by_id db huddle_id) (fun huddle =>
  match huddle with
  | Some h => Ok h
  | None => Raise (HTTPException MentorRouter.HTTP_404_NOT_FOUND
                     "Huddle not found")
  end).

End TenantRouter.

(** [raise e] *)
Definition raise {S A} (e : exn) : M S A := fun s => (Raise e, s).

(** ** services/mentor_rag.py: the remaining operations *)

Module MentorRagAdmin.

(** What [VECTOR_DB_CLIENT.get] returns. *)
Record GetResult : Type := mkGetResult {
  get_ids : option (list (list string))
}.

(** The dictionary [get_collection_stats] returns; [error] holds the
    exception whose text the third key carries. *)
Record Stats : Type := mkStats {
  exists_ : bool;
  count : Z;
  error : option exn
}.

Section Service.
Context {W : Type}.

Variable embedding_function : option (string -> M W MentorRag.vector).
Variable VECTOR_DB_CLIENT : MentorRag.VectorClient W.
(** [VECTOR_DB_CLIENT.get(collection_name=...)] *)
Variable VECTOR_DB_CLIENT_get : string -> M W (option GetResult).
Variable profiles : Store Mentors.Profile.
Variable huddles : Store Tenants.Huddle.

Local Open Scope py_scope.

(** The [for huddle_id in huddle_ids] loop over the [results] dictionary. *)
Fixpoint index_each_huddle (huddle_ids : list string)
    (results : list (string * MentorRag.Counts))
  : M (MentorRag.Env W) (list (string * MentorRag.Counts)) :=
  match huddle_ids with
  | [] => ret results
  | huddle_id :: rest =>
      huddle <- lift_result (Tenants.get_huddle_by_id huddles huddle_id) ;;
      let huddle_name :=
        match huddle with
        | Some h => Tenants.name h
        | None => huddle_id
        end in
      result <-
        MentorRag.index_all_mentors_for_huddle embedding_function
          VECTOR_DB_CLIENT profiles huddle_id ;;
      index_each_huddle rest (PyDict.set huddle_name result results)
  end.

Definition index_all_mentors
  : M (MentorRag.Env W) (list (string * MentorRag.Counts)) :=
  huddle_ids <-
    lift_result (Mentors.get_all_huddle_ids_with_mentors profiles) ;;
  index_each_huddle huddle_ids [].

Definition remove_mentor (mentor_id huddle_id : string)
  : M (MentorRag.Env W) bool :=
  try_except
    (let collection_name := MentorRag.get_mentor_collection_name huddle_id in
     MentorRag.in_world
       (MentorRag.delete VECTOR_DB_CLIENT collection_name [mentor_id]) ;;;
     MentorRag.emit (LogInfo ("Removed mentor " +:+ mentor_id
                              +:+ " from index")) ;;;
     ret true)
    (fun e =>
       MentorRag.emit (LogError ("Failed to remove mentor " +:+ mentor_id
                                 +:+ ": ") (Some e)) ;;;
       ret false).

Definition get_collection_stats (huddle_id : string)
  : M (MentorRag.Env W) Stats :=
  try_except
    (let collection_name := MentorRag.get_mentor_collection_name huddle_id in
     present <-
       MentorRag.in_world
         (MentorRag.has_collection VECTOR_DB_CLIENT collection_name) ;;
     if negb present then
       ret {| exists_ := false; count := 0; error := None |}
     else
       result <- MentorRag.in_world (VECTOR_DB_CLIENT_get collection_name) ;;
       let count :=
         match result with
         | Some {| get_ids := Some (row :: more) |} =>
             Z.of_nat (List.length (row :: more))
         | _ => 0
         end in
       ret {| exists_ := true; count := count; error := None |})
    (fun e =>
       MentorRag.emit (LogError "Failed to get collection stats: " (Some e)) ;;;
       ret {| exists_ := false; count := 0; error := Some e |}).

End Service.

End MentorRagAdmin.

(** ** routers/mentors.py: the remaining endpoints

    Each endpoint is entered once its user dependency is resolved;
    [embedding_function] is [request.app.state.EMBEDDING_FUNCTION]. *)

Module MentorEndpoints.

Record MentorSearchResponse : Type := mkMentorSearchResponse {
  results : list MentorRag.Hit;
  query : string;
  sr_huddle_id : string;
  sr_huddle_name : string
}.

Record MentorIndexResponse : Type := mkMentorIndexResponse {
  indexed : Z;
  failed : Z;
  total : Z;
  ir_huddle_id : string;
  ir_huddle_name : string
}.


Definition HTTP_503_SERVICE_UNAVAILABLE : Z := 503.

Definition no_huddle : exn :=
  HTTPException TenantMiddleware.HTTP_400_BAD_REQUEST
    "No huddle context found. Access this from a huddle subdomain.".

Definition no_embedding : exn :=
  HTTPException HTTP_503_SERVICE_UNAVAILABLE "Embedding service not available".

Section Endpoints.
Context {W : Type}.

Variable embedding_function : option (string -> M W MentorRag.vector).
Variable VECTOR_DB_CLIENT : MentorRag.VectorClient W.
Variable VECTOR_DB_CLIENT_get : string -> M W (option MentorRagAdmin.GetResult).
Variable profiles : Store Mentors.Profile.
Variable huddles : Store Tenants.Huddle.

Local Open Scope py_scope.

(** [POST /search] *)
Definition search_mentors (request : Request) (search_query : string)
    (search_limit : Z) : M (MentorRag.Env W) MentorSearchResponse :=
  match get_current_huddle request with
  | None => raise no_huddle
  | Some huddle =>
      match embedding_function with
      | None => raise no_embedding
      | Some embed =>
          results <-
            MentorRag.search_mentors (Some embed) VECTOR_DB_CLIENT profiles
              (Tenants.id huddle) search_query search_limit ;;
          ret {| results := results; query := search_query;
                 sr_huddle_id := Tenants.id huddle;
                 sr_huddle_name := Tenants.name huddle |}
      end
  end.

(** [GET /] *)
Definition list_mentors (request : Request) (skip limit : Z)
  : result (list Mentors.MentorProfileModel) :=
  match get_current_huddle request with
  | None => Raise no_huddle
  | Some huddle =>
      Mentors.get_mentors_by_huddle profiles (Tenants.id huddle) skip limit
  end.

(** [POST /index] *)
Definition index_huddle_mentors (request : Request)
  : M (MentorRag.Env W) MentorIndexResponse :=
  match get_current_huddle request with
  | None => raise no_huddle
  | Some huddle =>
      match embedding_function with
      | None => raise no_embedding
      | Some embed =>
          results <-
            MentorRag.index_all_mentors_for_huddle (Some embed)
              VECTOR_DB_CLIENT profiles (Tenants.id huddle) ;;
          ret {| indexed := MentorRag.indexed results;
                 failed := MentorRag.failed results;
                 total := MentorRag.total results;
                 ir_huddle_id := Tenants.id huddle;
                 ir_huddle_name := Tenants.name huddle |}
      end
  end.

(** [POST /index/all]; the answer is [{"status": "ok", "results": ..}]. *)
Definition index_all_mentors
  : M (MentorRag.Env W) (list (string * MentorRag.Counts)) :=
  match embedding_function with
  | None => raise no_embedding
  | Some embed =>
      MentorRagAdmin.index_all_mentors (Some embed) VECTOR_DB_CLIENT
        profiles huddles
  end.


End Endpoints.

End MentorEndpoints.

(** ** services/huddle_models.py: keeping the huddle models in place *)

Module HuddleModelService.

Definition DEFAULT_BASE_MODEL : string := "anthropic.claude-opus-4-1-20250805".

Record SuggestionPrompt : Type := mkSuggestionPrompt {
  title : list string;
  content : string
}.

Definition DEFAULT_SUGGESTION_PROMPTS : list SuggestionPrompt :=
  [ {| title := ["Help me find"; "a mentor"];
       content := "I'm looking for a mentor who can help me with my career. Can you help me find someone from the alumni network?" |};
    {| title := ["Help improve"; "my resume"];
       content := "Can you help me improve my resume? I'm looking for feedback and suggestions." |};
    {| title := ["Help me prep"; "for an interview"];
       content := "I have an interview coming up. Can you help me prepare with practice questions and tips?" |};
    {| title := ["Help me explore"; "career paths"];
       content := "I'm not sure what career path to pursue. Can you help me explore my options based on my interests and skills?" |} ].

Definition get_huddle_model_name (huddle : Tenants.HuddleModel) : string :=
  Tenants.name huddle +:+ " Mentor Coach".

Definition get_huddle_model_description (huddle : Tenants.HuddleModel)
  : string :=
  "AI assistant for " +:+ Tenants.name huddle
  +:+ " that helps students connect with "
  +:+ "alumni mentors and prepare for careers after graduation".

Record ModelMeta : Type := mkModelMeta {
  profile_image_url : string;
  description : string;
  suggestion_prompts : list SuggestionPrompt
}.

Definition build_huddle_model_meta (huddle : Tenants.HuddleModel) : ModelMeta :=
  {| profile_image_url :=
       match Mentors.truthy (Tenants.logo_url huddle) with
       | Some url => url
       | None => "/static/favicon.png"
       end;
     description := get_huddle_model_description huddle;
     suggestion_prompts := DEFAULT_SUGGESTION_PROMPTS |}.

(** [ModelForm]; its [params] is always the empty [ModelParams()]. *)
Record ModelForm : Type := mkModelForm {
  id : string;
  base_model_id : string;
  name : string;
  meta : ModelMeta;
  is_active : bool
}.

(** The [Models] table of [open_webui.models.models], outside these
    modules: its three operations are parameters on a store state [W];
    [R] is the row they answer with, of which only the presence is read. *)
Record ModelsTable (W R : Type) : Type := mkModelsTable {
  get_model_by_id : string -> M W (option R);
  update_model_by_id : string -> ModelForm -> M W (option R);
  insert_new_model : ModelForm -> string -> M W (option R)
}.
Arguments get_model_by_id {W R} _ _ _.
Arguments update_model_by_id {W R} _ _ _ _.
Arguments insert_new_model {W R} _ _ _ _.

(** The state of [ensure_all_huddle_models]: the store and the local
    [count]. *)
Record Counting (W : Type) : Type := mkCounting {
  store : W;
  count : Z
}.
Arguments mkCounting {W} _ _.
Arguments store {W} _.
Arguments count {W} _.

Section Service.
Context {W R : Type}.

Variable Models : ModelsTable W R.
Variable huddles : Store Tenants.Huddle.

Local Open Scope py_scope.

Definition is_some {A} (o : option A) : bool :=
  match o with Some _ => true | None => false end.

(** [ensure_huddle_model]; the answer is [True], [False] or, from the
    handler, [None]. *)
Definition ensure_huddle_model (huddle : Tenants.HuddleModel)
    (system_user_id : string) (base_model_id : option string)
  : M W (option bool) :=
  let model_id := HuddleModels.get_huddle_model_id huddle in
  let base_model :=
    match Mentors.truthy base_model_id with
    | Some b => b
    | None => DEFAULT_BASE_MODEL
    end in
  try_except
    (existing <- get_model_by_id Models model_id ;;
     let meta := build_huddle_model_meta huddle in
     let form :=
       {| id := model_id; base_model_id := base_model;
          name := get_huddle_model_name huddle; meta := meta;
          is_active := true |} in
     match existing with
     | Some _ =>
         result <- update_model_by_id Models model_id form ;;
         ret (Some (is_some result))
     | None =>
         result <- insert_new_model Models form system_user_id ;;
         ret (Some (is_some result))
     end)
    (fun e => ret None).

Definition in_store {A} (m : M W A) : M (Counting W) A :=
  fun s =>
    let (r, w') := m (store s) in
    (r, {| store := w'; count := count s |}).

Definition increment : M (Counting W) unit :=
  fun s => (Ok tt, {| store := store s; count := count s + 1 |}).

(** The [for huddle in huddles] loop. *)
Fixpoint ensure_each (huddles : list Tenants.HuddleModel)
    (system_user_id : string) : M (Counting W) unit :=
  match huddles with
  | [] => ret tt
  | huddle :: rest =>
      done <- in_store (ensure_huddle_model huddle system_user_id None) ;;
      (match done with
       | Some true => increment
       | _ => ret tt
       end) ;;;
      ensure_each rest system_user_id
  end.

(** [ensure_all_huddle_models]: the final [count] and the store. *)
Definition ensure_all_huddle_models (system_user_id : string) (w : W)
  : Z * W :=
  let body :=
    try_except
      (huddles <-
         lift_result (TenantsListing.get_all_huddles huddles false 0 100) ;;
       ensure_each huddles system_user_id)
      (fun e => ret tt) in
  let (_, s) := body {| store := w; count := 0 |} in
  (count s, store s).

Definition get_default_model_for_huddle (huddle : Tenants.HuddleModel)
  : M W (option string) :=
  let model_id := HuddleModels.get_huddle_model_id huddle in
  existing <- get_model_by_id Models model_id ;;
  match existing with
  | Some _ => ret (Some model_id)
  | None =>
      done <- ensure_huddle_model huddle "system" None ;;
      match done with
      | Some true => ret (Some model_id)
      | _ => ret None
      end
  end.

End Service.

End HuddleModelService.

(** ** utils/huddle_context.py: injecting the huddle prompt

    The wording of the prompt and of a mentor entry is text, not control
    flow: [format_mentor_entry] and the three parts of the prompt are
    parameters, and what is modelled is when each is used. *)

Module HuddleContext.

Definition message : Type := list (string * Json.value).

Section Injection.

Variable format_mentor_entry : Mentors.MentorProfileModel -> string -> string.
(** The opening f-string, from the huddle and [directory_url]. *)
Variable prompt_text : Tenants.HuddleModel -> string -> string.
(** The section appended when there is a mentor context, from
    [mentor_count], the huddle and the context. *)
Variable database_section : Z -> Tenants.HuddleModel -> string -> string.
(** The section appended otherwise. *)
Variable note_section : Tenants.HuddleModel -> string.
(** [str(v)] for a value that is not a string. *)
Variable py_str : Json.value -> string.

Variable profiles : Store Mentors.Profile.

Definition get_mentor_context_for_huddle (huddle : Tenants.HuddleModel)
    (limit : Z) : string :=
  match Mentors.get_mentors_by_huddle profiles (Tenants.id huddle) 0 limit with
  | Ok [] => EmptyString
  | Ok mentors =>
      Mentors.join (Mentors.newline +:+ Mentors.newline)
        (List.map (fun mentor => format_mentor_entry mentor (Tenants.slug huddle))
           mentors)
  | Raise _ => EmptyString
  end.

Definition build_huddle_system_prompt (huddle : Tenants.HuddleModel)
  : result string :=
  let mentor_context := get_mentor_context_for_huddle huddle 200 in
  rbind (Mentors.get_mentor_count_by_huddle profiles (Tenants.id huddle))
    (fun mentor_count =>
  let directory_url :=
    "https://" +:+ Tenants.slug huddle +:+ ".alumnihuddle.com" in
  let prompt := prompt_text huddle directory_url in
  Ok (if PyStr.is_empty mentor_context
      then prompt +:+ note_section huddle
      else prompt +:+ database_section mentor_count huddle mentor_context)).

Definition get_huddle_from_request (request : Request)
  : option Tenants.HuddleModel :=
  state_huddle (state request).

(** [msg.get("role") == "system"] *)
Definition is_system (msg : message) : bool :=
  ModelFilter.id_matches (PyDict.get "role" msg) "system".

(** An interpolated [{existing_content}]. *)
Definition interpolate (v : Json.value) : string :=
  match v with
  | Json.Str s => s
  | _ => py_str v
  end.

Definition separator : string :=
  Mentors.newline +:+ Mentors.newline +:+ "---"
  +:+ Mentors.newline +:+ Mentors.newline.

(** The loop that rewrites the first system message and stops. *)
Fixpoint prepend_to_first_system (prompt : string) (messages : list message)
  : list message :=
  match messages with
  | [] => []
  | msg :: rest =>
      if is_system msg then
        let existing_content :=
          match PyDict.get "content" msg with
          | Some v => v
          | None => Json.Str EmptyString
          end in
        PyDict.set "content"
          (Json.Str (prompt +:+ separator +:+ interpolate existing_content))
          msg :: rest
      else msg :: prepend_to_first_system prompt rest
  end.

(** [inject_huddle_context]; the list it returns is the list it was given,
    changed in place. *)
Definition inject_huddle_context (request : Request)
    (messages : list message) : result (list message) :=
  match get_huddle_from_request request with
  | None => Ok messages
  | Some huddle =>
      rbind (build_huddle_system_prompt huddle) (fun huddle_system_prompt =>
      let has_system := existsb is_system messages in
      if has_system
      then Ok (prepend_to_first_system huddle_system_prompt messages)
      else Ok ([("role", Json.Str "system");
                ("content", Json.Str huddle_system_prompt)] :: messages))
  end.

End Injection.

End HuddleContext.

(** ** Further vocabulary of the statements *)

Module Shape.

(** The character [c] occurs in [s]. *)
Fixpoint has_char (c : ascii) (s : string) : bool :=
  match s with
  | EmptyString => false
  | String d r => Ascii.eqb d c || has_char c r
  end.

(** A huddle row is live: its delete marker is unset. *)
Definition live (h : Tenants.Huddle) : Prop := Tenants.h_deleted_at h = None.

(** The bytes of the chunks before the first failure, in order. *)
Fixpoint received (it : list ModelFilter.Chunk) : ModelFilter.bytes :=
  match it with
  | ModelFilter.Data chunk :: rest => chunk +:+ received rest
  | _ => EmptyString
  end.

(** The first failure of the iterator, if any. *)
Fixpoint first_failure (it : list ModelFilter.Chunk) : option exn :=
  match it with
  | [] => None
  | ModelFilter.Data _ :: rest => first_failure rest
  | ModelFilter.Broken e :: _ => Some e
  end.

(** The exception is one the framework answers by itself. *)
Definition is_http (e : exn) : bool :=
  match e with
  | HTTPException _ _ => true
  | _ => false
  end.

End Shape.

(** ** Further sample data *)

Module MoreSamples.

(** A listing in which one element is a bare identifier, not an object. *)
Definition mixed_models : Json.value :=
  Sample.listing [ Sample.entry "alumnihuddle-x" "Huddle X Mentor Coach";
                   Json.Str "claude-raw";
                   Sample.entry "alumnihuddle-y" "Huddle Y Mentor Coach" ].

Definition config : TenantMiddleware.Config :=
  {| TenantMiddleware.ENABLE_MULTI_TENANCY := true;
     TenantMiddleware.BASE_DOMAIN := Tenant.DEFAULT_BASE_DOMAIN;
     TenantMiddleware.DEFAULT_TENANT_SLUG := None |}.

End MoreSamples.

(** ** Vocabulary for search results *)

Module Hits.

Definition hit_id (h : MentorRag.Hit) : string :=
  Mentors.id (MentorRag.mentor h).

(** The hit [h] belongs to position [j] of the answer of the vector store:
    its mentor carries the id found there, its score and its text are the
    cells of that position. *)
Definition at_position (results : MentorRag.SearchResult) (row : list string)
    (j : nat) (h : MentorRag.Hit) : Prop :=
  nth_error row j = Some (hit_id h)
  /\ MentorRag.cell (MentorRag.distances results) j 0%Q
     = Ok (MentorRag.relevance_score h)
  /\ MentorRag.cell (MentorRag.documents results) j EmptyString
     = Ok (MentorRag.document_text h).

(** The mentor of the hit is a visible row of the table. *)
Definition of_visible_row (profiles : Store Mentors.Profile)
    (h : MentorRag.Hit) : Prop :=
  exists p, In p (Spec.rows_of profiles) /\ Spec.visible p
            /\ MentorRag.mentor h = Mentors.from_orm_with_str_id p.

End Hits.

(** ** A sample search *)

Module SampleSearch.

(** The store after the mentors of huddle [h-x] were indexed. *)
Definition indexed_env : MentorRag.Env (gmap string (list MentorRag.Item)) :=
  snd (MentorRag.index_all_mentors_for_huddle (Some Sample.embedding_function)
         MemoryStore.client Sample.profiles "h-x" Sample.empty_env).

Definition query : string := "finance experience in NYC".

Definition query_vector : MentorRag.vector :=
  match fst (Sample.embedding_function query (MentorRag.world indexed_env)) with
  | Ok v => v
  | Raise _ => []
  end.

(** What the store answers to the query, capped at three. *)
Definition answer : MentorRag.SearchResult :=
  match fst (MentorRag.search MemoryStore.client
               (MentorRag.get_mentor_collection_name "h-x") [query_vector] 3
               (MentorRag.world indexed_env)) with
  | Ok (Some r) => r
  | _ => {| MentorRag.ids := None; MentorRag.distances := None;
            MentorRag.documents := None |}
  end.

Definition row : list string :=
  match MentorRag.ids answer with
  | Some (r :: _) => r
  | _ => []
  end.

(** The same table once mentor [m02] has been deleted. *)
Definition profiles_later : Store Mentors.Profile :=
  match Sample.profiles with
  | Online rows =>
      Online (List.map
                (fun p => if String.eqb (Mentors.p_id p) "m02"
                          then Sample.profile "m02" "h-x" "Mentor 02"
                                 "Willing to mentor" (Some (9 # 1))
                          else p) rows)
  | Offline e => Offline e
  end.

End SampleSearch.

(** ** Reading an indexing report *)

Module Reports.


(** Counts that add up, within the cap of one indexing run. *)
Definition balanced (c : MentorRag.Counts) : Prop :=
  MentorRag.indexed c + MentorRag.failed c = MentorRag.total c
  /\ 0 <= MentorRag.indexed c
  /\ 0 <= MentorRag.failed c
  /\ MentorRag.total c <= 1000.

End Reports.

(** ** A sample [Models] table *)

Module SampleModels.

(** A table that holds the ids of its models and never fails. *)
Definition table : HuddleModelService.ModelsTable (list string) unit :=
  {| HuddleModelService.get_model_by_id := fun id w =>
       (Ok (if PyStr.mem id w then Some tt else None), w);
     HuddleModelService.update_model_by_id := fun id form w =>
       (Ok (Some tt), w);
     HuddleModelService.insert_new_model := fun form user_id w =>
       (Ok (Some tt), HuddleModelService.id form :: w) |}.

End SampleModels.

(** * Properties *)

(** C6. Under the default base domain, the four hosts of the docstring
    extract as documented: the organization subdomain gives its slug, while
    the reserved [www] host, the bare base domain and [localhost:3000] give
    no slug. *)
Theorem C6_extract_subdomain_examples :
  Tenant.extract_subdomain Tenant.DEFAULT_BASE_DOMAIN
    "hoosiers-football.alumnihuddle.com" = Some "hoosiers-football"
  /\ Tenant.extract_subdomain Tenant.DEFAULT_BASE_DOMAIN
       "www.alumnihuddle.com" = None
  /\ Tenant.extract_subdomain Tenant.DEFAULT_BASE_DOMAIN
       "alumnihuddle.com" = None
  /\ Tenant.extract_subdomain Tenant.DEFAULT_BASE_DOMAIN
       "localhost:3000" = None.
Proof. repeat split; vm_compute; reflexivity. Qed.

(** ** The resolution cache *)

Section CacheFacts.

Import TenantCache.

Variables (db : Store Tenants.Huddle) (now : time) (slug : string) (st : State).

Lemma fresh_iff (t cached_at : time) :
  fresh t cached_at = true <-> (t - cached_at < CACHE_TTL_SECONDS)%Q.
Proof.
  unfold fresh, Qltb. rewrite negb_true_iff.
  split.
  - intros Hb. apply Qnot_le_lt. intros Hle.
    apply Qle_bool_iff in Hle. congruence.
  - intros Hlt. destruct (Qle_bool _ _) eqn:Hb; [|reflexivity].
    apply Qle_bool_iff in Hb. exfalso. exact (Qlt_not_le _ _ Hlt Hb).
Qed.

(** A fresh entry answers the call: same value, state untouched. *)
Lemma get_cached_huddle_hit (h : option Tenants.HuddleModel) (cached_at : time) :
  _huddle_cache st !! slug = Some (h, cached_at) ->
  fresh now cached_at = true ->
  get_cached_huddle db now slug st = (Ok h, st).
Proof.
  intros Hentry Hfresh. unfold get_cached_huddle.
  rewrite Hentry, Hfresh. reflexivity.
Qed.

(** Whatever a resolution returns is the value of the entry it leaves; the
    entry is stamped with the clock reading of this call, or it is the one
    held before. *)
Lemma get_cached_huddle_leaves_entry (v : option Tenants.HuddleModel) (st1 : State) :
  get_cached_huddle db now slug st = (Ok v, st1) ->
  exists cached_at,
    _huddle_cache st1 !! slug = Some (v, cached_at)
    /\ (cached_at = now
        \/ _huddle_cache st !! slug = Some (v, cached_at)).
Proof.
  unfold get_cached_huddle.
  destruct (_huddle_cache st !! slug) as [[h ts]|] eqn:Hentry.
  - destruct (fresh now ts) eqn:Hfresh.
    + intros [= <- <-]. eauto.
    + destruct (Tenants.get_huddle_by_slug db slug) as [h'|e].
      * intros [= <- <-]. exists now. cbn. split; [apply lookup_insert_eq | now left].
      * intros [= <- <-]. exists ts. cbn. eauto.
  - destruct (Tenants.get_huddle_by_slug db slug) as [h'|e].
    + intros [= <- <-]. exists now. cbn. split; [apply lookup_insert_eq | now left].
    + discriminate.
Qed.

End CacheFacts.

(** C4. Once a resolution of [slug] has returned [v], the cache holds an
    entry for [slug] with that value (also when [v] is the absent result),
    stamped with the time of that resolution unless it was served from the
    entry already held.  Any later resolution that falls in the entry's
    300-second window returns [v] again and leaves the state as it was; the
    trace of directory calls is part of the state, so the directory is not
    consulted, whatever its condition. *)
Theorem C4_cache_hit_idempotence :
  forall (db1 : Store Tenants.Huddle) (now1 : time) (slug : string)
         (st st1 : TenantCache.State) (v : option Tenants.HuddleModel),
    TenantCache.get_cached_huddle db1 now1 slug st = (Ok v, st1) ->
    exists cached_at,
      TenantCache._huddle_cache st1 !! slug = Some (v, cached_at)
      /\ (cached_at = now1
          \/ TenantCache._huddle_cache st !! slug = Some (v, cached_at))
      /\ forall (db2 : Store Tenants.Huddle) (now2 : time),
          (now2 - cached_at < TenantCache.CACHE_TTL_SECONDS)%Q ->
          TenantCache.get_cached_huddle db2 now2 slug st1 = (Ok v, st1)
          /\ TenantCache.directory_calls
               (snd (TenantCache.get_cached_huddle db2 now2 slug st1))
             = TenantCache.directory_calls st1.
Proof.
  intros db1 now1 slug st st1 v Hfirst.
  destruct (get_cached_huddle_leaves_entry _ _ _ _ _ _ Hfirst)
    as [ts [Hentry Hstamp]].
  exists ts. split; [exact Hentry|]. split; [exact Hstamp|].
  intros db2 now2 Hwindow.
  assert (Hhit : TenantCache.get_cached_huddle db2 now2 slug st1 = (Ok v, st1)).
  { apply get_cached_huddle_hit with (cached_at := ts); [exact Hentry|].
    apply fresh_iff. exact Hwindow. }
  split; [exact Hhit|]. rewrite Hhit. reflexivity.
Qed.

(** C5. While the directory raises [e], a resolution returns the value of
    the entry already held for [slug], fresh or expired, and raises [e]
    itself only when there is none; the cache dictionary is not changed. *)
Theorem C5_stale_fallback :
  forall (e : exn) (now : time) (slug : string) (st : TenantCache.State),
    fst (TenantCache.get_cached_huddle (Offline e) now slug st)
    = match TenantCache._huddle_cache st !! slug with
      | Some (huddle, _) => Ok huddle
      | None => Raise e
      end
    /\ TenantCache._huddle_cache
         (snd (TenantCache.get_cached_huddle (Offline e) now slug st))
       = TenantCache._huddle_cache st.
Proof.
  intros e now slug st. unfold TenantCache.get_cached_huddle. cbn.
  destruct (TenantCache._huddle_cache st !! slug) as [[h ts]|] eqn:Hentry.
  - destruct (TenantCache.fresh now ts); cbn; auto.
  - cbn. auto.
Qed.

(** ** The model-listing filter *)

Lemma mem_true_iff (x : string) (l : list string) :
  PyStr.mem x l = true <-> In x l.
Proof.
  unfold PyStr.mem. rewrite existsb_exists. split.
  - intros [y [Hin Heq]]. apply String.eqb_eq in Heq. subst. exact Hin.
  - intros Hin. exists x. split; [exact Hin|apply String.eqb_refl].
Qed.

Lemma listing_path_mem (request : Request) :
  Spec.listing_path request ->
  PyStr.mem (url_path request) ["/api/models"; "/api/v1/models"] = true.
Proof.
  intros Hp. apply mem_true_iff. destruct Hp as [-> | ->]; cbn; auto.
Qed.

Lemma dict_set_keys {V} (key : string) (v : V) (d : list (string * V)) (k : string) :
  In k (List.map fst (PyDict.set key v d)) -> k = key \/ In k (List.map fst d).
Proof.
  induction d as [|[k0 w] r IH]; cbn.
  - intros [<- | []]. now left.
  - destruct (String.eqb k0 key) eqn:Hk; cbn.
    + intros [<- | Hin]; right; auto.
    + intros [<- | Hin]; [right; now left|].
      destruct (IH Hin) as [-> | Hr]; [now left | right; now right].
Qed.

Lemma of_items_keys {V} (items : list (string * V)) (k : string) :
  In k (List.map fst (PyDict.of_items items)) -> In k (List.map fst items).
Proof.
  unfold PyDict.of_items.
  assert (Hgen : forall d,
            In k (List.map fst
                    (fold_left (fun d kv => PyDict.set (fst kv) (snd kv) d) items d)) ->
            In k (List.map fst d) \/ In k (List.map fst items)).
  { induction items as [|[k0 v0] r IH]; cbn; intros d Hin.
    - now left.
    - destruct (IH _ Hin) as [Hd | Hr]; [|right; now right].
      destruct (dict_set_keys _ _ _ _ Hd) as [-> | Hd']; [right; now left | now left]. }
  intros Hin. destruct (Hgen [] Hin) as [[] | H]. exact H.
Qed.

(** No header kept in [new_headers] describes the old body. *)
Lemma new_headers_stripped (hs : list (string * string)) (k : string) :
  In k (List.map fst (ModelFilter.new_headers hs)) -> ~ Spec.describes_body k.
Proof.
  unfold ModelFilter.new_headers. intros Hin Hdesc.
  apply of_items_keys in Hin. apply in_map_iff in Hin.
  destruct Hin as [[k0 v0] [Hk Hin]]. cbn in Hk. subst k0.
  apply filter_In in Hin. destruct Hin as [_ Hkeep].
  cbn [fst] in Hkeep. apply negb_true_iff in Hkeep.
  assert (Hmem : PyStr.mem (PyStr.lower k)
                   ["content-length"; "content-encoding"] = true).
  { apply mem_true_iff. destruct Hdesc as [-> | ->]; cbn; auto. }
  congruence.
Qed.

(** Reading the iterator to its end leaves nothing unread. *)
Lemma read_chunks_ok (it : list ModelFilter.Chunk) (b : ModelFilter.bytes)
    (l : ModelFilter.Locals) :
  ModelFilter.read_chunks it b = (Ok tt, l) -> ModelFilter.unread l = [].
Proof.
  revert b. induction it as [|[chunk|e] rest IH]; cbn; intros b H.
  - injection H as <-. reflexivity.
  - eauto.
  - discriminate.
Qed.

(** On objects, the comprehension is a plain filter on the identifier. *)
Lemma filter_models_objects (id : string) (models : list Json.value) :
  Forall Spec.is_object models ->
  ModelFilter.filter_models id models = Ok (List.filter (Spec.has_id id) models).
Proof.
  induction 1 as [|m r Hm _ IH]; [reflexivity|].
  destruct m; try contradiction. cbn. rewrite IH. cbn.
  destruct (ModelFilter.id_matches _ _); reflexivity.
Qed.

(** One entry that is no object makes the whole comprehension raise. *)
Lemma filter_models_raises (id : string) (models : list Json.value) :
  ~ Forall Spec.is_object models ->
  ModelFilter.filter_models id models = Raise AttributeError.
Proof.
  induction models as [|m r IH]; intros Hnot.
  - exfalso. apply Hnot. constructor.
  - destruct m; try reflexivity. cbn.
    rewrite IH; [reflexivity|].
    intros Hr. apply Hnot. constructor; [exact I | exact Hr].
Qed.

Lemma has_id_entry_id (id : string) (m : Json.value) :
  Spec.has_id id m = true -> Spec.entry_id m = Some id.
Proof.
  destruct m as [| | | | |items|fields]; cbn; try discriminate.
  destruct (PyDict.get "id" fields) as [[]|]; cbn; try discriminate.
  intros H. apply String.eqb_eq in H. now subst.
Qed.

(** With pairwise distinct identifiers, at most one entry passes. *)
Lemma distinct_ids_at_most_one (id : string) (models : list Json.value) :
  NoDup (Spec.entry_ids models) ->
  (List.length (List.filter (Spec.has_id id) models) <= 1)%nat.
Proof.
  unfold Spec.entry_ids.
  induction models as [|m r IH]; cbn; intros Hnd; [lia|].
  destruct (Spec.has_id id m) eqn:Hm.
  - apply has_id_entry_id in Hm. rewrite Hm in Hnd. cbn in Hnd.
    apply NoDup_cons in Hnd. destruct Hnd as [Hnotin _].
    assert (Hnone : List.filter (Spec.has_id id) r = []).
    { destruct (List.filter (Spec.has_id id) r) as [|m' r'] eqn:Hf; [reflexivity|].
      exfalso. apply Hnotin.
      assert (Hin : In m' (List.filter (Spec.has_id id) r)) by (rewrite Hf; now left).
      apply filter_In in Hin. destruct Hin as [Hin Hid].
      apply has_id_entry_id in Hid.
      apply list_elem_of_omap.
      exists m'. split; [apply list_elem_of_In; exact Hin | exact Hid]. }
    cbn. rewrite Hnone. cbn. lia.
  - apply IH. destruct (Spec.entry_id m); [|exact Hnd].
    cbn in Hnd. apply NoDup_cons in Hnd. tauto.
Qed.

Section FilterFacts.

Variable gzip_decompress : ModelFilter.bytes -> result ModelFilter.bytes.
Variable json_loads : ModelFilter.bytes -> result Json.value.
Variable json_dumps : Json.value -> ModelFilter.bytes.

Let dispatch := ModelFilter.dispatch gzip_decompress json_loads json_dumps.

(** No bound organization: the upstream response is handed back as it is,
    its body unread. *)
Lemma dispatch_unbound (request : Request)
    (response : ModelFilter.StreamingResponse) :
  ModelFilter.bound_huddle request = None ->
  dispatch request response = Ok (ModelFilter.Upstream response).
Proof.
  intros Hnone. unfold dispatch, ModelFilter.dispatch. rewrite Hnone.
  destruct (negb _); reflexivity.
Qed.

(** The filtered path, for a document with a top-level list. *)
Lemma dispatch_filtered (request : Request)
    (response : ModelFilter.StreamingResponse) (huddle : Tenants.HuddleModel)
    (raw body : ModelFilter.bytes) (data : Json.value)
    (models kept : list Json.value) :
  Spec.listing_path request ->
  ModelFilter.bound_huddle request = Some huddle ->
  Spec.is_json response ->
  Spec.delivers response raw ->
  Spec.decoded gzip_decompress response raw = Ok body ->
  json_loads body = Ok data ->
  ModelFilter.data_list data = Ok (Some models) ->
  ModelFilter.filter_models (HuddleModels.get_huddle_model_id huddle) models
  = Ok kept ->
  dispatch request response
  = Ok (ModelFilter.Rebuilt
          {| ModelFilter.content := json_dumps (ModelFilter.set_data data kept);
             ModelFilter.r_status_code := ModelFilter.status_code response;
             ModelFilter.r_headers :=
               ModelFilter.new_headers (ModelFilter.headers response);
             ModelFilter.media_type := Some "application/json" |}).
Proof.
  intros Hpath Hbound Hjson Hread Hdec Hloads Hlist Hfilter.
  unfold dispatch, ModelFilter.dispatch.
  rewrite (listing_path_mem _ Hpath), Hbound. cbn [negb].
  unfold Spec.is_json in Hjson. rewrite Hjson. cbn [negb].
  unfold try_except, ModelFilter.try_filter, bind. cbn [ModelFilter.body ModelFilter.unread].
  unfold Spec.delivers in Hread. rewrite Hread.
  unfold ModelFilter.get_locals. cbn [ModelFilter.body ModelFilter.unread].
  unfold Spec.decoded in Hdec.
  destruct (String.eqb _ "gzip").
  - rewrite Hdec. unfold bind, ModelFilter.set_body, ModelFilter.filter_document,
      bind, ModelFilter.get_locals, lift_result, ret.
    cbn [ModelFilter.body ModelFilter.unread]. rewrite Hloads, Hlist, Hfilter.
    reflexivity.
  - injection Hdec as <-.
    unfold ModelFilter.filter_document, bind, ModelFilter.get_locals,
      lift_result, ret.
    cbn [ModelFilter.body ModelFilter.unread]. rewrite Hloads, Hlist, Hfilter.
    reflexivity.
Qed.

(** The handler of the [try] block never raises, so neither does
    [dispatch]. *)
Lemma dispatch_never_raises (request : Request)
    (response : ModelFilter.StreamingResponse) :
  exists outcome, dispatch request response = Ok outcome.
Proof.
  unfold dispatch, ModelFilter.dispatch.
  destruct (negb _); [eauto|].
  destruct (ModelFilter.bound_huddle request); [|eauto].
  destruct (negb _); [eauto|].
  unfold try_except.
  destruct (ModelFilter.try_filter _ _ _ _ _ _) as [[o|e] l]; cbn; eauto.
Qed.

(** A response the middleware builds itself carries no upstream header
    that describes a body. *)
Lemma rebuilt_headers_stripped (request : Request)
    (response : ModelFilter.StreamingResponse) (r : ModelFilter.Response)
    (k : string) :
  dispatch request response = Ok (ModelFilter.Rebuilt r) ->
  In k (List.map fst (ModelFilter.r_headers r)) -> ~ Spec.describes_body k.
Proof.
  unfold dispatch, ModelFilter.dispatch.
  destruct (negb _); [discriminate|].
  destruct (ModelFilter.bound_huddle request) as [huddle|]; [|discriminate].
  destruct (negb _); [discriminate|].
  assert (Hhs : forall l o l',
            ModelFilter.filter_document json_loads json_dumps huddle response l
            = (Ok (ModelFilter.Rebuilt o), l') ->
            ModelFilter.r_headers o
            = ModelFilter.new_headers (ModelFilter.headers response)).
  { intros l o l'. unfold ModelFilter.filter_document, bind, ModelFilter.get_locals,
      lift_result, ret.
    destruct (json_loads _); [|discriminate].
    destruct (ModelFilter.data_list _) as [[models|]|]; try discriminate.
    - destruct (ModelFilter.filter_models _ _); [|discriminate].
      intros [= <- _]. reflexivity.
    - intros [= <- _]. reflexivity. }
  unfold try_except, ModelFilter.try_filter, bind.
  destruct (ModelFilter.read_chunks _ _) as [[[]|e] l] eqn:Hread.
  - unfold ModelFilter.get_locals.
    destruct (String.eqb _ "gzip").
    + destruct (gzip_decompress _) as [b|e].
      * unfold bind, ModelFilter.set_body.
        destruct (ModelFilter.filter_document _ _ _ _ _) as [[[up|o]|e] l'] eqn:Hdoc;
          cbn.
        -- discriminate.
        -- intros [= <-]. rewrite (Hhs _ _ _ Hdoc). apply new_headers_stripped.
        -- intros [= <-]. cbn. apply new_headers_stripped.
      * cbn. discriminate.
    + destruct (ModelFilter.filter_document _ _ _ _ _) as [[[up|o]|e] l'] eqn:Hdoc;
        cbn.
      * discriminate.
      * intros [= <-]. rewrite (Hhs _ _ _ Hdoc). apply new_headers_stripped.
      * intros [= <-]. cbn. apply new_headers_stripped.
  - cbn. intros [= <-]. cbn. apply new_headers_stripped.
Qed.

End FilterFacts.

Lemma dict_get_set_same {V} (key : string) (v : V) (d : list (string * V)) :
  PyDict.get key (PyDict.set key v d) = Some v.
Proof.
  induction d as [|[k w] r IH]; cbn.
  - now rewrite String.eqb_refl.
  - destruct (String.eqb k key) eqn:Hk; cbn; rewrite Hk; [reflexivity | exact IH].
Qed.

(** C1. On a model-listing route, for a request bound to the organization
    with slug [x] and an upstream JSON document whose top-level list holds
    three entries identified [alumnihuddle-x], [claude-raw] and
    [alumnihuddle-y], the middleware answers with the document in which that
    list is exactly the first entry; for a request with no bound organization
    it hands back the upstream response itself, unread. *)
Theorem C1_filter_keeps_own_model :
  forall (gzip_decompress : ModelFilter.bytes -> result ModelFilter.bytes)
         (json_loads : ModelFilter.bytes -> result Json.value)
         (json_dumps : Json.value -> ModelFilter.bytes)
         (request : Request) (response : ModelFilter.StreamingResponse),
    (ModelFilter.bound_huddle request = None ->
     ModelFilter.dispatch gzip_decompress json_loads json_dumps request response
     = Ok (ModelFilter.Upstream response))
    /\
    (forall (huddle : Tenants.HuddleModel) (raw body : ModelFilter.bytes)
            (fields f1 f2 f3 : list (string * Json.value)),
       Spec.listing_path request ->
       ModelFilter.bound_huddle request = Some huddle ->
       Tenants.slug huddle = "x" ->
       Spec.is_json response ->
       Spec.delivers response raw ->
       Spec.decoded gzip_decompress response raw = Ok body ->
       json_loads body = Ok (Json.Obj fields) ->
       PyDict.get "data" fields
       = Some (Json.Arr [Json.Obj f1; Json.Obj f2; Json.Obj f3]) ->
       PyDict.get "id" f1 = Some (Json.Str "alumnihuddle-x") ->
       PyDict.get "id" f2 = Some (Json.Str "claude-raw") ->
       PyDict.get "id" f3 = Some (Json.Str "alumnihuddle-y") ->
       let filtered :=
         Json.Obj (PyDict.set "data" (Json.Arr [Json.Obj f1]) fields) in
       ModelFilter.dispatch gzip_decompress json_loads json_dumps request response
       = Ok (ModelFilter.Rebuilt
               {| ModelFilter.content := json_dumps filtered;
                  ModelFilter.r_status_code := ModelFilter.status_code response;
                  ModelFilter.r_headers :=
                    ModelFilter.new_headers (ModelFilter.headers response);
                  ModelFilter.media_type := Some "application/json" |})
       /\ ModelFilter.data_list filtered = Ok (Some [Json.Obj f1])
       /\ Spec.entry_ids [Json.Obj f1] = ["alumnihuddle-x"]).
Proof.
  intros gz loads dumps request response. split.
  - apply dispatch_unbound.
  - intros huddle raw body fields f1 f2 f3
      Hpath Hbound Hslug Hjson Hread Hdec Hloads Hdata Hid1 Hid2 Hid3 filtered.
    split; [|split].
    + apply (dispatch_filtered gz loads dumps request response huddle raw body
               (Json.Obj fields) [Json.Obj f1; Json.Obj f2; Json.Obj f3]);
        try assumption.
      * cbn. rewrite Hdata. reflexivity.
      * unfold HuddleModels.get_huddle_model_id. rewrite Hslug.
        cbn. rewrite Hid1, Hid2, Hid3. reflexivity.
    + unfold filtered. cbn. rewrite dict_get_set_same. reflexivity.
    + unfold Spec.entry_ids. cbn. rewrite Hid1. reflexivity.
Qed.

Lemma C1_filter_keeps_own_model_witness :
  ModelFilter.dispatch SampleCodec.gzip_decompress SampleCodec.json_loads
    SampleCodec.json_dumps (Sample.request_for None "/api/models")
    (Sample.json_response Sample.three_models)
  = Ok (ModelFilter.Upstream (Sample.json_response Sample.three_models))
  /\
  ModelFilter.dispatch SampleCodec.gzip_decompress SampleCodec.json_loads
    SampleCodec.json_dumps (Sample.request_for (Some Sample.huddle_x) "/api/models")
    (Sample.json_response Sample.three_models)
  = Ok (ModelFilter.Rebuilt
          {| ModelFilter.content :=
               SampleCodec.json_dumps
                 (Sample.listing
                    [Sample.entry "alumnihuddle-x" "Huddle X Mentor Coach"]);
             ModelFilter.r_status_code := 200;
             ModelFilter.r_headers :=
               [("content-type", "application/json"); ("x-process-time", "0")];
             ModelFilter.media_type := Some "application/json" |}).
Proof.
  split.
  - apply (C1_filter_keeps_own_model SampleCodec.gzip_decompress
             SampleCodec.json_loads SampleCodec.json_dumps
             (Sample.request_for None "/api/models")
             (Sample.json_response Sample.three_models)).
    reflexivity.
  - refine (proj1
             (proj2 (C1_filter_keeps_own_model SampleCodec.gzip_decompress
                SampleCodec.json_loads SampleCodec.json_dumps
                (Sample.request_for (Some Sample.huddle_x) "/api/models")
                (Sample.json_response Sample.three_models))
              Sample.huddle_x (SampleCodec.json_dumps Sample.three_models)
              (SampleCodec.json_dumps Sample.three_models)
              [("data",
                Json.Arr [Sample.entry "alumnihuddle-x" "Huddle X Mentor Coach";
                          Sample.entry "claude-raw" "Claude";
                          Sample.entry "alumnihuddle-y" "Huddle Y Mentor Coach"]);
               ("object", Json.Str "list")]
              _ _ _ _ _ _ _ _ _ _ _ _ _ _)).
    + left. reflexivity.
    + reflexivity.
    + reflexivity.
    + vm_compute. reflexivity.
    + vm_compute. reflexivity.
    + vm_compute. reflexivity.
    + vm_compute. reflexivity.
    + reflexivity.
    + reflexivity.
    + reflexivity.
    + reflexivity.
Defined.

(** C2, as the code has it.  For a request with a bound organization and an
    upstream JSON document whose top-level list holds only objects, the
    emitted list consists of the upstream entries whose identifier is the
    organization's derived identifier, in upstream order; all entries that
    share it are kept, so the list has at most one entry when the upstream
    identifiers are pairwise distinct. *)
Theorem C2_filter_keeps_matching_entries :
  forall (gzip_decompress : ModelFilter.bytes -> result ModelFilter.bytes)
         (json_loads : ModelFilter.bytes -> result Json.value)
         (json_dumps : Json.value -> ModelFilter.bytes)
         (request : Request) (response : ModelFilter.StreamingResponse)
         (huddle : Tenants.HuddleModel) (raw body : ModelFilter.bytes)
         (data : Json.value) (models : list Json.value),
    Spec.listing_path request ->
    ModelFilter.bound_huddle request = Some huddle ->
    Spec.is_json response ->
    Spec.delivers response raw ->
    Spec.decoded gzip_decompress response raw = Ok body ->
    json_loads body = Ok data ->
    ModelFilter.data_list data = Ok (Some models) ->
    Forall Spec.is_object models ->
    let kept :=
      List.filter
        (Spec.has_id ("alumnihuddle-" +:+ Tenants.slug huddle)) models in
    ModelFilter.dispatch gzip_decompress json_loads json_dumps request response
    = Ok (ModelFilter.Rebuilt
            {| ModelFilter.content := json_dumps (ModelFilter.set_data data kept);
               ModelFilter.r_status_code := ModelFilter.status_code response;
               ModelFilter.r_headers :=
                 ModelFilter.new_headers (ModelFilter.headers response);
               ModelFilter.media_type := Some "application/json" |})
    /\ (NoDup (Spec.entry_ids models) -> (List.length kept <= 1)%nat).
Proof.
  intros gz loads dumps request response huddle raw body data models
    Hpath Hbound Hjson Hread Hdec Hloads Hlist Hobjs kept.
  split.
  - apply (dispatch_filtered gz loads dumps request response huddle raw body
             data models); try assumption.
    apply filter_models_objects. exact Hobjs.
  - apply distinct_ids_at_most_one.
Qed.

Lemma C2_filter_keeps_matching_entries_witness :
  ModelFilter.dispatch SampleCodec.gzip_decompress SampleCodec.json_loads
    SampleCodec.json_dumps (Sample.request_for (Some Sample.huddle_y) "/api/v1/models")
    (Sample.json_response Sample.three_models)
  = Ok (ModelFilter.Rebuilt
          {| ModelFilter.content :=
               SampleCodec.json_dumps
                 (Sample.listing
                    [Sample.entry "alumnihuddle-y" "Huddle Y Mentor Coach"]);
             ModelFilter.r_status_code := 200;
             ModelFilter.r_headers :=
               [("content-type", "application/json"); ("x-process-time", "0")];
             ModelFilter.media_type := Some "application/json" |}).
Proof.
  refine (proj1
            (C2_filter_keeps_matching_entries SampleCodec.gzip_decompress
               SampleCodec.json_loads SampleCodec.json_dumps
               (Sample.request_for (Some Sample.huddle_y) "/api/v1/models")
               (Sample.json_response Sample.three_models)
               Sample.huddle_y (SampleCodec.json_dumps Sample.three_models)
               (SampleCodec.json_dumps Sample.three_models)
               Sample.three_models
               [Sample.entry "alumnihuddle-x" "Huddle X Mentor Coach";
                Sample.entry "claude-raw" "Claude";
                Sample.entry "alumnihuddle-y" "Huddle Y Mentor Coach"]
               _ _ _ _ _ _ _ _)).
  - right. reflexivity.
  - reflexivity.
  - vm_compute. reflexivity.
  - vm_compute. reflexivity.
  - vm_compute. reflexivity.
  - vm_compute. reflexivity.
  - reflexivity.
  - repeat constructor.
Defined.

(** Two upstream entries carry the identifier of organization [x]: the
    emitted list holds both. *)
Lemma C2_counterexample_twin_entries :
  exists (r : ModelFilter.Response) (entries : list Json.value),
    ModelFilter.dispatch SampleCodec.gzip_decompress SampleCodec.json_loads
      SampleCodec.json_dumps (Sample.request_for (Some Sample.huddle_x) "/api/models")
      (Sample.json_response Sample.twin_models)
    = Ok (ModelFilter.Rebuilt r)
    /\ SampleCodec.json_loads (ModelFilter.content r)
       = Ok (Sample.listing entries)
    /\ List.length entries = 2%nat
    /\ ~ (List.length entries <= 1)%nat.
Proof.
  eexists. exists [Sample.entry "alumnihuddle-x" "Huddle X Mentor Coach";
                   Sample.entry "alumnihuddle-x" "Huddle X Mentor Coach (pipeline)"].
  split; [vm_compute; reflexivity|].
  split; [vm_compute; reflexivity|].
  split; [reflexivity|]. cbn. lia.
Qed.

(** C3, at the failing path.  When the body is labelled gzip and
    [gzip.decompress] raises on it, [dispatch] returns the upstream response
    object: its headers are the upstream headers, the length and encoding
    headers included, and its body iterator has been read to the end. *)
Theorem C3_gzip_failure_returns_drained_upstream :
  forall (gzip_decompress : ModelFilter.bytes -> result ModelFilter.bytes)
         (json_loads : ModelFilter.bytes -> result Json.value)
         (json_dumps : Json.value -> ModelFilter.bytes)
         (request : Request) (response : ModelFilter.StreamingResponse)
         (huddle : Tenants.HuddleModel) (raw : ModelFilter.bytes) (e : exn),
    Spec.listing_path request ->
    ModelFilter.bound_huddle request = Some huddle ->
    Spec.is_json response ->
    ModelFilter.headers_get (ModelFilter.headers response) "content-encoding" ""
    = "gzip" ->
    Spec.delivers response raw ->
    gzip_decompress raw = Raise e ->
    ModelFilter.dispatch gzip_decompress json_loads json_dumps request response
    = Ok (ModelFilter.Upstream
            {| ModelFilter.status_code := ModelFilter.status_code response;
               ModelFilter.headers := ModelFilter.headers response;
               ModelFilter.body_iterator := [] |}).
Proof.
  intros gz loads dumps request response huddle raw e
    Hpath Hbound Hjson Henc Hread Hgz.
  unfold ModelFilter.dispatch.
  rewrite (listing_path_mem _ Hpath), Hbound. cbn [negb].
  unfold Spec.is_json in Hjson. rewrite Hjson. cbn [negb].
  unfold try_except, ModelFilter.try_filter, bind.
  cbn [ModelFilter.body ModelFilter.unread].
  unfold Spec.delivers in Hread. rewrite Hread.
  unfold ModelFilter.get_locals. cbn [ModelFilter.body ModelFilter.unread].
  rewrite Henc. cbn [String.eqb Ascii.eqb Bool.eqb]. rewrite Hgz.
  reflexivity.
Qed.

Lemma C3_gzip_failure_returns_drained_upstream_witness :
  ModelFilter.dispatch SampleCodec.gzip_decompress SampleCodec.json_loads
    SampleCodec.json_dumps (Sample.request_for (Some Sample.huddle_x) "/api/models")
    Sample.mislabelled_response
  = Ok (ModelFilter.Upstream
          {| ModelFilter.status_code := 200;
             ModelFilter.headers :=
               [ ("content-type", "application/json");
                 ("content-encoding", "gzip");
                 ("content-length", "243") ];
             ModelFilter.body_iterator := [] |}).
Proof.
  refine (C3_gzip_failure_returns_drained_upstream SampleCodec.gzip_decompress
            SampleCodec.json_loads SampleCodec.json_dumps
            (Sample.request_for (Some Sample.huddle_x) "/api/models")
            Sample.mislabelled_response Sample.huddle_x
            (SampleCodec.json_dumps Sample.three_models) BadGzipFile
            _ _ _ _ _ _).
  - left. reflexivity.
  - reflexivity.
  - vm_compute. reflexivity.
  - vm_compute. reflexivity.
  - vm_compute. reflexivity.
  - vm_compute. reflexivity.
Defined.

(** ** Indexing and search *)

(** A [try] whose handler cannot raise does not raise. *)
Lemma try_except_total {S A} (body : M S A) (handler : exn -> M S A) (s : S) :
  (forall e s', exists a s'', handler e s' = (Ok a, s'')) ->
  exists a s', try_except body handler s = (Ok a, s').
Proof.
  intros Hh. unfold try_except.
  destruct (body s) as [[a|e] s']; [eauto | apply Hh].
Qed.

Section ServiceFacts.

Context {W : Type}.
Variable embedding_function : option (string -> M W MentorRag.vector).
Variable client : MentorRag.VectorClient W.
Variable profiles : Store Mentors.Profile.

Let index_mentor := MentorRag.index_mentor embedding_function client.
Let index_each := MentorRag.index_each embedding_function client.

(** Indexing one mentor always returns, with one log record telling the
    outcome. *)
Lemma index_mentor_returns (mentor : Mentors.MentorProfileModel)
    (env : MentorRag.Env W) :
  exists (success : bool) (r : LogRecord) (w : W),
    index_mentor mentor env
    = (Ok success, MentorRag.mkEnv w (MentorRag.log env ++ [r])%list)
    /\ Spec.attempt mentor (success, r).
Proof.
  unfold index_mentor, MentorRag.index_mentor.
  destruct embedding_function as [embed|].
  - unfold try_except, bind, MentorRag.in_world.
    destruct (embed _ (MentorRag.world env)) as [[embedding|e] w1]; cbn.
    + destruct (MentorRag.upsert client _ _ w1) as [[[]|e] w2]; cbn.
      * eexists true, _, w2. split; [reflexivity|]. reflexivity.
      * eexists false, _, w2. split; [reflexivity|]. right. eauto.
    + eexists false, _, w1. split; [reflexivity|]. right. eauto.
  - cbn. eexists false, _, _. split; [reflexivity|]. now left.
Qed.

(** The loop visits every mentor: one attempt each, in order, whatever the
    outcomes of the earlier ones. *)
Lemma index_each_returns (mentors : list Mentors.MentorProfileModel) :
  forall (results : MentorRag.Counts) (env : MentorRag.Env W),
  exists (attempts : list (bool * LogRecord)) (w : W),
    index_each mentors results env
    = (Ok {| MentorRag.indexed :=
               MentorRag.indexed results
               + Z.of_nat (List.length (List.filter fst attempts));
             MentorRag.failed :=
               MentorRag.failed results
               + Z.of_nat (List.length
                             (List.filter (fun a => negb (fst a)) attempts));
             MentorRag.total := MentorRag.total results |},
       MentorRag.mkEnv w (MentorRag.log env ++ List.map snd attempts)%list)
    /\ Forall2 Spec.attempt mentors attempts.
Proof.
  induction mentors as [|mentor rest IH]; intros results env.
  - exists [], (MentorRag.world env). cbn. split; [|constructor].
    unfold ret. destruct results, env. cbn.
    rewrite !Z.add_0_r, app_nil_r. reflexivity.
  - destruct (index_mentor_returns mentor env) as (success & r & w1 & Hone & Hatt).
    cbn. unfold bind. fold index_mentor. rewrite Hone.
    match goal with
    | |- context [index_each rest ?res ?env1] =>
        destruct (IH res env1) as (attempts & w2 & Hrest & Hall)
    end.
    exists ((success, r) :: attempts), w2.
    split; [|constructor; assumption].
    rewrite Hrest. cbn [MentorRag.log].
    destruct success; cbn; rewrite <- app_assoc; cbn;
      do 3 f_equal; lia.
Qed.

Lemma attempts_partition {A} (f : A -> bool) (l : list A) :
  (List.length (List.filter f l)
   + List.length (List.filter (fun a => negb (f a)) l) = List.length l)%nat.
Proof.
  induction l as [|a r IH]; cbn; [reflexivity|].
  destruct (f a); cbn; lia.
Qed.

(** Searching never raises. *)
Lemma search_mentors_never_raises (huddle_id query : string) (limit : Z)
    (env : MentorRag.Env W) :
  exists hits env',
    MentorRag.search_mentors embedding_function client profiles
      huddle_id query limit env = (Ok hits, env').
Proof.
  unfold MentorRag.search_mentors.
  destruct embedding_function as [embed|].
  - apply try_except_total. intros e s'. cbn. eauto.
  - cbn. eauto.
Qed.

End ServiceFacts.

(** C7. Indexing an organization enumerates its eligible mentors (at most
    1000) and attempts every one of them, in order and whatever the outcome
    of the others: each attempt leaves its own log record, [total] is the
    number enumerated and [indexed + failed = total], with [indexed] the
    number of successful attempts.  Only a failure of the enumeration itself
    is raised.  With ten eligible mentors of which two fail embedding, the
    counts are 8, 2 and 10. *)
Theorem C7_index_all_counts :
  fst (MentorRag.index_all_mentors_for_huddle (Some Sample.embedding_function)
         MemoryStore.client Sample.profiles "h-x" Sample.empty_env)
  = Ok {| MentorRag.indexed := 8; MentorRag.failed := 2; MentorRag.total := 10 |}
  /\
  forall (W : Type) (embedding_function : option (string -> M W MentorRag.vector))
         (client : MentorRag.VectorClient W) (profiles : Store Mentors.Profile)
         (huddle_id : string) (env : MentorRag.Env W),
    match Mentors.get_mentors_by_huddle profiles huddle_id 0 1000 with
    | Raise e =>
        MentorRag.index_all_mentors_for_huddle embedding_function client
          profiles huddle_id env = (Raise e, env)
    | Ok mentors =>
        exists (counts : MentorRag.Counts) (env' : MentorRag.Env W)
               (attempts : list (bool * LogRecord)) (summary : LogRecord),
          MentorRag.index_all_mentors_for_huddle embedding_function client
            profiles huddle_id env = (Ok counts, env')
          /\ MentorRag.total counts = Z.of_nat (List.length mentors)
          /\ MentorRag.indexed counts + MentorRag.failed counts
             = MentorRag.total counts
          /\ Forall2 Spec.attempt mentors attempts
          /\ MentorRag.indexed counts
             = Z.of_nat (List.length (List.filter fst attempts))
          /\ MentorRag.log env'
             = (MentorRag.log env ++ List.map snd attempts ++ [summary])%list
    end.
Proof.
  split; [vm_compute; reflexivity|].
  intros W ef client profiles huddle_id env.
  unfold MentorRag.index_all_mentors_for_huddle, bind, lift_result.
  destruct (Mentors.get_mentors_by_huddle profiles huddle_id 0 1000)
    as [mentors|e]; [|reflexivity].
  destruct (index_each_returns ef client mentors
              {| MentorRag.indexed := 0; MentorRag.failed := 0;
                 MentorRag.total := Z.of_nat (List.length mentors) |} env)
    as (attempts & w & Hloop & Hall).
  rewrite Hloop. cbn.
  eexists _, _, attempts, _.
  split; [reflexivity|]. cbn.
  split; [reflexivity|].
  split.
  - pose proof (attempts_partition fst attempts) as Hpart.
    pose proof (Forall2_length _ _ _ Hall) as Hlen. lia.
  - split; [exact Hall|]. split; [lia|].
    rewrite <- app_assoc. reflexivity.
Qed.

(** C8. When the organization's collection does not exist, the search
    returns the empty list and raises nothing, whatever the query, the limit
    and the embedding function. *)
Theorem C8_search_without_collection :
  forall (W : Type) (embedding_function : option (string -> M W MentorRag.vector))
         (client : MentorRag.VectorClient W) (profiles : Store Mentors.Profile)
         (huddle_id query : string) (limit : Z) (env : MentorRag.Env W) (w : W),
    MentorRag.has_collection client
      (MentorRag.get_mentor_collection_name huddle_id) (MentorRag.world env)
    = (Ok false, w) ->
    exists env',
      MentorRag.search_mentors embedding_function client profiles
        huddle_id query limit env = (Ok [], env').
Proof.
  intros W ef client profiles huddle_id query limit env w Habsent.
  unfold MentorRag.search_mentors.
  destruct ef as [embed|].
  - unfold try_except, bind, MentorRag.in_world. rewrite Habsent. cbn. eauto.
  - cbn. eauto.
Qed.

Lemma C8_search_without_collection_witness :
  exists env',
    MentorRag.search_mentors (Some Sample.embedding_function) MemoryStore.client
      Sample.profiles "h-x" "finance experience in NYC" 5 Sample.empty_env
    = (Ok [], env').
Proof.
  apply (C8_search_without_collection _ (Some Sample.embedding_function)
           MemoryStore.client Sample.profiles "h-x"
           "finance experience in NYC" 5 Sample.empty_env ∅).
  vm_compute. reflexivity.
Defined.

(** ** Mentor queries *)

Lemma insert_by_name_perm (p : Mentors.Profile) (l : list Mentors.Profile) :
  Permutation (Mentors.insert_by_name p l) (p :: l).
Proof.
  induction l as [|q r IH]; cbn; [reflexivity|].
  destruct (String.leb _ _); [reflexivity|].
  rewrite IH. apply perm_swap.
Qed.

Lemma order_by_full_name_perm (l : list Mentors.Profile) :
  Permutation (Mentors.order_by_full_name l) l.
Proof.
  unfold Mentors.order_by_full_name.
  induction l as [|p r IH]; cbn; [reflexivity|].
  rewrite insert_by_name_perm. now constructor.
Qed.

Lemma in_skipn_rows {A} (n : nat) (l : list A) (x : A) :
  In x (List.skipn n l) -> In x l.
Proof.
  revert l. induction n as [|n IH]; intros [|a r]; cbn; auto.
Qed.

Lemma in_firstn_rows {A} (n : nat) (l : list A) (x : A) :
  In x (List.firstn n l) -> In x l.
Proof.
  revert l. induction n as [|n IH]; intros [|a r]; cbn; auto; try tauto.
  intros [<- | Hin]; auto.
Qed.

Lemma offset_incl {A} (skip : Z) (rows page : list A) (x : A) :
  Mentors.offset skip rows = Ok page -> In x page -> In x rows.
Proof.
  unfold Mentors.offset.
  destruct (skip =? 0); [intros [= <-]; auto|].
  destruct (skip <? 0); [discriminate|].
  intros [= <-]. apply in_skipn_rows.
Qed.

Lemma limit_rows_incl {A} (limit : Z) (rows page : list A) (x : A) :
  Mentors.limit_rows limit rows = Ok page -> In x page -> In x rows.
Proof.
  unfold Mentors.limit_rows.
  destruct (limit =? 0); [intros [= <-]; auto|].
  destruct (limit <? 0); [discriminate|].
  intros [= <-]. apply in_firstn_rows.
Qed.

Lemma in_distinct (l : list string) (x : string) :
  In x (Mentors.distinct l) -> In x l.
Proof.
  induction l as [|y r IH]; cbn; [auto|].
  intros [<- | Hin]; [now left|].
  apply filter_In in Hin. right. apply IH. tauto.
Qed.

Lemma is_null_true {A} (o : option A) : Mentors.is_null o = true -> o = None.
Proof. destruct o; [discriminate | reflexivity]. Qed.

(** The conditions every mentor query filters on. *)
Lemma status_filter_visible (p : Mentors.Profile) :
  String.eqb (Mentors.p_mentorship_status p) Mentors.MENTOR_STATUS
  && Mentors.is_null (Mentors.p_deleted_at p) = true ->
  Spec.visible p.
Proof.
  intros H. apply andb_true_iff in H. destruct H as [Hs Hd].
  split; [apply String.eqb_eq; exact Hs | apply is_null_true; exact Hd].
Qed.

(** C9. Whatever a mentor query returns comes from visible rows only: a
    listed or fetched mentor is the image of a row of the table whose
    availability is [Willing to mentor] and whose delete marker is unset (of
    the asked organization, with the asked id); the count is the number of
    mentors the unpaged listing returns; every organization id enumerated
    owns such a row.  A query on an unreachable store returns nothing. *)
Theorem C9_only_visible_mentors :
  forall (db : Store Mentors.Profile),
    (forall (huddle_id : string) (skip limit : Z)
            (mentors : list Mentors.MentorProfileModel)
            (m : Mentors.MentorProfileModel),
        Mentors.get_mentors_by_huddle db huddle_id skip limit = Ok mentors ->
        In m mentors ->
        exists p, In p (Spec.rows_of db) /\ Spec.visible p
                  /\ Mentors.p_huddle_id p = huddle_id
                  /\ m = Mentors.from_orm_with_str_id p)
    /\
    (forall (mentor_id : string) (m : Mentors.MentorProfileModel),
        Mentors.get_mentor_by_id db mentor_id = Ok (Some m) ->
        exists p, In p (Spec.rows_of db) /\ Spec.visible p
                  /\ Mentors.p_id p = mentor_id
                  /\ m = Mentors.from_orm_with_str_id p)
    /\
    (forall (huddle_id : string) (n : Z),
        Mentors.get_mentor_count_by_huddle db huddle_id = Ok n ->
        exists mentors,
          Mentors.get_mentors_by_huddle db huddle_id 0 0 = Ok mentors
          /\ n = Z.of_nat (List.length mentors))
    /\
    (forall (huddle_ids : list string) (huddle_id : string),
        Mentors.get_all_huddle_ids_with_mentors db = Ok huddle_ids ->
        In huddle_id huddle_ids ->
        exists p, In p (Spec.rows_of db) /\ Spec.visible p
                  /\ Mentors.p_huddle_id p = huddle_id).
Proof.
  intros [rows|e]; cbn; repeat split; try discriminate.
  - intros huddle_id skip limit mentors m Hq Hin.
    destruct (Mentors.offset skip _) as [paged|] eqn:Hoff; [|discriminate].
    cbn in Hq.
    destruct (Mentors.limit_rows limit paged) as [page|] eqn:Hlim; [|discriminate].
    cbn in Hq. injection Hq as <-.
    apply in_map_iff in Hin. destruct Hin as [p [<- Hp]].
    apply (limit_rows_incl _ _ _ _ Hlim) in Hp.
    apply (offset_incl _ _ _ _ Hoff) in Hp.
    apply (Permutation_in _ (order_by_full_name_perm _)) in Hp.
    apply filter_In in Hp. destruct Hp as [Hrow Hcond].
    apply andb_true_iff in Hcond. destruct Hcond as [Hcond Hdel].
    apply andb_true_iff in Hcond. destruct Hcond as [Hh Hs].
    exists p. repeat split.
    + exact Hrow.
    + apply String.eqb_eq. exact Hs.
    + apply is_null_true. exact Hdel.
    + apply String.eqb_eq. exact Hh.
  - intros mentor_id m Hq.
    destruct (List.find _ rows) as [p|] eqn:Hfind; [|discriminate].
    injection Hq as <-. apply find_some in Hfind. destruct Hfind as [Hrow Hcond].
    apply andb_true_iff in Hcond. destruct Hcond as [Hcond Hdel].
    apply andb_true_iff in Hcond. destruct Hcond as [Hi Hs].
    exists p. repeat split.
    + exact Hrow.
    + apply String.eqb_eq. exact Hs.
    + apply is_null_true. exact Hdel.
    + apply String.eqb_eq. exact Hi.
  - intros huddle_id n [= <-]. eexists. split; [reflexivity|].
    rewrite length_map.
    rewrite (Permutation_length (order_by_full_name_perm _)). reflexivity.
  - intros huddle_ids huddle_id [= <-] Hin.
    apply in_distinct in Hin. apply in_map_iff in Hin.
    destruct Hin as [p [<- Hp]]. apply filter_In in Hp. destruct Hp as [Hrow Hcond].
    exists p. split; [exact Hrow|]. split; [|reflexivity].
    apply status_filter_visible. exact Hcond.
Qed.

Lemma C9_only_visible_mentors_witness :
  (exists p, In p (Spec.rows_of Sample.profiles) /\ Spec.visible p
             /\ Mentors.p_huddle_id p = "h-y"
             /\ Mentors.from_orm_with_str_id (Sample.willing "m20" "h-y" "Mentor 20")
                = Mentors.from_orm_with_str_id p)
  /\
  (exists p, In p (Spec.rows_of Sample.profiles) /\ Spec.visible p
             /\ Mentors.p_id p = "m05"
             /\ Mentors.from_orm_with_str_id (Sample.willing "m05" "h-x" "Mentor 05")
                = Mentors.from_orm_with_str_id p).
Proof.
  split.
  - apply (proj1 (C9_only_visible_mentors Sample.profiles) "h-y" 0 100
             [Mentors.from_orm_with_str_id (Sample.willing "m20" "h-y" "Mentor 20")]).
    + vm_compute. reflexivity.
    + left. reflexivity.
  - apply (proj1 (proj2 (C9_only_visible_mentors Sample.profiles)) "m05").
    vm_compute. reflexivity.
Defined.

(** ** The single-mentor endpoint *)

(** C10. With the store reachable, fetching a mentor raises the 403 error
    exactly when a tenant context is bound and the visible mentor found
    under that id belongs to another organization; with no tenant context,
    a mentor the query finds is returned, whichever organization owns it.
    An unreachable store makes the endpoint raise the store's own error. *)
Theorem C10_forbidden_iff_cross_tenant :
  forall (rows : list Mentors.Profile) (request : Request) (mentor_id : string),
    ((exists detail,
        MentorRouter.get_mentor (Online rows) request mentor_id
        = Raise (HTTPException 403 detail))
     <->
     (exists huddle mentor,
        get_current_huddle request = Some huddle
        /\ Mentors.get_mentor_by_id (Online rows) mentor_id = Ok (Some mentor)
        /\ Mentors.huddle_id mentor <> Tenants.id huddle))
    /\
    (forall mentor,
        get_current_huddle request = None ->
        Mentors.get_mentor_by_id (Online rows) mentor_id = Ok (Some mentor) ->
        MentorRouter.get_mentor (Online rows) request mentor_id = Ok mentor)
    /\
    (forall e, MentorRouter.get_mentor (Offline e) request mentor_id = Raise e).
Proof.
  intros rows request mentor_id.
  apply and_assoc. split; [|intros e; reflexivity].
  unfold MentorRouter.get_mentor.
  destruct (Mentors.get_mentor_by_id (Online rows) mentor_id)
    as [[mentor|]|e] eqn:Hq; cbn.
  - destruct (get_current_huddle request) as [huddle|] eqn:Hh.
    + destruct (String.eqb (Mentors.huddle_id mentor) (Tenants.id huddle)) eqn:Heq;
        cbn.
      * apply String.eqb_eq in Heq. split.
        -- split.
           ++ intros [detail Hr]. discriminate.
           ++ intros (h & m & [= <-] & [= <-] & Hne). contradiction.
        -- intros m Hnone. discriminate.
      * apply String.eqb_neq in Heq. split.
        -- split.
           ++ intros _. exists huddle, mentor. auto.
           ++ intros _. eexists. reflexivity.
        -- intros m Hnone. discriminate.
    + split.
      * split.
        -- intros [detail Hr]. discriminate.
        -- intros (h & m & Hsome & _). discriminate.
      * intros m _ [= <-]. reflexivity.
  - split.
    + split.
      * intros [detail Hr]. discriminate.
      * intros (h & m & _ & Hsome & _). discriminate.
    + intros m _ Hsome. discriminate.
  - cbn in Hq. destruct (List.find _ rows); discriminate.
Qed.

Lemma C10_forbidden_iff_cross_tenant_witness :
  MentorRouter.get_mentor Sample.profiles
    (Sample.request_for None "/api/v1/mentors/m20") "m20"
  = Ok (Mentors.from_orm_with_str_id (Sample.willing "m20" "h-y" "Mentor 20"))
  /\
  exists detail,
    MentorRouter.get_mentor Sample.profiles
      (Sample.request_for (Some Sample.huddle_x) "/api/v1/mentors/m20") "m20"
    = Raise (HTTPException 403 detail).
Proof.
  split.
  - apply (proj1 (proj2 (C10_forbidden_iff_cross_tenant
                    (Spec.rows_of Sample.profiles)
                    (Sample.request_for None "/api/v1/mentors/m20") "m20")));
      vm_compute; reflexivity.
  - apply (proj1 (C10_forbidden_iff_cross_tenant
                    (Spec.rows_of Sample.profiles)
                    (Sample.request_for (Some Sample.huddle_x)
                       "/api/v1/mentors/m20") "m20")).
    exists Sample.huddle_x,
      (Mentors.from_orm_with_str_id (Sample.willing "m20" "h-y" "Mentor 20")).
    split; [reflexivity|]. split; [vm_compute; reflexivity|].
    vm_compute. discriminate.
Defined.

(** ** Concrete runs of the cache *)

Lemma C4_cache_hit_idempotence_witness :
  let first :=
    TenantCache.get_cached_huddle Sample.huddles (1000 # 1) "x"
      Sample.empty_cache in
  fst first = Ok (Some Sample.huddle_x)
  /\ TenantCache.get_cached_huddle (Offline OperationalError) (1299 # 1) "x"
       (snd first)
     = (Ok (Some Sample.huddle_x), snd first).
Proof.
  cbv zeta. split; [vm_compute; reflexivity|].
  destruct (C4_cache_hit_idempotence Sample.huddles (1000 # 1) "x"
              Sample.empty_cache
              (snd (TenantCache.get_cached_huddle Sample.huddles (1000 # 1) "x"
                      Sample.empty_cache))
              (Some Sample.huddle_x))
    as [cached_at [Hentry [_ Hagain]]].
  - vm_compute. reflexivity.
  - assert (Hstamp : cached_at = (1000 # 1)%Q).
    { vm_compute in Hentry. injection Hentry as <-. reflexivity. }
    subst cached_at.
    apply (Hagain (Offline OperationalError) (1299 # 1)%Q).
    vm_compute. reflexivity.
Defined.

(** * Further properties of the code *)

(** ** Slug extraction *)

Lemma chr_lower_idem (c : ascii) :
  PyStr.chr_lower (PyStr.chr_lower c) = PyStr.chr_lower c.
Proof.
  destruct c as [[] [] [] [] [] [] [] []]; vm_compute; reflexivity.
Qed.

Lemma lower_idem (s : string) : PyStr.lower (PyStr.lower s) = PyStr.lower s.
Proof.
  induction s as [|c r IH]; cbn; [reflexivity|].
  now rewrite chr_lower_idem, IH.
Qed.

Lemma chr_lower_dot (c : ascii) :
  Ascii.eqb (PyStr.chr_lower c) "." = Ascii.eqb c ".".
Proof.
  destruct c as [[] [] [] [] [] [] [] []]; vm_compute; reflexivity.
Qed.

Lemma chr_lower_colon (c : ascii) :
  Ascii.eqb (PyStr.chr_lower c) ":" = Ascii.eqb c ":".
Proof.
  destruct c as [[] [] [] [] [] [] [] []]; vm_compute; reflexivity.
Qed.

Lemma has_dot_lower (s : string) :
  Shape.has_char "." (PyStr.lower s) = Shape.has_char "." s.
Proof.
  induction s as [|c r IH]; cbn; [reflexivity|].
  now rewrite chr_lower_dot, IH.
Qed.

Lemma has_colon_lower (s : string) :
  Shape.has_char ":" (PyStr.lower s) = Shape.has_char ":" s.
Proof.
  induction s as [|c r IH]; cbn; [reflexivity|].
  now rewrite chr_lower_colon, IH.
Qed.

(** No part of a split holds the separator. *)
Lemma split_parts_no_sep (sep : ascii) (s p : string) :
  In p (PyStr.split sep s) -> Shape.has_char sep p = false.
Proof.
  revert p. induction s as [|c r IH]; cbn; intros p Hin.
  - destruct Hin as [<- | []]. reflexivity.
  - destruct (Ascii.eqb c sep) eqn:Hc.
    + destruct Hin as [<- | Hin]; [reflexivity | auto].
    + destruct (PyStr.split sep r) as [|h t] eqn:Hs.
      * destruct Hin as [<- | []]. cbn. now rewrite Hc.
      * destruct Hin as [<- | Hin].
        -- cbn. rewrite Hc. cbn. apply IH. now left.
        -- apply IH. now right.
Qed.

(** A part of a split holds only characters of the string. *)
Lemma split_parts_chars (sep c : ascii) (s p : string) :
  In p (PyStr.split sep s) ->
  Shape.has_char c p = true -> Shape.has_char c s = true.
Proof.
  revert p. induction s as [|d r IH]; cbn; intros p Hin Hp.
  - destruct Hin as [<- | []]. discriminate.
  - destruct (Ascii.eqb d sep) eqn:Hd.
    + destruct Hin as [<- | Hin]; [discriminate|].
      rewrite (IH _ Hin Hp). apply orb_true_r.
    + destruct (PyStr.split sep r) as [|h t] eqn:Hs.
      * destruct Hin as [<- | []]. cbn in Hp. rewrite orb_false_r in Hp.
        now rewrite Hp.
      * destruct Hin as [<- | Hin].
        -- cbn in Hp. apply orb_true_iff in Hp. destruct Hp as [Hp | Hp].
           ++ now rewrite Hp.
           ++ rewrite (IH h (or_introl eq_refl) Hp). apply orb_true_r.
        -- rewrite (IH p (or_intror Hin) Hp). apply orb_true_r.
Qed.

Lemma substring_chars (c : ascii) (s : string) (n m : nat) :
  Shape.has_char c (String.substring n m s) = true ->
  Shape.has_char c s = true.
Proof.
  revert n m. induction s as [|d r IH]; intros n m; cbn.
  - destruct n, m; cbn; discriminate.
  - destruct n as [|n].
    + destruct m as [|m]; cbn; [discriminate|].
      intros H. apply orb_true_iff in H. destruct H as [H | H].
      * now rewrite H.
      * rewrite (IH 0%nat m H). apply orb_true_r.
    + intros H. rewrite (IH n m H). apply orb_true_r.
Qed.

Lemma rstrip_chars (ch c : ascii) (s : string) :
  Shape.has_char c (PyStr.rstrip ch s) = true -> Shape.has_char c s = true.
Proof.
  induction s as [|d r IH]; cbn; [discriminate|].
  destruct (PyStr.rstrip ch r) as [|e t] eqn:Hr.
  - destruct (Ascii.eqb d ch); cbn; [discriminate|].
    rewrite orb_false_r. intros H. now rewrite H.
  - cbn [Shape.has_char]. intros H.
    apply orb_true_iff in H. destruct H as [H | H].
    + now rewrite H.
    + rewrite (IH H). apply orb_true_r.
Qed.

Lemma slice_chars (c : ascii) (s : string) (n : nat) :
  Shape.has_char c (PyStr.slice_to_neg s n) = true ->
  Shape.has_char c s = true.
Proof.
  unfold PyStr.slice_to_neg. destruct n; [discriminate|].
  apply substring_chars.
Qed.

Lemma first_unreserved_shape (parts : list string) (s : string) :
  Tenant.first_unreserved parts = Some s ->
  PyStr.mem s Tenant.RESERVED_SUBDOMAINS = false
  /\ exists part, In part parts /\ s = PyStr.lower part.
Proof.
  induction parts as [|part rest IH]; cbn [Tenant.first_unreserved];
    [discriminate|].
  destruct (PyStr.mem (PyStr.lower part) Tenant.RESERVED_SUBDOMAINS) eqn:Hm;
    cbn [negb].
  - intros H. destruct (IH H) as [Hr [q [Hq ->]]]. split; [exact Hr|].
    exists q. split; [now right | reflexivity].
  - intros [= <-]. split; [exact Hm|]. exists part.
    split; [now left | reflexivity].
Qed.

(** Whatever [extract_subdomain] returns is the lowered form of one
    dot-separated part of the host before its port. *)
Lemma extract_subdomain_part (base host s : string) :
  Tenant.extract_subdomain base host = Some s ->
  PyStr.mem s Tenant.RESERVED_SUBDOMAINS = false
  /\ exists part hostname,
       s = PyStr.lower part
       /\ Shape.has_char "." part = false
       /\ Shape.has_char ":" hostname = false
       /\ (forall c, Shape.has_char c part = true ->
                     Shape.has_char c hostname = true).
Proof.
  unfold Tenant.extract_subdomain.
  destruct (PyStr.is_empty host); [discriminate|].
  set (hostname := match PyStr.split ":" host with
                   | h :: _ => h
                   | [] => host
                   end).
  assert (Hcolon : Shape.has_char ":" hostname = false).
  { unfold hostname.
    destruct (PyStr.split ":" host) as [|h t] eqn:Hs.
    - destruct host; cbn in Hs; [discriminate|].
      destruct (Ascii.eqb _ _); [discriminate|].
      destruct (PyStr.split ":" host); discriminate.
    - apply (split_parts_no_sep ":" host). rewrite Hs. now left. }
  destruct (PyStr.mem hostname _); [discriminate|].
  destruct (negb _); [discriminate|].
  set (sub := PyStr.rstrip "." (PyStr.slice_to_neg hostname (PyStr.len base))).
  destruct (PyStr.is_empty sub); [discriminate|].
  assert (Hsub : forall part c,
            In part (PyStr.split "." sub) ->
            Shape.has_char c part = true -> Shape.has_char c hostname = true).
  { intros part c Hin Hc.
    apply (slice_chars c hostname (PyStr.len base)).
    apply (rstrip_chars "." c). fold sub.
    apply (split_parts_chars "." c sub part Hin Hc). }
  assert (Hgen : Tenant.first_unreserved (PyStr.split "." sub) = Some s ->
                 PyStr.mem s Tenant.RESERVED_SUBDOMAINS = false
                 /\ exists part hostname0,
                      s = PyStr.lower part
                      /\ Shape.has_char "." part = false
                      /\ Shape.has_char ":" hostname0 = false
                      /\ (forall c, Shape.has_char c part = true ->
                                    Shape.has_char c hostname0 = true)).
  { intros H. destruct (first_unreserved_shape _ _ H) as [Hr [part [Hin ->]]].
    split; [exact Hr|]. exists part, hostname.
    split; [reflexivity|].
    split; [apply (split_parts_no_sep "." sub); exact Hin|].
    split; [exact Hcolon|]. intros c. apply Hsub. exact Hin. }
  destruct (PyStr.split "." sub) as [|p [|p' rest]] eqn:Hparts.
  - exact Hgen.
  - intros H. apply Hgen. cbn [Tenant.first_unreserved].
    destruct (PyStr.mem (PyStr.lower p) Tenant.RESERVED_SUBDOMAINS);
      [discriminate | exact H].
  - exact Hgen.
Qed.

(** X1. A slug extracted from a host is already in lower case, is none of
    the reserved subdomains, and holds neither a dot nor a colon. *)
Theorem X1_extracted_slug_shape :
  forall (base host s : string),
    Tenant.extract_subdomain base host = Some s ->
    PyStr.lower s = s
    /\ PyStr.mem s Tenant.RESERVED_SUBDOMAINS = false
    /\ Shape.has_char "." s = false
    /\ Shape.has_char ":" s = false.
Proof.
  intros base host s H.
  destruct (extract_subdomain_part base host s H)
    as [Hr [part [hostname [-> [Hdot [Hcolon Hchars]]]]]].
  split; [apply lower_idem|]. split; [exact Hr|].
  split; [now rewrite has_dot_lower|].
  rewrite has_colon_lower.
  destruct (Shape.has_char ":" part) eqn:Hp; [|reflexivity].
  apply Hchars in Hp. congruence.
Qed.

Lemma X1_extracted_slug_shape_witness :
  PyStr.lower "hoosiers-football" = "hoosiers-football"
  /\ PyStr.mem "hoosiers-football" Tenant.RESERVED_SUBDOMAINS = false
  /\ Shape.has_char "." "hoosiers-football" = false
  /\ Shape.has_char ":" "hoosiers-football" = false.
Proof.
  apply (X1_extracted_slug_shape Tenant.DEFAULT_BASE_DOMAIN
           "WWW.Hoosiers-Football.alumnihuddle.com:8443").
  vm_compute. reflexivity.
Defined.

Lemma append_empty (s : string) : EmptyString +:+ s = s.
Proof. reflexivity. Qed.

Lemma append_cons (c : ascii) (r s : string) :
  String c r +:+ s = String c (r +:+ s).
Proof. reflexivity. Qed.

Lemma split_without_sep (sep : ascii) (h : string) :
  Shape.has_char sep h = false -> PyStr.split sep h = [h].
Proof.
  induction h as [|c r IH]; cbn [PyStr.split Shape.has_char]; [reflexivity|].
  intros H. apply orb_false_iff in H. destruct H as [Hc Hr].
  rewrite Hc, (IH Hr). reflexivity.
Qed.

Lemma split_at_first_sep (sep : ascii) (h p : string) :
  Shape.has_char sep h = false ->
  PyStr.split sep (h +:+ String sep p) = h :: PyStr.split sep p.
Proof.
  induction h as [|c r IH]; rewrite ?append_empty, ?append_cons;
    cbn [PyStr.split Shape.has_char].
  - intros _. now rewrite Ascii.eqb_refl.
  - intros H. apply orb_false_iff in H. destruct H as [Hc Hr].
    rewrite Hc, (IH Hr). reflexivity.
Qed.

(** X2. The port of the host plays no part: a host followed by a colon and
    anything extracts as the host alone. *)
Theorem X2_extract_subdomain_ignores_port :
  forall (base hostname port : string),
    Shape.has_char ":" hostname = false ->
    Tenant.extract_subdomain base (hostname +:+ String ":" port)
    = Tenant.extract_subdomain base hostname.
Proof.
  intros base hostname port Hno. unfold Tenant.extract_subdomain.
  rewrite (split_at_first_sep ":" hostname port Hno).
  rewrite (split_without_sep ":" hostname Hno).
  destruct hostname as [|c r]; [|reflexivity].
  rewrite append_empty.
  cbn [PyStr.is_empty]. cbn [PyStr.mem existsb String.eqb orb].
  unfold PyStr.slice_to_neg, PyStr.rstrip.
  destruct (negb _); [reflexivity|].
  destruct (PyStr.len base); cbn; reflexivity.
Qed.

Lemma X2_extract_subdomain_ignores_port_witness :
  Tenant.extract_subdomain Tenant.DEFAULT_BASE_DOMAIN
    ("hoosiers-football.alumnihuddle.com" +:+ String ":" "8443")
  = Tenant.extract_subdomain Tenant.DEFAULT_BASE_DOMAIN
      "hoosiers-football.alumnihuddle.com".
Proof.
  apply (X2_extract_subdomain_ignores_port Tenant.DEFAULT_BASE_DOMAIN
           "hoosiers-football.alumnihuddle.com" "8443").
  reflexivity.
Defined.

(** ** The resolution cache, further *)

(** X3. A resolution touches no entry but the one of its own slug, and it
    never removes that one. *)
Theorem X3_cache_frame :
  forall (db : Store Tenants.Huddle) (now : time) (slug other : string)
         (st : TenantCache.State),
    let st' := snd (TenantCache.get_cached_huddle db now slug st) in
    (other <> slug ->
     TenantCache._huddle_cache st' !! other
     = TenantCache._huddle_cache st !! other)
    /\ (is_Some (TenantCache._huddle_cache st !! slug) ->
        is_Some (TenantCache._huddle_cache st' !! slug)).
Proof.
  intros db now slug other st. cbv zeta.
  unfold TenantCache.get_cached_huddle.
  destruct (TenantCache._huddle_cache st !! slug) as [[h ts]|] eqn:Hentry.
  - destruct (TenantCache.fresh now ts).
    + cbn. rewrite Hentry. split; [reflexivity | eauto].
    + destruct (Tenants.get_huddle_by_slug db slug) as [v|e]; cbn.
      * split.
        -- intros Hne. apply lookup_insert_ne. congruence.
        -- intros _. rewrite lookup_insert_eq. eauto.
      * rewrite Hentry. split; [reflexivity | eauto].
  - destruct (Tenants.get_huddle_by_slug db slug) as [v|e]; cbn.
    + split.
      * intros Hne. apply lookup_insert_ne. congruence.
      * intros [x Hx]. discriminate.
    + split; [reflexivity|]. intros [x Hx]. discriminate.
Qed.

(** X4. When no fresh entry is held for the slug (none at all, or an
    expired one), the resolution asks the directory exactly once; an answer
    is returned and stored with the clock reading of the call, a failure
    leaves the cache dictionary as it was. *)
Theorem X4_miss_asks_directory_once :
  forall (db : Store Tenants.Huddle) (now : time) (slug : string)
         (st : TenantCache.State),
    (forall h cached_at,
        TenantCache._huddle_cache st !! slug = Some (h, cached_at) ->
        ~ (now - cached_at < TenantCache.CACHE_TTL_SECONDS)%Q) ->
    let out := TenantCache.get_cached_huddle db now slug st in
    TenantCache.directory_calls (snd out)
    = slug :: TenantCache.directory_calls st
    /\ match Tenants.get_huddle_by_slug db slug with
       | Ok v =>
           fst out = Ok v
           /\ TenantCache._huddle_cache (snd out) !! slug = Some (v, now)
       | Raise _ =>
           TenantCache._huddle_cache (snd out) = TenantCache._huddle_cache st
       end.
Proof.
  intros db now slug st Hstale. cbv zeta.
  unfold TenantCache.get_cached_huddle.
  assert (Hhit :
    match TenantCache._huddle_cache st !! slug with
    | Some (huddle, cached_at) =>
        if TenantCache.fresh now cached_at then Some huddle else None
    | None => None
    end = None).
  { destruct (TenantCache._huddle_cache st !! slug) as [[h ts]|] eqn:Hentry;
      [|reflexivity].
    destruct (TenantCache.fresh now ts) eqn:Hf; [|reflexivity].
    exfalso. apply (Hstale h ts eq_refl). apply fresh_iff. exact Hf. }
  rewrite Hhit.
  destruct (Tenants.get_huddle_by_slug db slug) as [v|e]; cbn.
  - split; [reflexivity|]. split; [reflexivity | apply lookup_insert_eq].
  - destruct (TenantCache._huddle_cache st !! slug); cbn; auto.
Qed.

Lemma X4_miss_asks_directory_once_witness :
  let out :=
    TenantCache.get_cached_huddle Sample.huddles (1000 # 1) "y"
      Sample.empty_cache in
  TenantCache.directory_calls (snd out) = ["y"]
  /\ fst out = Ok (Some Sample.huddle_y)
  /\ TenantCache._huddle_cache (snd out) !! "y"
     = Some (Some Sample.huddle_y, 1000 # 1).
Proof.
  cbv zeta.
  pose proof (X4_miss_asks_directory_once Sample.huddles (1000 # 1) "y"
                Sample.empty_cache) as H.
  cbv zeta in H.
  assert (Hdir : Tenants.get_huddle_by_slug Sample.huddles "y"
                 = Ok (Some Sample.huddle_y)) by (vm_compute; reflexivity).
  rewrite Hdir in H. apply H.
  intros h cached_at Hentry. vm_compute in Hentry. discriminate.
Defined.

(** ** The tenant middleware *)

(** The outcome of a resolution while the directory raises [e]. *)
Lemma offline_resolution_shape (e : exn) (now : time) (slug : string)
    (st : TenantCache.State) :
  fst (TenantCache.get_cached_huddle (Offline e) now slug st)
  = match TenantCache._huddle_cache st !! slug with
    | Some (huddle, _) => Ok huddle
    | None => Raise e
    end
  /\ TenantCache._huddle_cache
       (snd (TenantCache.get_cached_huddle (Offline e) now slug st))
     = TenantCache._huddle_cache st.
Proof.
  unfold TenantCache.get_cached_huddle. cbn.
  destruct (TenantCache._huddle_cache st !! slug) as [[h ts]|] eqn:Hentry.
  - destruct (TenantCache.fresh now ts); cbn; auto.
  - cbn. auto.
Qed.


Lemma dispatch_cases (cfg : TenantMiddleware.Config)
    (db : Store Tenants.Huddle) (now : time) (hs : list (string * string))
    (st : TenantCache.State) :
  (exists st', TenantMiddleware.dispatch cfg db now hs st
               = (Ok TenantMiddleware.nothing, st'))
  \/ (exists h st',
        TenantMiddleware.dispatch cfg db now hs st
        = (Ok {| TenantMiddleware.tenant := Some h;
                 TenantMiddleware.tenant_id := Some (Tenants.id h);
                 TenantMiddleware.huddle := Some h;
                 TenantMiddleware.huddle_id := Some (Tenants.id h) |}, st')
        /\ exists slug,
             TenantMiddleware.chosen_slug cfg hs = Some slug
             /\ fst (TenantCache.get_cached_huddle db now slug st) = Ok (Some h))
  \/ (exists code detail st' slug,
        TenantMiddleware.dispatch cfg db now hs st
        = (Raise (HTTPException code detail), st')
        /\ fst (TenantCache.get_cached_huddle db now slug st)
           = Raise (HTTPException code detail)).
Proof.
  unfold TenantMiddleware.dispatch.
  destruct (negb _); [left; eauto|].
  destruct (TenantMiddleware.chosen_slug cfg hs) as [slug|]; [|left; eauto].
  destruct (PyStr.is_empty slug); [left; eauto|].
  destruct (TenantCache.get_cached_huddle db now slug st) as [[[h|]|e] st'] eqn:Hg.
  - right. left. exists h, st'. split; [reflexivity|]. exists slug.
    rewrite Hg. auto.
  - left. eauto.
  - destruct e; try solve [left; eauto].
    right. right. exists status_code, detail, st', slug. rewrite Hg. auto.
Qed.

(** X5. Whatever [dispatch] publishes is of one piece: the tenant and the
    huddle attributes are the same, and both ids are the id of that huddle
    or unset with it.  The only exception that can leave [dispatch] before
    the handler runs is an [HTTPException]. *)
Theorem X5_dispatch_publishes_consistently :
  forall (cfg : TenantMiddleware.Config) (db : Store Tenants.Huddle)
         (now : time) (hs : list (string * string)) (st : TenantCache.State),
    match fst (TenantMiddleware.dispatch cfg db now hs st) with
    | Ok p =>
        TenantMiddleware.huddle p = TenantMiddleware.tenant p
        /\ TenantMiddleware.huddle_id p = TenantMiddleware.tenant_id p
        /\ TenantMiddleware.tenant_id p
           = option_map Tenants.id (TenantMiddleware.tenant p)
    | Raise e => Shape.is_http e = true
    end.
Proof.
  intros cfg db now hs st.
  destruct (dispatch_cases cfg db now hs st)
    as [[st' ->] | [(h & st' & -> & _) | (code & detail & st' & slug & -> & _)]];
    cbn; auto.
Qed.

(** X6. A directory that fails with anything but an [HTTPException] never
    fails the request: the handler runs, with the value of the entry held
    for the slug (stale or not) or, when there is none, with no tenant; the
    cache dictionary is unchanged. *)
Theorem X6_dispatch_survives_store_failure :
  forall (cfg : TenantMiddleware.Config) (e : exn) (now : time)
         (hs : list (string * string)) (st : TenantCache.State),
    Shape.is_http e = false ->
    exists p st',
      TenantMiddleware.dispatch cfg (Offline e) now hs st = (Ok p, st')
      /\ TenantCache._huddle_cache st' = TenantCache._huddle_cache st
      /\ (forall slug,
            TenantMiddleware.chosen_slug cfg hs = Some slug ->
            TenantCache._huddle_cache st !! slug = None ->
            p = TenantMiddleware.nothing).
Proof.
  intros cfg e now hs st Hne. unfold TenantMiddleware.dispatch.
  destruct (negb _); [eauto 6|].
  destruct (TenantMiddleware.chosen_slug cfg hs) as [slug|]; [|eauto 6].
  destruct (PyStr.is_empty slug); [eauto 6|].
  pose proof (offline_resolution_shape e now slug st) as [Hfst Hcache].
  destruct (TenantCache.get_cached_huddle (Offline e) now slug st)
    as [r st'] eqn:Hg.
  cbn in Hfst, Hcache. subst r.
  destruct (TenantCache._huddle_cache st !! slug) as [[[h|] ts]|] eqn:Hentry.
  - eexists _, st'. split; [reflexivity|]. split; [exact Hcache|].
    intros slug' [= <-] Hnone. congruence.
  - eexists _, st'. split; [reflexivity|]. split; [exact Hcache|]. auto.
  - destruct e; try discriminate;
      (eexists _, st'; split; [reflexivity|]; split; [exact Hcache|]; auto).
Qed.

Lemma X6_dispatch_survives_store_failure_witness :
  exists p st',
    TenantMiddleware.dispatch
      {| TenantMiddleware.ENABLE_MULTI_TENANCY := true;
         TenantMiddleware.BASE_DOMAIN := Tenant.DEFAULT_BASE_DOMAIN;
         TenantMiddleware.DEFAULT_TENANT_SLUG := None |}
      (Offline OperationalError) (1000 # 1)
      [("host", "x.alumnihuddle.com")] Sample.empty_cache
    = (Ok p, st')
    /\ TenantCache._huddle_cache st'
       = TenantCache._huddle_cache Sample.empty_cache
    /\ (forall slug,
          TenantMiddleware.chosen_slug
            {| TenantMiddleware.ENABLE_MULTI_TENANCY := true;
               TenantMiddleware.BASE_DOMAIN := Tenant.DEFAULT_BASE_DOMAIN;
               TenantMiddleware.DEFAULT_TENANT_SLUG := None |}
            [("host", "x.alumnihuddle.com")] = Some slug ->
          TenantCache._huddle_cache Sample.empty_cache !! slug = None ->
          p = TenantMiddleware.nothing).
Proof.
  apply (X6_dispatch_survives_store_failure _ OperationalError).
  reflexivity.
Defined.

Lemma X3_cache_frame_witness :
  TenantCache._huddle_cache
    (snd (TenantCache.get_cached_huddle Sample.huddles (1300 # 1) "y"
            (snd (TenantCache.get_cached_huddle Sample.huddles (1000 # 1) "x"
                    Sample.empty_cache)))) !! "x"
  = TenantCache._huddle_cache
      (snd (TenantCache.get_cached_huddle Sample.huddles (1000 # 1) "x"
              Sample.empty_cache)) !! "x".
Proof.
  apply (proj1 (X3_cache_frame Sample.huddles (1300 # 1) "y" "x"
                  (snd (TenantCache.get_cached_huddle Sample.huddles
                          (1000 # 1) "x" Sample.empty_cache)))).
  discriminate.
Defined.



(** X8. On a request that went through the middleware, every accessor of
    the tenant reads the same huddle, and the guard raises its 400 exactly
    when the middleware published none. *)
Theorem X8_accessors_agree_after_dispatch :
  forall (cfg : TenantMiddleware.Config) (db : Store Tenants.Huddle)
         (now : time) (hs : list (string * string)) (st : TenantCache.State)
         (path : string),
    match fst (TenantMiddleware.dispatch cfg db now hs st) with
    | Raise _ => True
    | Ok p =>
        let request := TenantMiddleware.request_with p path in
        get_current_huddle request = TenantMiddleware.tenant p
        /\ TenantMiddleware.get_current_tenant request = TenantMiddleware.tenant p
        /\ ModelFilter.bound_huddle request = TenantMiddleware.tenant p
        /\ HuddleContext.get_huddle_from_request request
           = TenantMiddleware.tenant p
        /\ TenantMiddleware.require_huddle request
           = match TenantMiddleware.tenant p with
             | Some h => Ok h
             | None =>
                 Raise (HTTPException 400
                          "This endpoint requires a valid organization subdomain.")
             end
    end.
Proof.
  intros cfg db now hs st path.
  destruct (dispatch_cases cfg db now hs st)
    as [[st' ->] | [(h & st' & -> & _) | (code & detail & st' & slug & -> & _)]];
    cbn; auto 6.
Qed.

(** ** The huddle directory *)

Lemma live_model_some (found : option Tenants.Huddle) (h : Tenants.HuddleModel) :
  Tenants.live_model found = Some h ->
  exists row, found = Some row /\ Shape.live row
              /\ h = Tenants.from_orm_with_str_id row.
Proof.
  destruct found as [row|]; cbn; [|discriminate].
  destruct (Tenants.h_deleted_at row) eqn:Hd; [discriminate|].
  intros [= <-]. exists row. auto.
Qed.

(** X9. A huddle found by slug or by id is the image of a row of the table
    that is not deleted and carries the lowered slug, respectively the id,
    that was asked for; the lookup by slug does not depend on the case of
    its argument. *)
Theorem X9_directory_lookup_sound :
  forall (db : Store Tenants.Huddle) (key : string) (h : Tenants.HuddleModel),
    (Tenants.get_huddle_by_slug db key = Ok (Some h) ->
     Tenants.slug h = PyStr.lower key
     /\ exists row, In row (Spec.rows_of db) /\ Shape.live row
                    /\ h = Tenants.from_orm_with_str_id row)
    /\ (Tenants.get_huddle_by_id db key = Ok (Some h) ->
        Tenants.id h = key
        /\ exists row, In row (Spec.rows_of db) /\ Shape.live row
                       /\ h = Tenants.from_orm_with_str_id row)
    /\ Tenants.get_huddle_by_slug db (PyStr.lower key)
       = Tenants.get_huddle_by_slug db key.
Proof.
  intros [rows|e] key h; cbn; repeat split; try discriminate.
  - injection H as H. apply live_model_some in H.
    destruct H as (row & Hfind & _ & ->). apply find_some in Hfind.
    cbn. apply String.eqb_eq. tauto.
  - injection H as H. apply live_model_some in H.
    destruct H as (row & Hfind & Hlive & ->). apply find_some in Hfind.
    exists row. tauto.
  - injection H as H. apply live_model_some in H.
    destruct H as (row & Hfind & _ & ->). apply find_some in Hfind.
    cbn. apply String.eqb_eq. tauto.
  - injection H as H. apply live_model_some in H.
    destruct H as (row & Hfind & Hlive & ->). apply find_some in Hfind.
    exists row. tauto.
  - now rewrite lower_idem.
Qed.

Lemma X9_directory_lookup_sound_witness :
  Tenants.slug Sample.huddle_x = PyStr.lower "X"
  /\ exists row, In row (Spec.rows_of Sample.huddles) /\ Shape.live row
                 /\ Sample.huddle_x = Tenants.from_orm_with_str_id row.
Proof.
  apply (proj1 (X9_directory_lookup_sound Sample.huddles "X" Sample.huddle_x)).
  vm_compute. reflexivity.
Defined.

Lemma insert_huddle_by_name_perm (h : Tenants.Huddle) (l : list Tenants.Huddle) :
  Permutation (TenantsListing.insert_by_name h l) (h :: l).
Proof.
  induction l as [|q r IH]; cbn; [reflexivity|].
  destruct (String.leb _ _); [reflexivity|].
  rewrite IH. apply perm_swap.
Qed.

Lemma order_by_name_perm (l : list Tenants.Huddle) :
  Permutation (TenantsListing.order_by_name l) l.
Proof.
  unfold TenantsListing.order_by_name.
  induction l as [|h r IH]; cbn; [reflexivity|].
  rewrite insert_huddle_by_name_perm. now constructor.
Qed.

Lemma limit_rows_length {A} (limit : Z) (rows page : list A) :
  0 < limit -> Mentors.limit_rows limit rows = Ok page ->
  Z.of_nat (List.length page) <= limit.
Proof.
  intros Hpos. unfold Mentors.limit_rows.
  destruct (limit =? 0) eqn:H0; [lia|].
  destruct (limit <? 0) eqn:Hneg; [lia|].
  intros [= <-]. rewrite length_firstn. lia.
Qed.

(** X10. The admin listing never shows a deleted huddle: every element is
    the response of a live row, marked active, and a positive [limit]
    bounds the length of the list. *)
Theorem X10_listing_excludes_deleted :
  forall (db : Store Tenants.Huddle) (skip limit : Z)
         (listed : list TenantRouter.HuddleResponse),
    TenantRouter.list_huddles db skip limit = Ok listed ->
    (forall r, In r listed ->
       TenantRouter.is_active r = true
       /\ exists row, In row (Spec.rows_of db) /\ Shape.live row
                      /\ r = TenantRouter.response_of
                               (Tenants.from_orm_with_str_id row))
    /\ (0 < limit -> Z.of_nat (List.length listed) <= limit).
Proof.
  intros [rows|e] skip limit listed;
    unfold TenantRouter.list_huddles, TenantsListing.get_all_huddles;
    cbn [negb rbind]; [|discriminate].
  destruct (Mentors.offset skip _) as [paged|] eqn:Hoff; [|discriminate].
  cbn [rbind].
  destruct (Mentors.limit_rows limit paged) as [page|] eqn:Hlim;
    [|discriminate].
  cbn [rbind]. intros [= <-]. split.
  - intros r Hin. apply in_map_iff in Hin. destruct Hin as [m [<- Hm]].
    apply in_map_iff in Hm. destruct Hm as [row [<- Hrow]].
    split; [reflexivity|]. exists row.
    apply (limit_rows_incl _ _ _ _ Hlim) in Hrow.
    apply (offset_incl _ _ _ _ Hoff) in Hrow.
    apply (Permutation_in _ (order_by_name_perm _)) in Hrow.
    apply filter_In in Hrow. destruct Hrow as [Hrow Hnull].
    split; [exact Hrow|]. split; [apply is_null_true; exact Hnull | reflexivity].
  - intros Hpos. rewrite !length_map. eapply limit_rows_length; eassumption.
Qed.

Lemma X10_listing_excludes_deleted_witness :
  (forall r,
     In r [TenantRouter.response_of Sample.huddle_x;
           TenantRouter.response_of Sample.huddle_y] ->
     TenantRouter.is_active r = true
     /\ exists row, In row (Spec.rows_of Sample.huddles) /\ Shape.live row
                    /\ r = TenantRouter.response_of
                             (Tenants.from_orm_with_str_id row))
  /\ (0 < 50 ->
      Z.of_nat (List.length [TenantRouter.response_of Sample.huddle_x;
                             TenantRouter.response_of Sample.huddle_y]) <= 50).
Proof.
  apply (X10_listing_excludes_deleted Sample.huddles 0 50).
  vm_compute. reflexivity.
Defined.

(** X11. The huddle endpoint answers 404 exactly when the directory holds
    no live huddle under the id, and a huddle it returns is one the unpaged
    admin listing shows. *)
Theorem X11_get_huddle_matches_listing :
  forall (rows : list Tenants.Huddle) (huddle_id : string),
    match TenantRouter.get_huddle (Online rows) huddle_id with
    | Ok h =>
        Tenants.get_huddle_by_id (Online rows) huddle_id = Ok (Some h)
        /\ exists listed,
             TenantRouter.list_huddles (Online rows) 0 0 = Ok listed
             /\ In (TenantRouter.response_of h) listed
    | Raise e =>
        e = HTTPException 404 "Huddle not found"
        /\ Tenants.get_huddle_by_id (Online rows) huddle_id = Ok None
    end.
Proof.
  intros rows huddle_id. unfold TenantRouter.get_huddle.
  destruct (Tenants.get_huddle_by_id (Online rows) huddle_id)
    as [[h|]|e] eqn:Hq; cbn.
  - split; [reflexivity|]. eexists. split; [reflexivity|].
    cbn in Hq. injection Hq as Hq. apply live_model_some in Hq.
    cbn [negb].
    destruct Hq as (row & Hfind & Hlive & ->). apply find_some in Hfind.
    apply in_map. apply in_map.
    apply (Permutation_in _ (Permutation_sym (order_by_name_perm _))).
    apply filter_In. split; [tauto|]. unfold Shape.live in Hlive.
    now rewrite Hlive.
  - auto.
  - discriminate.
Qed.

(** ** The model-listing filter, further *)

Lemma append_inj_l (p a b : string) : p +:+ a = p +:+ b -> a = b.
Proof.
  induction p as [|c r IH]; rewrite ?append_empty, ?append_cons; [auto|].
  intros [= H]. auto.
Qed.

Lemma string_append_assoc (a b c : string) : (a +:+ b) +:+ c = a +:+ (b +:+ c).
Proof.
  induction a as [|x r IH]; rewrite ?append_empty, ?append_cons;
    [reflexivity|].
  now rewrite IH.
Qed.

Lemma string_append_empty_r (a : string) : a +:+ EmptyString = a.
Proof.
  induction a as [|x r IH]; rewrite ?append_empty, ?append_cons;
    [reflexivity|].
  now rewrite IH.
Qed.

(** What the comprehension keeps are upstream entries carrying the id. *)
Lemma filter_models_kept (id : string) (models kept : list Json.value) :
  ModelFilter.filter_models id models = Ok kept ->
  forall e, In e kept -> In e models /\ Spec.has_id id e = true.
Proof.
  revert kept. induction models as [|m r IH]; cbn; intros kept H e Hin.
  - injection H as <-. contradiction.
  - destruct m as [| | | | |items|fields]; cbn in H; try discriminate.
    destruct (ModelFilter.filter_models id r) as [kept'|] eqn:Hr;
      cbn in H; [|discriminate].
    destruct (ModelFilter.id_matches (PyDict.get "id" fields) id) eqn:Hm;
      injection H as <-.
    + destruct Hin as [<- | Hin].
      * split; [now left | exact Hm].
      * destruct (IH _ eq_refl e Hin). split; [now right | assumption].
    + destruct (IH _ eq_refl e Hin). split; [now right | assumption].
Qed.

(** X12. Distinct slugs give distinct model identifiers, and the filter for
    one organization keeps only upstream entries that carry its own
    identifier: no entry identified as the model of an organization with
    another slug gets through. *)
Theorem X12_filter_isolates_organizations :
  forall (huddle other : Tenants.HuddleModel) (models kept : list Json.value),
    Tenants.slug other <> Tenants.slug huddle ->
    ModelFilter.filter_models (HuddleModels.get_huddle_model_id huddle) models
    = Ok kept ->
    HuddleModels.get_huddle_model_id other
    <> HuddleModels.get_huddle_model_id huddle
    /\ forall e, In e kept ->
         In e models
         /\ Spec.entry_id e = Some (HuddleModels.get_huddle_model_id huddle)
         /\ Spec.entry_id e <> Some (HuddleModels.get_huddle_model_id other).
Proof.
  intros huddle other models kept Hslug Hfilter.
  assert (Hne : HuddleModels.get_huddle_model_id other
                <> HuddleModels.get_huddle_model_id huddle).
  { unfold HuddleModels.get_huddle_model_id. intros Heq.
    apply append_inj_l in Heq. contradiction. }
  split; [exact Hne|]. intros e Hin.
  destruct (filter_models_kept _ _ _ Hfilter e Hin) as [Hup Hid].
  apply has_id_entry_id in Hid. rewrite Hid.
  split; [exact Hup|]. split; [reflexivity|]. congruence.
Qed.

Lemma X12_filter_isolates_organizations_witness :
  HuddleModels.get_huddle_model_id Sample.huddle_y
  <> HuddleModels.get_huddle_model_id Sample.huddle_x
  /\ forall e,
       In e [Sample.entry "alumnihuddle-x" "Huddle X Mentor Coach"] ->
       In e [Sample.entry "alumnihuddle-x" "Huddle X Mentor Coach";
             Sample.entry "claude-raw" "Claude";
             Sample.entry "alumnihuddle-y" "Huddle Y Mentor Coach"]
       /\ Spec.entry_id e = Some (HuddleModels.get_huddle_model_id Sample.huddle_x)
       /\ Spec.entry_id e <> Some (HuddleModels.get_huddle_model_id Sample.huddle_y).
Proof.
  apply (X12_filter_isolates_organizations Sample.huddle_x Sample.huddle_y).
  - vm_compute. discriminate.
  - vm_compute. reflexivity.
Defined.

Section FilterMore.

Variable gzip_decompress : ModelFilter.bytes -> result ModelFilter.bytes.
Variable json_loads : ModelFilter.bytes -> result Json.value.
Variable json_dumps : Json.value -> ModelFilter.bytes.

Let dispatch := ModelFilter.dispatch gzip_decompress json_loads json_dumps.

(** What the body of the [try] block returns when it returns. *)
Lemma filter_document_shape (huddle : Tenants.HuddleModel)
    (response : ModelFilter.StreamingResponse) (l l' : ModelFilter.Locals)
    (o : ModelFilter.Outcome) :
  ModelFilter.filter_document json_loads json_dumps huddle response l
  = (Ok o, l') ->
  exists content,
    o = ModelFilter.Rebuilt
          {| ModelFilter.content := content;
             ModelFilter.r_status_code := ModelFilter.status_code response;
             ModelFilter.r_headers :=
               ModelFilter.new_headers (ModelFilter.headers response);
             ModelFilter.media_type := Some "application/json" |}.
Proof.
  unfold ModelFilter.filter_document, bind, ModelFilter.get_locals,
    lift_result, ret.
  destruct (json_loads _); [|discriminate].
  destruct (ModelFilter.data_list _) as [[models|]|]; try discriminate.
  - destruct (ModelFilter.filter_models _ _); [|discriminate].
    intros [= <- _]. eauto.
  - intros [= <- _]. eauto.
Qed.

(** The handler's answer. *)
Lemma on_error_shape (response : ModelFilter.StreamingResponse) (e : exn)
    (l : ModelFilter.Locals) :
  ModelFilter.on_error response e l
  = (Ok (ModelFilter.Rebuilt
           {| ModelFilter.content := ModelFilter.body l;
              ModelFilter.r_status_code := ModelFilter.status_code response;
              ModelFilter.r_headers :=
                ModelFilter.new_headers (ModelFilter.headers response);
              ModelFilter.media_type := None |}), l).
Proof. reflexivity. Qed.

(** The body of the [try] block, once the chunks are read. *)
Lemma dispatch_after_read (request : Request)
    (response : ModelFilter.StreamingResponse) (huddle : Tenants.HuddleModel) :
  Spec.listing_path request ->
  ModelFilter.bound_huddle request = Some huddle ->
  Spec.is_json response ->
  dispatch request response
  = fst (try_except
           (ModelFilter.try_filter gzip_decompress json_loads json_dumps
              huddle response)
           (ModelFilter.on_error response)
           {| ModelFilter.body := EmptyString;
              ModelFilter.unread := ModelFilter.body_iterator response |}).
Proof.
  intros Hpath Hbound Hjson. unfold dispatch, ModelFilter.dispatch.
  rewrite (listing_path_mem _ Hpath), Hbound. cbn [negb].
  unfold Spec.is_json in Hjson. rewrite Hjson. reflexivity.
Qed.

End FilterMore.

(** X13. One entry of the upstream list that is not an object switches the
    filtering off: the comprehension raises on it, and the client receives
    the decoded upstream body as it is, every entry included, under the
    upstream status and without media type. *)
Theorem X13_malformed_entry_disables_filter :
  forall (gzip_decompress : ModelFilter.bytes -> result ModelFilter.bytes)
         (json_loads : ModelFilter.bytes -> result Json.value)
         (json_dumps : Json.value -> ModelFilter.bytes)
         (request : Request) (response : ModelFilter.StreamingResponse)
         (huddle : Tenants.HuddleModel) (raw body : ModelFilter.bytes)
         (data : Json.value) (models : list Json.value),
    Spec.listing_path request ->
    ModelFilter.bound_huddle request = Some huddle ->
    Spec.is_json response ->
    Spec.delivers response raw ->
    Spec.decoded gzip_decompress response raw = Ok body ->
    json_loads body = Ok data ->
    ModelFilter.data_list data = Ok (Some models) ->
    ~ Forall Spec.is_object models ->
    ModelFilter.dispatch gzip_decompress json_loads json_dumps request response
    = Ok (ModelFilter.Rebuilt
            {| ModelFilter.content := body;
               ModelFilter.r_status_code := ModelFilter.status_code response;
               ModelFilter.r_headers :=
                 ModelFilter.new_headers (ModelFilter.headers response);
               ModelFilter.media_type := None |}).
Proof.
  intros gz loads dumps request response huddle raw body data models
    Hpath Hbound Hjson Hread Hdec Hloads Hlist Hbad.
  rewrite (dispatch_after_read gz loads dumps request response huddle
             Hpath Hbound Hjson).
  unfold try_except, ModelFilter.try_filter, bind.
  cbn [ModelFilter.body ModelFilter.unread].
  unfold Spec.delivers in Hread. rewrite Hread.
  unfold ModelFilter.get_locals. cbn [ModelFilter.body ModelFilter.unread].
  unfold Spec.decoded in Hdec.
  pose proof (filter_models_raises (HuddleModels.get_huddle_model_id huddle)
                models Hbad) as Hraise.
  destruct (String.eqb _ "gzip").
  - rewrite Hdec. unfold bind, ModelFilter.set_body, ModelFilter.filter_document,
      bind, ModelFilter.get_locals, lift_result, ret.
    cbn [ModelFilter.body ModelFilter.unread]. rewrite Hloads, Hlist, Hraise.
    reflexivity.
  - injection Hdec as <-.
    unfold ModelFilter.filter_document, bind, ModelFilter.get_locals,
      lift_result, ret.
    cbn [ModelFilter.body ModelFilter.unread]. rewrite Hloads, Hlist, Hraise.
    reflexivity.
Qed.

Lemma X13_malformed_entry_disables_filter_witness :
  ModelFilter.dispatch SampleCodec.gzip_decompress SampleCodec.json_loads
    SampleCodec.json_dumps (Sample.request_for (Some Sample.huddle_x) "/api/models")
    (Sample.json_response MoreSamples.mixed_models)
  = Ok (ModelFilter.Rebuilt
          {| ModelFilter.content :=
               SampleCodec.json_dumps MoreSamples.mixed_models;
             ModelFilter.r_status_code := 200;
             ModelFilter.r_headers :=
               [("content-type", "application/json"); ("x-process-time", "0")];
             ModelFilter.media_type := None |}).
Proof.
  refine (X13_malformed_entry_disables_filter SampleCodec.gzip_decompress
            SampleCodec.json_loads SampleCodec.json_dumps
            (Sample.request_for (Some Sample.huddle_x) "/api/models")
            (Sample.json_response MoreSamples.mixed_models) Sample.huddle_x
            (SampleCodec.json_dumps MoreSamples.mixed_models)
            (SampleCodec.json_dumps MoreSamples.mixed_models)
            MoreSamples.mixed_models
            [ Sample.entry "alumnihuddle-x" "Huddle X Mentor Coach";
              Json.Str "claude-raw";
              Sample.entry "alumnihuddle-y" "Huddle Y Mentor Coach" ]
            _ _ _ _ _ _ _ _).
  - left. reflexivity.
  - reflexivity.
  - vm_compute. reflexivity.
  - vm_compute. reflexivity.
  - vm_compute. reflexivity.
  - vm_compute. reflexivity.
  - reflexivity.
  - intros Hall. inversion Hall as [|? ? _ Hrest]. inversion Hrest as [|? ? Hstr _].
    exact Hstr.
Defined.

(** X14. [dispatch] never raises, and whatever it returns carries the
    upstream status: either the upstream response with its own headers, or a
    new response whose headers are the upstream ones without any name that,
    lowered, is [content-length] or [content-encoding]. *)
Theorem X14_dispatch_envelope :
  forall (gzip_decompress : ModelFilter.bytes -> result ModelFilter.bytes)
         (json_loads : ModelFilter.bytes -> result Json.value)
         (json_dumps : Json.value -> ModelFilter.bytes)
         (request : Request) (response : ModelFilter.StreamingResponse),
  exists outcome,
    ModelFilter.dispatch gzip_decompress json_loads json_dumps request response
    = Ok outcome
    /\ match outcome with
       | ModelFilter.Upstream r =>
           ModelFilter.status_code r = ModelFilter.status_code response
           /\ ModelFilter.headers r = ModelFilter.headers response
       | ModelFilter.Rebuilt r =>
           ModelFilter.r_status_code r = ModelFilter.status_code response
           /\ ModelFilter.r_headers r
              = ModelFilter.new_headers (ModelFilter.headers response)
           /\ forall k, In k (List.map fst (ModelFilter.r_headers r)) ->
                        ~ Spec.describes_body k
       end.
Proof.
  intros gz loads dumps request response. unfold ModelFilter.dispatch.
  destruct (negb _); [eexists; split; [reflexivity|]; cbn; auto|].
  destruct (ModelFilter.bound_huddle request) as [huddle|];
    [|eexists; split; [reflexivity|]; cbn; auto].
  destruct (negb _); [eexists; split; [reflexivity|]; cbn; auto|].
  unfold try_except.
  destruct (ModelFilter.try_filter gz loads dumps huddle response _)
    as [[o|e] l] eqn:Htry.
  - exists o. split; [reflexivity|].
    revert Htry. unfold ModelFilter.try_filter, bind.
    destruct (ModelFilter.read_chunks _ _) as [[[]|e] l0]; [|discriminate].
    unfold ModelFilter.get_locals.
    destruct (String.eqb _ "gzip").
    + destruct (gz _) as [b|e].
      * unfold bind, ModelFilter.set_body. intros Hdoc.
        apply filter_document_shape in Hdoc. destruct Hdoc as [c ->].
        cbn. split; [reflexivity|]. split; [reflexivity|].
        apply new_headers_stripped.
      * unfold ret. intros [= <- _]. cbn. auto.
    + intros Hdoc. apply filter_document_shape in Hdoc. destruct Hdoc as [c ->].
      cbn. split; [reflexivity|]. split; [reflexivity|].
      apply new_headers_stripped.
  - rewrite on_error_shape. cbn. eexists. split; [reflexivity|]. cbn.
    split; [reflexivity|]. split; [reflexivity|]. apply new_headers_stripped.
Qed.

(** Reading the iterator gathers the chunks before its first failure. *)
Lemma read_chunks_received (it : list ModelFilter.Chunk) (b : ModelFilter.bytes) :
  exists unread,
    ModelFilter.read_chunks it b
    = (match Shape.first_failure it with
       | None => Ok tt
       | Some e => Raise e
       end,
       {| ModelFilter.body := b +:+ Shape.received it;
          ModelFilter.unread := unread |}).
Proof.
  revert b. induction it as [|[chunk|e] rest IH]; intros b; cbn.
  - exists []. now rewrite string_append_empty_r.
  - destruct (IH (b +:+ chunk)) as [u ->]. exists u.
    now rewrite string_append_assoc.
  - exists rest. now rewrite string_append_empty_r.
Qed.

(** X15. When the upstream body breaks off while it is read, the client is
    sent the bytes of the chunks received before the failure, in order,
    under the upstream status and the stripped headers: a truncated body,
    and no error. *)
Theorem X15_broken_stream_sends_received_bytes :
  forall (gzip_decompress : ModelFilter.bytes -> result ModelFilter.bytes)
         (json_loads : ModelFilter.bytes -> result Json.value)
         (json_dumps : Json.value -> ModelFilter.bytes)
         (request : Request) (response : ModelFilter.StreamingResponse)
         (huddle : Tenants.HuddleModel) (e : exn),
    Spec.listing_path request ->
    ModelFilter.bound_huddle request = Some huddle ->
    Spec.is_json response ->
    Shape.first_failure (ModelFilter.body_iterator response) = Some e ->
    ModelFilter.dispatch gzip_decompress json_loads json_dumps request response
    = Ok (ModelFilter.Rebuilt
            {| ModelFilter.content :=
                 Shape.received (ModelFilter.body_iterator response);
               ModelFilter.r_status_code := ModelFilter.status_code response;
               ModelFilter.r_headers :=
                 ModelFilter.new_headers (ModelFilter.headers response);
               ModelFilter.media_type := None |}).
Proof.
  intros gz loads dumps request response huddle e Hpath Hbound Hjson Hfail.
  rewrite (dispatch_after_read gz loads dumps request response huddle
             Hpath Hbound Hjson).
  unfold try_except, ModelFilter.try_filter, bind.
  cbn [ModelFilter.body ModelFilter.unread].
  destruct (read_chunks_received (ModelFilter.body_iterator response) EmptyString)
    as [u ->].
  rewrite Hfail, append_empty. reflexivity.
Qed.

Lemma X15_broken_stream_sends_received_bytes_witness :
  ModelFilter.dispatch SampleCodec.gzip_decompress SampleCodec.json_loads
    SampleCodec.json_dumps (Sample.request_for (Some Sample.huddle_x) "/api/models")
    {| ModelFilter.status_code := 200;
       ModelFilter.headers :=
         [("content-type", "application/json"); ("content-length", "243")];
       ModelFilter.body_iterator :=
         [ ModelFilter.Data "[1, ";
           ModelFilter.Data "2, ";
           ModelFilter.Broken (RuntimeError "connection reset");
           ModelFilter.Data "3]" ] |}
  = Ok (ModelFilter.Rebuilt
          {| ModelFilter.content := "[1, 2, ";
             ModelFilter.r_status_code := 200;
             ModelFilter.r_headers := [("content-type", "application/json")];
             ModelFilter.media_type := None |}).
Proof.
  refine (X15_broken_stream_sends_received_bytes SampleCodec.gzip_decompress
            SampleCodec.json_loads SampleCodec.json_dumps
            (Sample.request_for (Some Sample.huddle_x) "/api/models")
            _ Sample.huddle_x (RuntimeError "connection reset") _ _ _ _).
  - left. reflexivity.
  - reflexivity.
  - vm_compute. reflexivity.
  - reflexivity.
Defined.

Lemma dict_get_set {V} (key k : string) (v : V) (d : list (string * V)) :
  PyDict.get k (PyDict.set key v d)
  = if String.eqb key k then Some v else PyDict.get k d.
Proof.
  induction d as [|[k0 w] r IH]; cbn.
  - reflexivity.
  - destruct (String.eqb_spec k0 key) as [-> | Hne]; cbn.
    + destruct (String.eqb key k); reflexivity.
    + rewrite IH. destruct (String.eqb_spec k0 k) as [-> | Hne2]; [|reflexivity].
      destruct (String.eqb_spec key k) as [-> | _]; [contradiction | reflexivity].
Qed.

(** A dictionary built from items holds, for each key, the value of its
    last item. *)
Lemma of_items_get {V} (items : list (string * V)) (k : string) :
  PyDict.get k (PyDict.of_items items) = PyDict.get k (rev items).
Proof.
  unfold PyDict.of_items.
  assert (Hgen : forall d,
            PyDict.get k
              (fold_left (fun d kv => PyDict.set (fst kv) (snd kv) d) items d)
            = match PyDict.get k (rev items) with
              | Some v => Some v
              | None => PyDict.get k d
              end).
  { induction items as [|[k0 v0] r IH]; intros d; cbn [fold_left rev].
    - reflexivity.
    - rewrite IH. cbn [fst snd].
      assert (Happ : PyDict.get k (rev r ++ [(k0, v0)])%list
                     = match PyDict.get k (rev r) with
                       | Some v => Some v
                       | None => if String.eqb k0 k then Some v0 else None
                       end).
      { generalize (rev r). intros l.
        induction l as [|[k1 v1] l IHl]; cbn; [reflexivity|].
        destruct (String.eqb k1 k); [reflexivity | exact IHl]. }
      rewrite Happ, dict_get_set.
      destruct (PyDict.get k (rev r)); [reflexivity|].
      destruct (String.eqb k0 k); reflexivity. }
  rewrite Hgen. destruct (PyDict.get k (rev items)); reflexivity.
Qed.

Lemma get_filter_key {V} (f : string * V -> bool) (l : list (string * V))
    (k : string) :
  (forall v, f (k, v) = true) ->
  PyDict.get k (List.filter f l) = PyDict.get k l.
Proof.
  intros Hkeep. induction l as [|[k0 v0] r IH]; cbn; [reflexivity|].
  destruct (String.eqb k0 k) eqn:Hk.
  - apply String.eqb_eq in Hk. subst k0. rewrite Hkeep. cbn.
    now rewrite String.eqb_refl.
  - destruct (f (k0, v0)); cbn; [rewrite Hk|]; exact IH.
Qed.

(** X16. Apart from the length and the encoding, no header is lost on the
    way: a header of any other name reaches the client, with the value of
    its last occurrence upstream. *)
Theorem X16_other_headers_preserved :
  forall (hs : list (string * string)) (name : string),
    ~ Spec.describes_body name ->
    PyDict.get name (ModelFilter.new_headers hs) = PyDict.get name (rev hs).
Proof.
  intros hs name Hother. unfold ModelFilter.new_headers.
  rewrite of_items_get, <- filter_rev. apply get_filter_key.
  intros v. cbn [fst]. apply negb_true_iff.
  destruct (PyStr.mem (PyStr.lower name) _) eqn:Hm; [|reflexivity].
  exfalso. apply Hother. apply mem_true_iff in Hm.
  destruct Hm as [H | [H | []]]; [left | right]; symmetry; exact H.
Qed.

Lemma X16_other_headers_preserved_witness :
  PyDict.get "set-cookie"
    (ModelFilter.new_headers
       [("set-cookie", "a=1"); ("content-length", "12"); ("set-cookie", "b=2")])
  = PyDict.get "set-cookie"
      (rev [("set-cookie", "a=1"); ("content-length", "12");
            ("set-cookie", "b=2")]).
Proof.
  apply (X16_other_headers_preserved
           [("set-cookie", "a=1"); ("content-length", "12");
            ("set-cookie", "b=2")] "set-cookie").
  intros [H | H]; vm_compute in H; discriminate.
Defined.

(** ** Search, further *)

Lemma get_mentor_by_id_sound (db : Store Mentors.Profile) (mentor_id : string)
    (m : Mentors.MentorProfileModel) :
  Mentors.get_mentor_by_id db mentor_id = Ok (Some m) ->
  exists p, In p (Spec.rows_of db) /\ Spec.visible p
            /\ Mentors.p_id p = mentor_id
            /\ m = Mentors.from_orm_with_str_id p.
Proof.
  destruct db as [rows|e]; cbn; [|discriminate].
  destruct (List.find _ rows) as [p|] eqn:Hfind; [|discriminate].
  intros [= <-]. apply find_some in Hfind. destruct Hfind as [Hrow Hcond].
  apply andb_true_iff in Hcond. destruct Hcond as [Hcond Hdel].
  apply andb_true_iff in Hcond. destruct Hcond as [Hi Hs].
  exists p. repeat split.
  - exact Hrow.
  - apply String.eqb_eq. exact Hs.
  - apply is_null_true. exact Hdel.
  - apply String.eqb_eq. exact Hi.
Qed.

Section SearchFacts.

Context {W : Type}.
Variable profiles : Store Mentors.Profile.
Variable results : MentorRag.SearchResult.

(** The loop over the ids leaves the state alone and, when it completes,
    has added one hit for each id that resolves, in the order of the ids,
    each with the cells of its own position. *)
Lemma format_results_spec (row : list string) :
  forall (pre : list string) (acc : list MentorRag.Hit) (env : MentorRag.Env W),
  exists r,
    MentorRag.format_results profiles results (List.length pre) row acc env
    = (r, env)
    /\ match r with
       | Raise _ => True
       | Ok hits =>
           exists new,
             hits = (acc ++ new)%list
             /\ sublist (List.map Hits.hit_id new) row
             /\ Forall (Hits.of_visible_row profiles) new
             /\ Forall (fun h => exists k,
                          Hits.at_position results (pre ++ row)%list k h) new
       end.
Proof.
  induction row as [|mentor_id rest IH]; intros pre acc env.
  - exists (Ok acc). split; [reflexivity|]. exists [].
    rewrite app_nil_r. repeat split; constructor.
  - cbn [MentorRag.format_results]. unfold bind at 1, lift_result at 1.
    destruct (Mentors.get_mentor_by_id profiles mentor_id) as [[m|]|e] eqn:Hq.
    + unfold bind at 1, lift_result at 1.
      destruct (MentorRag.cell (MentorRag.distances results) (List.length pre) 0%Q)
        as [score|e] eqn:Hscore; [|exists (Raise e); auto].
      unfold bind at 1, lift_result at 1.
      destruct (MentorRag.cell (MentorRag.documents results) (List.length pre)
                  EmptyString) as [doc|e] eqn:Hdoc; [|exists (Raise e); auto].
      set (hit := {| MentorRag.mentor := m; MentorRag.relevance_score := score;
                     MentorRag.document_text := doc |}).
      destruct (IH (pre ++ [mentor_id])%list (acc ++ [hit])%list env)
        as [r [Hrun Hr]].
      rewrite length_app, Nat.add_1_r in Hrun.
      exists r. split; [exact Hrun|].
      destruct r as [hits|e]; [|exact I].
      destruct Hr as (new & -> & Hsub & Hvis & Hpos).
      rewrite <- app_assoc in Hpos.
      destruct (get_mentor_by_id_sound _ _ _ Hq) as (p & Hrow & Hv & Hid & Hm).
      assert (Hhit : Hits.hit_id hit = mentor_id).
      { unfold Hits.hit_id, hit. cbn. rewrite Hm. exact Hid. }
      exists (hit :: new). split; [now rewrite <- app_assoc|].
      split; [cbn; rewrite Hhit; now apply sublist_skip|].
      split.
      * constructor; [|exact Hvis]. exists p. auto.
      * constructor; [|exact Hpos]. exists (List.length pre).
        unfold Hits.at_position. rewrite Hhit.
        split; [|split; assumption].
        rewrite nth_error_app2; [|lia]. now rewrite Nat.sub_diag.
    + destruct (IH (pre ++ [mentor_id])%list acc env) as [r [Hrun Hr]].
      rewrite length_app, Nat.add_1_r in Hrun.
      exists r. split; [exact Hrun|].
      destruct r as [hits|e]; [|exact I].
      destruct Hr as (new & -> & Hsub & Hvis & Hpos).
      rewrite <- app_assoc in Hpos.
      exists new. split; [reflexivity|].
      split; [now apply sublist_cons|]. split; assumption.
    + exists (Raise e). auto.
Qed.

End SearchFacts.

(** Searching never raises, and its hits are visible mentors. *)
Lemma search_mentors_visible :
  forall (W : Type) (embedding_function : option (string -> M W MentorRag.vector))
         (client : MentorRag.VectorClient W) (profiles : Store Mentors.Profile)
         (huddle_id query : string) (limit : Z) (env : MentorRag.Env W),
  exists hits env',
    MentorRag.search_mentors embedding_function client profiles
      huddle_id query limit env = (Ok hits, env')
    /\ Forall (Hits.of_visible_row profiles) hits
    /\ (embedding_function = None ->
        hits = [] /\ MentorRag.world env' = MentorRag.world env).
Proof.
  intros W ef client profiles huddle_id query limit env.
  unfold MentorRag.search_mentors.
  destruct ef as [embed|]; [|cbn; eauto 6].
  unfold try_except, bind at 1, MentorRag.in_world at 1.
  destruct (MentorRag.has_collection client _ (MentorRag.world env))
    as [[present|e] w1]; [|cbn; eexists _, _; repeat split; [constructor|discriminate..]].
  destruct present; cbn [negb];
    [|cbn; eexists _, _; repeat split; [constructor|discriminate..]].
  unfold bind at 1, MentorRag.in_world at 1. cbn [MentorRag.world MentorRag.log].
  destruct (embed query w1) as [[qe|e] w2];
    [|cbn; eexists _, _; repeat split; [constructor|discriminate..]].
  unfold bind at 1, MentorRag.in_world at 1. cbn [MentorRag.world MentorRag.log].
  destruct (MentorRag.search client _ _ limit w2) as [[[results|]|e] w3];
    [| cbn; eexists _, _; repeat split; [constructor|discriminate..]
     | cbn; eexists _, _; repeat split; [constructor|discriminate..]].
  destruct (MentorRag.ids results) as [[|row more]|];
    [ cbn; eexists _, _; repeat split; [constructor|discriminate..]
    | | cbn; eexists _, _; repeat split; [constructor|discriminate..]].
  destruct (format_results_spec profiles results row [] []
              {| MentorRag.world := w3; MentorRag.log := MentorRag.log env |})
    as [r [Hrun Hr]].
  cbn [List.length] in Hrun. rewrite Hrun.
  destruct r as [hits|e].
  - destruct Hr as (new & -> & _ & Hvis & _). cbn.
    eexists _, _. repeat split; [exact Hvis|discriminate..].
  - cbn. eexists _, _. repeat split; [constructor|discriminate..].
Qed.

(** X17. Searching never raises, whatever the embedding function, the vector
    store and the relational store do, and every hit is a mentor that is
    visible in the table at the time of the search: an id that is still in
    the index but no longer resolves gives no hit.  Without an embedding
    function the answer is empty and the world is not touched. *)
Theorem X17_search_returns_visible_mentors :
  forall (W : Type) (embedding_function : option (string -> M W MentorRag.vector))
         (client : MentorRag.VectorClient W) (profiles : Store Mentors.Profile)
         (huddle_id query : string) (limit : Z) (env : MentorRag.Env W),
  exists hits env',
    MentorRag.search_mentors embedding_function client profiles
      huddle_id query limit env = (Ok hits, env')
    /\ Forall (Hits.of_visible_row profiles) hits
    /\ (embedding_function = None ->
        hits = [] /\ MentorRag.world env' = MentorRag.world env).
Proof.
  intros W ef client profiles huddle_id query limit env.
  apply search_mentors_visible.
Qed.

(** X18. When the vector store answers with a row of ids, the hits follow
    the order of that row, one at most per id, and each hit carries the
    distance and the text found at the position of its own id, also when
    ids before it were dropped. *)
Theorem X18_hits_follow_the_store_answer :
  forall (W : Type) (embed : string -> M W MentorRag.vector)
         (client : MentorRag.VectorClient W) (profiles : Store Mentors.Profile)
         (huddle_id query : string) (limit : Z) (env : MentorRag.Env W)
         (w1 w2 w3 : W) (query_embedding : MentorRag.vector)
         (results : MentorRag.SearchResult) (row : list string)
         (more : list (list string)),
    MentorRag.has_collection client
      (MentorRag.get_mentor_collection_name huddle_id) (MentorRag.world env)
    = (Ok true, w1) ->
    embed query w1 = (Ok query_embedding, w2) ->
    MentorRag.search client (MentorRag.get_mentor_collection_name huddle_id)
      [query_embedding] limit w2 = (Ok (Some results), w3) ->
    MentorRag.ids results = Some (row :: more) ->
    exists hits env',
      MentorRag.search_mentors (Some embed) client profiles
        huddle_id query limit env = (Ok hits, env')
      /\ sublist (List.map Hits.hit_id hits) row
      /\ Forall (fun h => exists k, Hits.at_position results row k h) hits.
Proof.
  intros W embed client profiles huddle_id query limit env w1 w2 w3 qe
    results row more Hhas Hembed Hsearch Hids.
  unfold MentorRag.search_mentors, try_except, bind at 1, MentorRag.in_world at 1.
  rewrite Hhas. cbn [negb].
  unfold bind at 1, MentorRag.in_world at 1. cbn [MentorRag.world MentorRag.log].
  rewrite Hembed.
  unfold bind at 1, MentorRag.in_world at 1. cbn [MentorRag.world MentorRag.log].
  rewrite Hsearch, Hids.
  destruct (format_results_spec profiles results row [] []
              {| MentorRag.world := w3; MentorRag.log := MentorRag.log env |})
    as [r [Hrun Hr]].
  cbn [List.length] in Hrun. rewrite Hrun.
  destruct r as [hits|e].
  - destruct Hr as (new & -> & Hsub & _ & Hpos). cbn.
    eexists _, _. split; [reflexivity|]. split; [exact Hsub | exact Hpos].
  - cbn. eexists _, _. split; [reflexivity|].
    split; [apply sublist_nil_l | constructor].
Qed.

Lemma X18_hits_follow_the_store_answer_witness :
  exists hits env',
    MentorRag.search_mentors (Some Sample.embedding_function) MemoryStore.client
      SampleSearch.profiles_later "h-x" SampleSearch.query 3
      SampleSearch.indexed_env = (Ok hits, env')
    /\ sublist (List.map Hits.hit_id hits) SampleSearch.row
    /\ Forall (fun h => exists k,
                 Hits.at_position SampleSearch.answer SampleSearch.row k h) hits.
Proof.
  refine (X18_hits_follow_the_store_answer _ Sample.embedding_function
            MemoryStore.client SampleSearch.profiles_later "h-x"
            SampleSearch.query 3 SampleSearch.indexed_env
            (MentorRag.world SampleSearch.indexed_env)
            (MentorRag.world SampleSearch.indexed_env)
            (MentorRag.world SampleSearch.indexed_env)
            SampleSearch.query_vector SampleSearch.answer SampleSearch.row
            [] _ _ _ _);
    vm_compute; reflexivity.
Defined.

(** ** Indexing every organization *)

Lemma mentors_by_huddle_online (rows : list Mentors.Profile)
    (huddle_id : string) :
  exists mentors,
    Mentors.get_mentors_by_huddle (Online rows) huddle_id 0 1000 = Ok mentors
    /\ (List.length mentors <= 1000)%nat.
Proof.
  unfold Mentors.get_mentors_by_huddle, Mentors.offset, Mentors.limit_rows.
  cbn [Z.eqb Z.ltb Z.compare rbind].
  eexists. split; [reflexivity|].
  rewrite length_map, length_firstn. lia.
Qed.

Lemma index_all_for_huddle_online {W : Type}
    (embedding_function : option (string -> M W MentorRag.vector))
    (client : MentorRag.VectorClient W) (rows : list Mentors.Profile)
    (huddle_id : string) (env : MentorRag.Env W) :
  exists counts env',
    MentorRag.index_all_mentors_for_huddle embedding_function client
      (Online rows) huddle_id env = (Ok counts, env')
    /\ Reports.balanced counts.
Proof.
  destruct (mentors_by_huddle_online rows huddle_id) as (mentors & Hq & Hlen).
  unfold MentorRag.index_all_mentors_for_huddle, bind, lift_result.
  rewrite Hq.
  destruct (index_each_returns embedding_function client mentors
              {| MentorRag.indexed := 0; MentorRag.failed := 0;
                 MentorRag.total := Z.of_nat (List.length mentors) |} env)
    as (attempts & w & Hloop & Hall).
  rewrite Hloop. cbn.
  eexists _, _. split; [reflexivity|].
  pose proof (attempts_partition fst attempts) as Hpart.
  pose proof (Forall2_length _ _ _ Hall) as Hl.
  unfold Reports.balanced. cbn. lia.
Qed.



Section IndexAllFacts.

Context {W : Type}.
Variable embedding_function : option (string -> M W MentorRag.vector).
Variable client : MentorRag.VectorClient W.
Variable rows : list Mentors.Profile.
Variable hrows : list Tenants.Huddle.


End IndexAllFacts.


(** ** Statistics and removal *)

(** X20. Neither [get_collection_stats] nor [remove_mentor] raises, whatever
    the vector store does.  The statistics of a collection that is missing
    or could not be read say [exists: False] and [count: 0]; a failure is
    logged once and reported in the [error] entry, and no other path writes
    to the log.  [remove_mentor] answers [True] exactly when the store's
    [delete] of that one id in the organization's collection returned, and
    logs one record either way. *)
Theorem X20_stats_and_removal_never_raise :
  forall (W : Type) (client : MentorRag.VectorClient W)
         (client_get : string -> M W (option MentorRagAdmin.GetResult))
         (mentor_id huddle_id : string) (env : MentorRag.Env W),
    (exists stats env',
       MentorRagAdmin.get_collection_stats client client_get huddle_id env
       = (Ok stats, env')
       /\ 0 <= MentorRagAdmin.count stats
       /\ (MentorRagAdmin.exists_ stats = false ->
           MentorRagAdmin.count stats = 0)
       /\ match MentorRagAdmin.error stats with
          | Some e =>
              MentorRagAdmin.exists_ stats = false
              /\ MentorRag.log env'
                 = (MentorRag.log env
                    ++ [LogError "Failed to get collection stats: " (Some e)])%list
          | None => MentorRag.log env' = MentorRag.log env
          end
       /\ (fst (MentorRag.has_collection client
                  (MentorRag.get_mentor_collection_name huddle_id)
                  (MentorRag.world env)) = Ok false ->
           stats = {| MentorRagAdmin.exists_ := false;
                      MentorRagAdmin.count := 0;
                      MentorRagAdmin.error := None |}))
    /\ (exists removed env' r,
          MentorRagAdmin.remove_mentor client mentor_id huddle_id env
          = (Ok removed, env')
          /\ MentorRag.log env' = (MentorRag.log env ++ [r])%list
          /\ MentorRag.world env'
             = snd (MentorRag.delete client
                      (MentorRag.get_mentor_collection_name huddle_id)
                      [mentor_id] (MentorRag.world env))
          /\ (removed = true <->
              fst (MentorRag.delete client
                     (MentorRag.get_mentor_collection_name huddle_id)
                     [mentor_id] (MentorRag.world env)) = Ok tt)).
Proof.
  intros W client client_get mentor_id huddle_id env. split.
  - unfold MentorRagAdmin.get_collection_stats, try_except, bind,
      MentorRag.in_world.
    destruct (MentorRag.has_collection client _ (MentorRag.world env))
      as [[present|e] w1]; cbn [fst].
    + destruct present; cbn [negb].
      * cbn [MentorRag.world MentorRag.log].
        destruct (client_get _ w1) as [[result|e] w2].
        -- cbn. eexists _, _. split; [reflexivity|]. cbn.
           repeat split; try discriminate.
           destruct result as [[[[|row more]|]]|]; cbn; lia.
        -- cbn. eexists _, _. split; [reflexivity|]. cbn.
           repeat split; try discriminate; lia.
      * cbn. eexists _, _. split; [reflexivity|]. cbn.
        repeat split; try discriminate; lia.
    + cbn. eexists _, _. split; [reflexivity|]. cbn.
      repeat split; try discriminate; lia.
  - unfold MentorRagAdmin.remove_mentor, try_except, bind, MentorRag.in_world,
      MentorRag.emit, ret.
    destruct (MentorRag.delete client _ _ (MentorRag.world env))
      as [[[]|e] w1]; cbn.
    + eexists true, _, _. repeat split.
    + eexists false, _, _. repeat split; discriminate.
Qed.

(** ** The mentor endpoints *)

Lemma mentors_by_huddle_sound (db : Store Mentors.Profile)
    (huddle_id : string) (skip limit : Z)
    (mentors : list Mentors.MentorProfileModel) :
  Mentors.get_mentors_by_huddle db huddle_id skip limit = Ok mentors ->
  Forall (fun m =>
            Mentors.huddle_id m = huddle_id
            /\ exists p, In p (Spec.rows_of db) /\ Spec.visible p
                         /\ m = Mentors.from_orm_with_str_id p) mentors
  /\ (0 < limit -> Z.of_nat (List.length mentors) <= limit).
Proof.
  destruct db as [rows|e]; [|discriminate].
  unfold Mentors.get_mentors_by_huddle.
  destruct (Mentors.offset skip _) as [skipped|e] eqn:Hoff; [|discriminate].
  cbn [rbind].
  destruct (Mentors.limit_rows limit skipped) as [page|e] eqn:Hlim;
    [|discriminate].
  cbn [rbind]. intros [= <-]. split.
  - apply List.Forall_forall. intros m Hin. apply in_map_iff in Hin.
    destruct Hin as (p & <- & Hp).
    eapply limit_rows_incl in Hp; [|exact Hlim].
    eapply offset_incl in Hp; [|exact Hoff].
    apply (Permutation_in _ (order_by_full_name_perm _)) in Hp.
    apply filter_In in Hp. destruct Hp as [Hrow Hcond].
    apply andb_true_iff in Hcond. destruct Hcond as [Hcond Hdel].
    apply andb_true_iff in Hcond. destruct Hcond as [Hh Hs].
    split; [cbn; apply String.eqb_eq; exact Hh|].
    exists p. split; [exact Hrow|]. split; [|reflexivity].
    split; [apply String.eqb_eq; exact Hs | apply is_null_true; exact Hdel].
  - intros Hpos. rewrite length_map. eapply limit_rows_length; eauto.
Qed.

Lemma mentors_by_huddle_failure (db : Store Mentors.Profile)
    (huddle_id : string) (skip limit : Z) (e : exn) :
  Mentors.get_mentors_by_huddle db huddle_id skip limit = Raise e ->
  db = Offline e \/ (e = DataError /\ (skip < 0 \/ limit < 0)).
Proof.
  destruct db as [rows|e0]; [|intros [= ->]; now left].
  unfold Mentors.get_mentors_by_huddle, Mentors.offset, Mentors.limit_rows.
  destruct (skip =? 0) eqn:Hs0; cbn [rbind].
  - destruct (limit =? 0); cbn [rbind]; [discriminate|].
    destruct (limit <? 0) eqn:Hl; cbn [rbind]; [|discriminate].
    intros [= <-]. right. split; [reflexivity|]. right. lia.
  - destruct (skip <? 0) eqn:Hs; cbn [rbind].
    + intros [= <-]. right. split; [reflexivity|]. left. lia.
    + destruct (limit =? 0); cbn [rbind]; [discriminate|].
      destruct (limit <? 0) eqn:Hl; cbn [rbind]; [|discriminate].
      intros [= <-]. right. split; [reflexivity|]. right. lia.
Qed.

(** X21. The mentor listing endpoint answers 400 when the request carries
    no huddle.  Otherwise every mentor it returns belongs to the huddle of
    the request and comes from a visible row, a positive [limit] bounds the
    length of the page, and it fails only when the table cannot be read or
    when [skip] or [limit] is negative. *)
Theorem X21_listing_stays_inside_the_huddle :
  forall (profiles : Store Mentors.Profile) (request : Request) (skip limit : Z),
    match get_current_huddle request with
    | None =>
        MentorEndpoints.list_mentors profiles request skip limit
        = Raise MentorEndpoints.no_huddle
    | Some huddle =>
        match MentorEndpoints.list_mentors profiles request skip limit with
        | Ok mentors =>
            Forall (fun m =>
                      Mentors.huddle_id m = Tenants.id huddle
                      /\ exists p, In p (Spec.rows_of profiles) /\ Spec.visible p
                                   /\ m = Mentors.from_orm_with_str_id p) mentors
            /\ (0 < limit -> Z.of_nat (List.length mentors) <= limit)
        | Raise e =>
            profiles = Offline e \/ (e = DataError /\ (skip < 0 \/ limit < 0))
        end
    end.
Proof.
  intros profiles request skip limit. unfold MentorEndpoints.list_mentors.
  destruct (get_current_huddle request) as [huddle|]; [|reflexivity].
  destruct (Mentors.get_mentors_by_huddle profiles (Tenants.id huddle) skip limit)
    as [mentors|e] eqn:Hq.
  - exact (mentors_by_huddle_sound _ _ _ _ _ Hq).
  - exact (mentors_by_huddle_failure _ _ _ _ _ Hq).
Qed.

(** X22. The search and the indexing endpoints check the huddle first and
    the embedding service second: 400 without a huddle, 503 without an
    embedding function, in both cases before anything is read or written.
    Past the two checks the search endpoint never raises: it answers with the
    query and the huddle of the request, and with visible mentors only.  The
    indexing endpoint then fails only with the [profiles] table, and its
    counts add up. *)
Theorem X22_search_and_index_endpoints :
  forall (W : Type) (embedding_function : option (string -> M W MentorRag.vector))
         (client : MentorRag.VectorClient W) (profiles : Store Mentors.Profile)
         (request : Request) (search_query : string) (search_limit : Z)
         (env : MentorRag.Env W),
    match get_current_huddle request, embedding_function with
    | None, _ =>
        MentorEndpoints.search_mentors embedding_function client profiles
          request search_query search_limit env
        = (Raise MentorEndpoints.no_huddle, env)
        /\ MentorEndpoints.index_huddle_mentors embedding_function client
             profiles request env
           = (Raise MentorEndpoints.no_huddle, env)
    | Some _, None =>
        MentorEndpoints.search_mentors embedding_function client profiles
          request search_query search_limit env
        = (Raise MentorEndpoints.no_embedding, env)
        /\ MentorEndpoints.index_huddle_mentors embedding_function client
             profiles request env
           = (Raise MentorEndpoints.no_embedding, env)
    | Some huddle, Some _ =>
        (exists response env',
           MentorEndpoints.search_mentors embedding_function client profiles
             request search_query search_limit env = (Ok response, env')
           /\ MentorEndpoints.query response = search_query
           /\ MentorEndpoints.sr_huddle_id response = Tenants.id huddle
           /\ MentorEndpoints.sr_huddle_name response = Tenants.name huddle
           /\ Forall (Hits.of_visible_row profiles)
                (MentorEndpoints.results response))
        /\ match profiles with
           | Offline e =>
               MentorEndpoints.index_huddle_mentors embedding_function client
                 profiles request env = (Raise e, env)
           | Online _ =>
               exists response env',
                 MentorEndpoints.index_huddle_mentors embedding_function client
                   profiles request env = (Ok response, env')
                 /\ MentorEndpoints.indexed response
                    + MentorEndpoints.failed response
                    = MentorEndpoints.total response
                 /\ MentorEndpoints.total response <= 1000
                 /\ MentorEndpoints.ir_huddle_id response = Tenants.id huddle
                 /\ MentorEndpoints.ir_huddle_name response
                    = Tenants.name huddle
           end
    end.
Proof.
  intros W ef client profiles request q limit env.
  unfold MentorEndpoints.search_mentors, MentorEndpoints.index_huddle_mentors.
  destruct (get_current_huddle request) as [huddle|]; [|split; reflexivity].
  destruct ef as [embed|]; [|split; reflexivity].
  split.
  - destruct (search_mentors_visible W (Some embed) client profiles
                (Tenants.id huddle) q limit env)
      as (hits & env' & Hrun & Hvis & _).
    unfold bind. rewrite Hrun. cbn.
    eexists _, _. split; [reflexivity|]. cbn. auto.
  - destruct profiles as [rows|e]; [|reflexivity].
    destruct (index_all_for_huddle_online (Some embed) client rows
                (Tenants.id huddle) env)
      as (counts & env' & Hrun & Hsum & _ & _ & Hcap).
    unfold bind at 1. rewrite Hrun. cbn.
    eexists _, _. split; [reflexivity|]. cbn. auto.
Qed.



(** ** The context endpoint behind the middleware *)

(** Without a published tenant the endpoint resolves by itself, straight
    from the directory. *)
Lemma context_fallback_shape (cfg : TenantMiddleware.Config)
    (db : Store Tenants.Huddle) (request : Request)
    (hs : list (string * string)) :
  state_tenant (state request) = None ->
  match TenantRouter.get_huddle_context cfg db request hs with
  | Ok r =>
      In (TenantRouter.source r) ["disabled"; "subdomain"; "header"; "none"]
      /\ forall x, TenantRouter.huddle r = Some x ->
           (TenantRouter.source r = "subdomain"
            \/ TenantRouter.source r = "header")
           /\ exists s m,
                Tenants.get_huddle_by_slug db s = Ok (Some m)
                /\ x = TenantRouter.response_of m
  | Raise e => db = Offline e
  end.
Proof.
  intros Hnone. unfold TenantRouter.get_huddle_context. rewrite Hnone.
  destruct (negb _); [cbn; split; [tauto | discriminate]|].
  destruct (Mentors.truthy (Tenant.extract_subdomain _ _)) as [s|] eqn:Hhost.
  - destruct (Mentors.truthy (Some s)) as [s'|] eqn:Hs.
    + destruct (Tenants.get_huddle_by_slug db s') as [[m|]|e] eqn:Hq; cbn.
      * split; [tauto|]. intros x [= <-]. split; [now left|]. eauto.
      * split; [tauto | discriminate].
      * destruct db; [discriminate|]. cbn in Hq. congruence.
    + cbn. split; [tauto | discriminate].
  - destruct (Mentors.truthy (TenantMiddleware.header hs "x-tenant-subdomain"))
      as [s|] eqn:Hhdr.
    + rewrite Hhdr.
      destruct (Tenants.get_huddle_by_slug db s) as [[m|]|e] eqn:Hq; cbn.
      * split; [tauto|]. intros x [= <-]. split; [now right|]. eauto.
      * split; [tauto | discriminate].
      * destruct db; [discriminate|]. cbn in Hq. congruence.
    + rewrite Hhdr. cbn. split; [tauto | discriminate].
Qed.

(** X24. Behind the middleware the context endpoint reports what the
    middleware published: a published huddle comes back with the source
    [middleware], whatever the directory holds by then.  When nothing was
    published the endpoint resolves by itself, past the cache: a huddle it
    then reports is the directory's own answer for a slug, with the source
    [subdomain] or [header], and it fails only with the directory. *)
Theorem X24_context_reports_the_published_huddle :
  forall (cfg : TenantMiddleware.Config) (db db' : Store Tenants.Huddle)
         (now : time) (hs : list (string * string)) (st : TenantCache.State)
         (path : string),
    match fst (TenantMiddleware.dispatch cfg db now hs st) with
    | Raise _ => True
    | Ok p =>
        match TenantMiddleware.tenant p with
        | Some h =>
            TenantRouter.get_huddle_context cfg db'
              (TenantMiddleware.request_with p path) hs
            = Ok {| TenantRouter.huddle := Some (TenantRouter.response_of h);
                    TenantRouter.source := "middleware" |}
        | None =>
            match TenantRouter.get_huddle_context cfg db'
                    (TenantMiddleware.request_with p path) hs with
            | Ok r =>
                In (TenantRouter.source r)
                  ["disabled"; "subdomain"; "header"; "none"]
                /\ forall x, TenantRouter.huddle r = Some x ->
                     (TenantRouter.source r = "subdomain"
                      \/ TenantRouter.source r = "header")
                     /\ exists s m,
                          Tenants.get_huddle_by_slug db' s = Ok (Some m)
                          /\ x = TenantRouter.response_of m
            | Raise e => db' = Offline e
            end
        end
    end.
Proof.
  intros cfg db db' now hs st path.
  assert (Hnothing :
            match TenantRouter.get_huddle_context cfg db'
                    (TenantMiddleware.request_with TenantMiddleware.nothing path)
                    hs with
            | Ok r =>
                In (TenantRouter.source r)
                  ["disabled"; "subdomain"; "header"; "none"]
                /\ forall x, TenantRouter.huddle r = Some x ->
                     (TenantRouter.source r = "subdomain"
                      \/ TenantRouter.source r = "header")
                     /\ exists s m,
                          Tenants.get_huddle_by_slug db' s = Ok (Some m)
                          /\ x = TenantRouter.response_of m
            | Raise e => db' = Offline e
            end).
  { apply context_fallback_shape. reflexivity. }
  unfold TenantMiddleware.dispatch.
  destruct (TenantMiddleware.ENABLE_MULTI_TENANCY cfg) eqn:Hon; cbn [negb fst];
    [|exact Hnothing].
  destruct (TenantMiddleware.chosen_slug cfg hs) as [slug|]; [|exact Hnothing].
  destruct (PyStr.is_empty slug); [exact Hnothing|].
  destruct (TenantCache.get_cached_huddle db now slug st) as [[[h|]|e] st'].
  - cbn. unfold TenantRouter.get_huddle_context. rewrite Hon. reflexivity.
  - exact Hnothing.
  - destruct e; cbn [fst]; try exact Hnothing. exact I.
Qed.

(** ** The prompt injected into a chat *)

Section InjectionFacts.

Variable format_mentor_entry : Mentors.MentorProfileModel -> string -> string.
Variable prompt_text : Tenants.HuddleModel -> string -> string.
Variable database_section : Z -> Tenants.HuddleModel -> string -> string.
Variable note_section : Tenants.HuddleModel -> string.
Variable py_str : Json.value -> string.

Let build := HuddleContext.build_huddle_system_prompt format_mentor_entry
               prompt_text database_section note_section.
Let inject := HuddleContext.inject_huddle_context format_mentor_entry
                prompt_text database_section note_section py_str.

(** The loop changes the first system message and nothing else. *)
Lemma prepend_to_first_system_spec (prompt : string)
    (messages : list HuddleContext.message) :
  existsb HuddleContext.is_system messages = true ->
  exists pre msg post,
    messages = (pre ++ msg :: post)%list
    /\ Forall (fun m => HuddleContext.is_system m = false) pre
    /\ HuddleContext.is_system msg = true
    /\ HuddleContext.prepend_to_first_system py_str prompt messages
       = (pre ++ PyDict.set "content"
                   (Json.Str
                      (prompt +:+ HuddleContext.separator
                       +:+ HuddleContext.interpolate py_str
                             (match PyDict.get "content" msg with
                              | Some v => v
                              | None => Json.Str EmptyString
                              end))) msg :: post)%list.
Proof.
  induction messages as [|m rest IH]; cbn [existsb]; [discriminate|].
  destruct (HuddleContext.is_system m) eqn:Hm.
  - intros _. exists [], m, rest. cbn. rewrite Hm. auto.
  - cbn [orb]. intros Hrest.
    destruct (IH Hrest) as (pre & msg & post & -> & Hpre & Hmsg & Hrun).
    exists (m :: pre), msg, post. cbn. rewrite Hm, Hrun. auto.
Qed.

Lemma existsb_false_forall (messages : list HuddleContext.message) :
  existsb HuddleContext.is_system messages = false ->
  Forall (fun m => HuddleContext.is_system m = false) messages.
Proof.
  induction messages as [|m rest IH]; cbn; [constructor|].
  intros H. apply orb_false_iff in H. destruct H. constructor; auto.
Qed.

Lemma build_fails_offline (profiles : Store Mentors.Profile)
    (huddle : Tenants.HuddleModel) (e : exn) :
  build profiles huddle = Raise e -> profiles = Offline e.
Proof.
  unfold build, HuddleContext.build_huddle_system_prompt.
  destruct profiles as [rows|e0]; cbn; [discriminate | congruence].
Qed.

(** What the injection does to the messages. *)
Lemma inject_huddle_context_spec (profiles : Store Mentors.Profile)
    (request : Request) (messages : list HuddleContext.message) :
  match HuddleContext.get_huddle_from_request request with
  | None => inject profiles request messages = Ok messages
  | Some huddle =>
      match build profiles huddle with
      | Raise e =>
          inject profiles request messages = Raise e /\ profiles = Offline e
      | Ok prompt =>
          (exists pre msg post msg',
             messages = (pre ++ msg :: post)%list
             /\ Forall (fun m => HuddleContext.is_system m = false) pre
             /\ HuddleContext.is_system msg = true
             /\ inject profiles request messages
                = Ok (pre ++ msg' :: post)%list
             /\ PyDict.get "content" msg'
                = Some (Json.Str
                          (prompt +:+ HuddleContext.separator
                           +:+ HuddleContext.interpolate py_str
                                 (match PyDict.get "content" msg with
                                  | Some v => v
                                  | None => Json.Str EmptyString
                                  end)))
             /\ forall k, k <> "content" ->
                  PyDict.get k msg' = PyDict.get k msg)
          \/ (Forall (fun m => HuddleContext.is_system m = false) messages
              /\ inject profiles request messages
                 = Ok ([("role", Json.Str "system");
                        ("content", Json.Str prompt)] :: messages))
      end
  end.
Proof.
  unfold inject, HuddleContext.inject_huddle_context.
  destruct (HuddleContext.get_huddle_from_request request) as [huddle|];
    [|reflexivity].
  fold (build profiles huddle).
  destruct (build profiles huddle) as [prompt|e] eqn:Hb; cbn [rbind].
  - destruct (existsb HuddleContext.is_system messages) eqn:Hsys.
    + left.
      destruct (prepend_to_first_system_spec prompt messages Hsys)
        as (pre & msg & post & Hsplit & Hpre & Hmsg & Hrun).
      eexists pre, msg, post, _.
      split; [exact Hsplit|]. split; [exact Hpre|]. split; [exact Hmsg|].
      split; [rewrite Hrun; reflexivity|].
      split.
      * rewrite dict_get_set, String.eqb_refl. reflexivity.
      * intros k Hk. rewrite dict_get_set.
        destruct (String.eqb_spec "content" k) as [<- | _];
          [contradiction | reflexivity].
    + right. split; [now apply existsb_false_forall | reflexivity].
  - split; [reflexivity | exact (build_fails_offline _ _ _ Hb)].
Qed.

(** What building the prompt needs from the table. *)
Lemma build_huddle_system_prompt_spec (profiles : Store Mentors.Profile)
    (huddle : Tenants.HuddleModel) :
  match profiles with
  | Offline e =>
      (forall limit,
         HuddleContext.get_mentor_context_for_huddle format_mentor_entry
           profiles huddle limit = EmptyString)
      /\ build profiles huddle = Raise e
      /\ forall request messages,
           HuddleContext.get_huddle_from_request request = Some huddle ->
           inject profiles request messages = Raise e
  | Online _ =>
      exists prompt,
        build profiles huddle = Ok prompt
        /\ (Mentors.get_mentor_count_by_huddle profiles (Tenants.id huddle)
            = Ok 0 ->
            prompt
            = prompt_text huddle
                ("https://" +:+ Tenants.slug huddle +:+ ".alumnihuddle.com")
              +:+ note_section huddle)
  end.
Proof.
  destruct profiles as [rows|e].
  - unfold build, HuddleContext.build_huddle_system_prompt.
    cbn [Mentors.get_mentor_count_by_huddle rbind].
    eexists. split; [reflexivity|].
    intros [= Hzero].
    unfold HuddleContext.get_mentor_context_for_huddle,
      Mentors.get_mentors_by_huddle.
    destruct (List.filter _ rows) as [|p r]; [|cbn in Hzero; lia].
    reflexivity.
  - split; [reflexivity|]. split; [reflexivity|].
    intros request messages Hh.
    unfold inject, HuddleContext.inject_huddle_context. rewrite Hh.
    reflexivity.
Qed.

End InjectionFacts.

(** X25. Injecting the huddle prompt leaves the messages alone when the
    request carries no huddle.  Otherwise exactly one thing happens: if some
    message has the role [system], the first such message gets the prompt,
    a separator and its former content as its new content, its other keys
    and every other message staying as they were; if none has, a system
    message holding the prompt is put in front.  The injection fails only
    when the [profiles] table cannot be read. *)
Theorem X25_injection_touches_one_message :
  forall (format_mentor_entry : Mentors.MentorProfileModel -> string -> string)
         (prompt_text : Tenants.HuddleModel -> string -> string)
         (database_section : Z -> Tenants.HuddleModel -> string -> string)
         (note_section : Tenants.HuddleModel -> string)
         (py_str : Json.value -> string)
         (profiles : Store Mentors.Profile) (request : Request)
         (messages : list HuddleContext.message),
    let inject :=
      HuddleContext.inject_huddle_context format_mentor_entry prompt_text
        database_section note_section py_str profiles request in
    match HuddleContext.get_huddle_from_request request with
    | None => inject messages = Ok messages
    | Some huddle =>
        match HuddleContext.build_huddle_system_prompt format_mentor_entry
                prompt_text database_section note_section profiles huddle with
        | Raise e => inject messages = Raise e /\ profiles = Offline e
        | Ok prompt =>
            (exists pre msg post msg',
               messages = (pre ++ msg :: post)%list
               /\ Forall (fun m => HuddleContext.is_system m = false) pre
               /\ HuddleContext.is_system msg = true
               /\ inject messages = Ok (pre ++ msg' :: post)%list
               /\ PyDict.get "content" msg'
                  = Some (Json.Str
                            (prompt +:+ HuddleContext.separator
                             +:+ HuddleContext.interpolate py_str
                                   (match PyDict.get "content" msg with
                                    | Some v => v
                                    | None => Json.Str EmptyString
                                    end)))
               /\ forall k, k <> "content" ->
                    PyDict.get k msg' = PyDict.get k msg)
            \/ (Forall (fun m => HuddleContext.is_system m = false) messages
                /\ inject messages
                   = Ok ([("role", Json.Str "system");
                          ("content", Json.Str prompt)] :: messages))
        end
    end.
Proof.
  intros f pt ds ns ps profiles request messages inject.
  exact (inject_huddle_context_spec f pt ds ns ps profiles request messages).
Qed.

(** X26. The prompt builder catches a failure of the mentor listing but not
    one of the mentor count: when the [profiles] table cannot be read the
    mentor context is empty, yet building the prompt raises, and so does the
    injection for every request of that huddle.  With the table readable the
    prompt is always built, and for a huddle without visible mentors it is
    the opening text followed by the set-up note. *)
Theorem X26_prompt_needs_the_profiles_table :
  forall (format_mentor_entry : Mentors.MentorProfileModel -> string -> string)
         (prompt_text : Tenants.HuddleModel -> string -> string)
         (database_section : Z -> Tenants.HuddleModel -> string -> string)
         (note_section : Tenants.HuddleModel -> string)
         (py_str : Json.value -> string)
         (profiles : Store Mentors.Profile) (huddle : Tenants.HuddleModel),
    let build :=
      HuddleContext.build_huddle_system_prompt format_mentor_entry
        prompt_text database_section note_section profiles in
    match profiles with
    | Offline e =>
        (forall limit,
           HuddleContext.get_mentor_context_for_huddle format_mentor_entry
             profiles huddle limit = EmptyString)
        /\ build huddle = Raise e
        /\ forall request messages,
             HuddleContext.get_huddle_from_request request = Some huddle ->
             HuddleContext.inject_huddle_context format_mentor_entry
               prompt_text database_section note_section py_str profiles
               request messages = Raise e
    | Online _ =>
        exists prompt,
          build huddle = Ok prompt
          /\ (Mentors.get_mentor_count_by_huddle profiles (Tenants.id huddle)
              = Ok 0 ->
              prompt
              = prompt_text huddle
                  ("https://" +:+ Tenants.slug huddle +:+ ".alumnihuddle.com")
                +:+ note_section huddle)
    end.
Proof.
  intros f pt ds ns ps profiles huddle build.
  exact (build_huddle_system_prompt_spec f pt ds ns ps profiles huddle).
Qed.

(** ** Keeping the huddle models in place *)

Section EnsureFacts.

Context {W R : Type}.
Variable Models : HuddleModelService.ModelsTable W R.

(** Ensuring one model never raises. *)
Lemma ensure_huddle_model_returns (huddle : Tenants.HuddleModel)
    (system_user_id : string) (base_model_id : option string) (w : W) :
  exists done w',
    HuddleModelService.ensure_huddle_model Models huddle system_user_id
      base_model_id w = (Ok done, w').
Proof.
  unfold HuddleModelService.ensure_huddle_model.
  apply try_except_total. intros e s'. cbn. eauto.
Qed.

(** The loop visits every huddle and counts at most one for each. *)
Lemma ensure_each_counts (huddles : list Tenants.HuddleModel)
    (system_user_id : string) :
  forall s : HuddleModelService.Counting W,
  exists s',
    HuddleModelService.ensure_each Models huddles system_user_id s = (Ok tt, s')
    /\ HuddleModelService.count s <= HuddleModelService.count s'
    /\ HuddleModelService.count s'
       <= HuddleModelService.count s + Z.of_nat (List.length huddles).
Proof.
  induction huddles as [|huddle rest IH]; intros s.
  - exists s. cbn. split; [reflexivity | lia].
  - cbn [HuddleModelService.ensure_each].
    unfold bind at 1, HuddleModelService.in_store at 1.
    destruct (ensure_huddle_model_returns huddle system_user_id None
                (HuddleModelService.store s)) as (done & w' & Hone).
    rewrite Hone.
    destruct done as [[|]|].
    + unfold bind at 1, HuddleModelService.increment at 1.
      cbn [HuddleModelService.store HuddleModelService.count].
      match goal with
      | |- context [HuddleModelService.ensure_each _ _ _ ?s1] =>
          destruct (IH s1) as (s' & Hrest & Hlo & Hhi)
      end.
      exists s'. split; [exact Hrest|]. cbn in Hlo, Hhi.
      cbn [List.length]. lia.
    + unfold bind at 1, ret at 1.
      match goal with
      | |- context [HuddleModelService.ensure_each _ _ _ ?s1] =>
          destruct (IH s1) as (s' & Hrest & Hlo & Hhi)
      end.
      exists s'. split; [exact Hrest|]. cbn in Hlo, Hhi.
      cbn [List.length]. lia.
    + unfold bind at 1, ret at 1.
      match goal with
      | |- context [HuddleModelService.ensure_each _ _ _ ?s1] =>
          destruct (IH s1) as (s' & Hrest & Hlo & Hhi)
      end.
      exists s'. split; [exact Hrest|]. cbn in Hlo, Hhi.
      cbn [List.length]. lia.
Qed.

Hypothesis get_returns :
  forall id w, exists o w',
    HuddleModelService.get_model_by_id Models id w = (Ok o, w').
Hypothesis update_returns_row :
  forall id form w, exists r w',
    HuddleModelService.update_model_by_id Models id form w = (Ok (Some r), w').
Hypothesis insert_returns_row :
  forall form user_id w, exists r w',
    HuddleModelService.insert_new_model Models form user_id w
    = (Ok (Some r), w').

Lemma ensure_huddle_model_succeeds (huddle : Tenants.HuddleModel)
    (system_user_id : string) (base_model_id : option string) (w : W) :
  exists w',
    HuddleModelService.ensure_huddle_model Models huddle system_user_id
      base_model_id w = (Ok (Some true), w').
Proof.
  unfold HuddleModelService.ensure_huddle_model, try_except, bind at 1.
  destruct (get_returns (HuddleModels.get_huddle_model_id huddle) w)
    as (o & w1 & ->).
  destruct o as [r|].
  - unfold bind.
    match goal with
    | |- context [HuddleModelService.update_model_by_id Models ?i ?f w1] =>
        destruct (update_returns_row i f w1) as (r' & w2 & ->)
    end.
    cbn. eauto.
  - unfold bind.
    match goal with
    | |- context [HuddleModelService.insert_new_model Models ?f ?u w1] =>
        destruct (insert_returns_row f u w1) as (r' & w2 & ->)
    end.
    cbn. eauto.
Qed.

Lemma ensure_each_counts_all (huddles : list Tenants.HuddleModel)
    (system_user_id : string) :
  forall s : HuddleModelService.Counting W,
  exists s',
    HuddleModelService.ensure_each Models huddles system_user_id s = (Ok tt, s')
    /\ HuddleModelService.count s'
       = HuddleModelService.count s + Z.of_nat (List.length huddles).
Proof.
  induction huddles as [|huddle rest IH]; intros s.
  - exists s. cbn. split; [reflexivity | lia].
  - cbn [HuddleModelService.ensure_each].
    unfold bind at 1, HuddleModelService.in_store at 1.
    destruct (ensure_huddle_model_succeeds huddle system_user_id None
                (HuddleModelService.store s)) as (w' & ->).
    unfold bind at 1, HuddleModelService.increment at 1.
    cbn [HuddleModelService.store HuddleModelService.count].
    match goal with
    | |- context [HuddleModelService.ensure_each _ _ _ ?s1] =>
        destruct (IH s1) as (s' & Hrest & Hcount)
    end.
    exists s'. split; [exact Hrest|]. cbn in Hcount.
    cbn [List.length]. lia.
Qed.

End EnsureFacts.

Lemma all_huddles_page (rows : list Tenants.Huddle) :
  exists page,
    TenantsListing.get_all_huddles (Online rows) false 0 100 = Ok page
    /\ List.length page
       = Nat.min 100
           (List.length
              (List.filter (fun h => Mentors.is_null (Tenants.h_deleted_at h))
                 rows)).
Proof.
  unfold TenantsListing.get_all_huddles, Mentors.offset, Mentors.limit_rows.
  cbn [negb Z.eqb Z.ltb Z.compare rbind].
  eexists. split; [reflexivity|].
  rewrite length_map, length_firstn.
  rewrite (Permutation_length (order_by_name_perm _)).
  reflexivity.
Qed.

(** X27. Ensuring the models of all huddles never raises and answers a
    count between 0 and 100 that does not exceed the number of huddles that
    are not deleted, whatever the [Models] table does for each of them.
    When the directory cannot be read the count is 0 and the [Models] table
    is not touched. *)
Theorem X27_ensure_all_is_bounded :
  forall (W R : Type) (Models : HuddleModelService.ModelsTable W R)
         (huddles : Store Tenants.Huddle) (system_user_id : string) (w : W),
    let answer :=
      HuddleModelService.ensure_all_huddle_models Models huddles
        system_user_id w in
    0 <= fst answer <= 100
    /\ fst answer
       <= Z.of_nat
            (List.length
               (List.filter (fun h => Mentors.is_null (Tenants.h_deleted_at h))
                  (Spec.rows_of huddles)))
    /\ match huddles with
       | Offline _ => answer = (0, w)
       | Online _ => True
       end.
Proof.
  intros W R Models huddles uid w answer. subst answer.
  unfold HuddleModelService.ensure_all_huddle_models.
  destruct huddles as [rows|e].
  - destruct (all_huddles_page rows) as (page & Hq & Hlen).
    unfold try_except, bind, lift_result. rewrite Hq.
    destruct (ensure_each_counts Models page uid
                {| HuddleModelService.store := w;
                   HuddleModelService.count := 0 |})
      as (s' & Hrun & Hlo & Hhi).
    rewrite Hrun.
    cbn [fst HuddleModelService.count HuddleModelService.store Spec.rows_of]
      in *.
    lia.
  - cbn. repeat split; lia.
Qed.

(** X28. With a [Models] table whose lookups return and whose updates and
    inserts answer with a row, every huddle that is not deleted is counted,
    up to the first hundred in the order of their names. *)
Theorem X28_ensure_all_counts_every_live_huddle :
  forall (W R : Type) (Models : HuddleModelService.ModelsTable W R)
         (rows : list Tenants.Huddle) (system_user_id : string) (w : W),
    (forall id w, exists o w',
        HuddleModelService.get_model_by_id Models id w = (Ok o, w')) ->
    (forall id form w, exists r w',
        HuddleModelService.update_model_by_id Models id form w
        = (Ok (Some r), w')) ->
    (forall form user_id w, exists r w',
        HuddleModelService.insert_new_model Models form user_id w
        = (Ok (Some r), w')) ->
    fst (HuddleModelService.ensure_all_huddle_models Models (Online rows)
           system_user_id w)
    = Z.of_nat
        (Nat.min 100
           (List.length
              (List.filter (fun h => Mentors.is_null (Tenants.h_deleted_at h))
                 rows))).
Proof.
  intros W R Models rows uid w Hget Hupd Hins.
  unfold HuddleModelService.ensure_all_huddle_models.
  destruct (all_huddles_page rows) as (page & Hq & Hlen).
  unfold try_except, bind, lift_result. rewrite Hq.
  destruct (ensure_each_counts_all Models Hget Hupd Hins page uid
              {| HuddleModelService.store := w;
                 HuddleModelService.count := 0 |})
    as (s' & Hrun & Hcount).
  rewrite Hrun.
  cbn [fst HuddleModelService.count HuddleModelService.store] in *.
  lia.
Qed.

Lemma X28_ensure_all_counts_every_live_huddle_witness :
  fst (HuddleModelService.ensure_all_huddle_models SampleModels.table
         (Online (Spec.rows_of Sample.huddles)) "system" [])
  = Z.of_nat
      (Nat.min 100
         (List.length
            (List.filter (fun h => Mentors.is_null (Tenants.h_deleted_at h))
               (Spec.rows_of Sample.huddles)))).
Proof.
  apply (X28_ensure_all_counts_every_live_huddle (list string) unit
           SampleModels.table (Spec.rows_of Sample.huddles) "system" []).
  - intros id w. cbn. eauto.
  - intros id form w. cbn. eauto.
  - intros form user_id w. cbn. eauto.
Defined.

(** X29. The default model of a huddle is its own model and no other: an
    answer, when there is one, is [alumnihuddle-] followed by the slug.  The
    function raises exactly when its first lookup in the [Models] table
    raises, a failure while creating the model being answered with [None];
    and when the lookup finds the model nothing is written. *)
Theorem X29_default_model_is_the_huddle_model :
  forall (W R : Type) (Models : HuddleModelService.ModelsTable W R)
         (huddle : Tenants.HuddleModel) (w : W),
    let model_id := "alumnihuddle-" +:+ Tenants.slug huddle in
    let lookup := HuddleModelService.get_model_by_id Models model_id w in
    let answer :=
      HuddleModelService.get_default_model_for_huddle Models huddle w in
    match fst lookup with
    | Raise e => answer = (Raise e, snd lookup)
    | Ok (Some _) => answer = (Ok (Some model_id), snd lookup)
    | Ok None =>
        exists w', answer = (Ok None, w') \/ answer = (Ok (Some model_id), w')
    end.
Proof.
  intros W R Models huddle w model_id lookup answer.
  subst answer lookup model_id.
  unfold HuddleModelService.get_default_model_for_huddle.
  change (HuddleModels.get_huddle_model_id huddle)
    with ("alumnihuddle-" +:+ Tenants.slug huddle).
  unfold bind.
  destruct (HuddleModelService.get_model_by_id Models _ w) as [[[r|]|e] w1];
    cbn [fst snd]; [reflexivity | | reflexivity].
  destruct (ensure_huddle_model_returns Models huddle "system" None w1)
    as (done & w2 & Hrun).
  rewrite Hrun.
  exists w2. destruct done as [[|]|]; cbn; auto.
Qed.
